(** * Form-field classification and fill/submit decision engine

    A shallow embedding of [external_form_mapper.py] (class
    [ExternalFormMapper]) and of the Easy Apply path of
    [linkedin_application_handler.py] (class [LinkedInApplicationHandler]).

    The browser driver is a black box: every Selenium call is an operation
    of an abstract [Driver] over an abstract world, and each call may
    return a value or raise.  The Python methods are written in a state
    and exception monad over that driver, with [try]/[except] as explicit
    combinators, so that the place where an exception is caught is the
    place where the source catches it. *)

From Stdlib Require Import String Ascii List Bool Arith Lia DecimalString.
From stdpp Require Import base option list gmap strings.

Local Open Scope string_scope.
Local Open Scope list_scope.

(** ** Python strings

    Text is modelled as strings of 8-bit characters and [a in b] on
    strings is the substring test.  [lower] is [str.lower] on ASCII text
    ([is_ascii]), where Python changes the letters A to Z and nothing
    else.  On other text [str.lower] follows Unicode (U+212A, the Kelvin
    sign, becomes "k"), which [lower] does not model: the theorems that
    say which lower-cased text a phrase is found in are stated for ASCII
    text. *)
Module Py.

(** Every character of [s] is below 128. *)
Fixpoint is_ascii (s : string) : bool :=
  match s with
  | EmptyString => true
  | String c s' => (nat_of_ascii c <? 128)%nat && is_ascii s'
  end.

Definition lower_ascii (c : ascii) : ascii :=
  let n := nat_of_ascii c in
  if (65 <=? n)%nat && (n <=? 90)%nat then ascii_of_nat (n + 32) else c.

Fixpoint lower (s : string) : string :=
  match s with
  | EmptyString => EmptyString
  | String c s' => String (lower_ascii c) (lower s')
  end.

(** [str_in needle hay] is Python's [needle in hay]. *)
Fixpoint str_in (needle hay : string) : bool :=
  if String.prefix needle hay then true
  else match hay with
       | EmptyString => false
       | String _ hay' => str_in needle hay'
       end.

(** [any(word in text for word in words)] *)
Definition any_in (words : list string) (text : string) : bool :=
  existsb (fun word => str_in word text) words.

(** Truth value of an attribute read: [None] and [""] are falsy. *)
Definition truthy (v : option string) : bool :=
  match v with
  | None => false
  | Some EmptyString => false
  | Some _ => true
  end.

(** [a or b] on attribute values. *)
Definition or_ (a b : option string) : option string :=
  if truthy a then a else b.

(** [x or dflt] with the empty string as [dflt]: the string an attribute
    read is defaulted to. *)
Definition or_empty (a : option string) : string :=
  match a with Some s => s | None => EmptyString end.

(** [d.get(key, [])] on a dict of lists. *)
Definition get_list {A} (d : gmap string (list A)) (key : string) : list A :=
  match d !! key with Some l => l | None => [] end.

(** [d.get(key, dflt)] on a dict of strings. *)
Definition get_str (d : gmap string string) (key dflt : string) : string :=
  match d !! key with Some v => v | None => dflt end.

(** The double-quote character of the CSS selectors. *)
Definition dq : string := String "034"%char EmptyString.

(** [tag[attr op "value"]], the shape of the attribute selectors. *)
Definition css (tag attr op value : string) : string :=
  tag +:+ "[" +:+ attr +:+ op +:+ dq +:+ value +:+ dq +:+ "]".

(** [x == "lit"] where [x] may be [None]. *)
Definition eq_str (a : option string) (lit : string) : bool :=
  match a with Some s => String.eqb s lit | None => false end.

(** [x in [lit, ...]] where [x] may be [None]. *)
Definition in_list (a : option string) (lits : list string) : bool :=
  existsb (eq_str a) lits.

End Py.

(** ** Exceptions and results *)

(** The subclasses of Python's [Exception] that the code can meet.
    [KeyboardInterrupt] and the other [BaseException]-only signals are not
    errors of the DOM and are outside the model. *)
Inductive exn : Type :=
| NoSuchElementException
| TimeoutException
| WebDriverException
| KeyError.

Inductive result (A : Type) : Type :=
| Ok (a : A)
| Raise (e : exn).
Arguments Ok {A} a.
Arguments Raise {A} e.

(** ** The driver *)

Definition WebElement := nat.

Inductive By := TAG_NAME | CSS_SELECTOR.

(** The calls the two classes make on Selenium, on [time] and on the file
    system.  Each takes the world and gives it back; a read may change
    the world as well (the page is live). *)
Record Driver (W : Type) : Type := {
  current_url : W -> result string * W;
  page_source : W -> result string * W;
  find_elements : By -> string -> W -> result (list WebElement) * W;
  find_element : By -> string -> W -> result WebElement * W;
  is_displayed : WebElement -> W -> result bool * W;
  is_enabled : WebElement -> W -> result bool * W;
  get_attribute : WebElement -> string -> W -> result (option string) * W;
  text : WebElement -> W -> result string * W;
  clear : WebElement -> W -> result unit * W;
  send_keys : WebElement -> string -> W -> result unit * W;
  click : WebElement -> W -> result unit * W;
  (* [Select(field)], [select.options], [select.select_by_...] *)
  Select : WebElement -> W -> result unit * W;
  options : WebElement -> W -> result (list WebElement) * W;
  select_by_visible_text : WebElement -> string -> W -> result unit * W;
  select_by_index : WebElement -> nat -> W -> result unit * W;
  (* [WebDriverWait(driver, 10).until(EC.presence_of_element_located(..))] *)
  wait_presence : string -> W -> result WebElement * W;
  (* [time.sleep(random.uniform(a, b))]: the world moves on, nothing is raised *)
  sleep : W -> W;
  (* [tempfile.mkdtemp()] and [open(path, 'w').write(content)] *)
  mkdtemp : W -> result string * W;
  write_file : string -> string -> W -> result unit * W
}.
Arguments current_url {W} _ _.
Arguments page_source {W} _ _.
Arguments find_elements {W} _ _ _ _.
Arguments find_element {W} _ _ _ _.
Arguments is_displayed {W} _ _ _.
Arguments is_enabled {W} _ _ _.
Arguments get_attribute {W} _ _ _ _.
Arguments text {W} _ _ _.
Arguments clear {W} _ _ _.
Arguments send_keys {W} _ _ _ _.
Arguments click {W} _ _ _.
Arguments Select {W} _ _ _.
Arguments options {W} _ _ _.
Arguments select_by_visible_text {W} _ _ _ _.
Arguments select_by_index {W} _ _ _ _.
Arguments wait_presence {W} _ _ _.
Arguments sleep {W} _ _.
Arguments mkdtemp {W} _ _.
Arguments write_file {W} _ _ _ _.

(** What the code did to the page, most recent first. *)
Inductive Event : Type :=
| EvClear (e : WebElement)
| EvSendKeys (e : WebElement) (keys : string)
| EvClick (e : WebElement)
| EvSelectByVisibleText (e : WebElement) (txt : string)
| EvSelectByIndex (e : WebElement) (i : nat).

Definition is_click (ev : Event) : bool :=
  match ev with EvClick _ => true | _ => false end.

Definition is_select (ev : Event) : bool :=
  match ev with
  | EvSelectByVisibleText _ _ | EvSelectByIndex _ _ => true
  | _ => false
  end.

(** The state a method runs in: the world behind the driver, the log of
    the actions issued so far, and [self.temp_files] of the LinkedIn
    handler. *)
Record St (W : Type) : Type := mkSt {
  world : W;
  trace : list Event;
  temp_files : list string
}.
Arguments mkSt {W} _ _ _.
Arguments world {W} _.
Arguments trace {W} _.
Arguments temp_files {W} _.

(** ** The monad *)

Definition M (W A : Type) : Type := St W -> result A * St W.

Definition ret {W A} (a : A) : M W A := fun st => (Ok a, st).

Definition bind {W A B} (m : M W A) (k : A -> M W B) : M W B :=
  fun st =>
    match m st with
    | (Ok a, st') => k a st'
    | (Raise e, st') => (Raise e, st')
    end.

Definition raise {W A} (e : exn) : M W A := fun st => (Raise e, st).

(** [try: body except Exception: handler] *)
Definition try_except {W A} (body : M W A) (handler : exn -> M W A) : M W A :=
  fun st =>
    match body st with
    | (Ok a, st') => (Ok a, st')
    | (Raise e, st') => handler e st'
    end.

(** [try: body except NoSuchElementException: handler]; any other
    exception goes on to the enclosing handler. *)
Definition try_except_NoSuchElement {W A} (body : M W A) (handler : M W A) : M W A :=
  fun st =>
    match body st with
    | (Ok a, st') => (Ok a, st')
    | (Raise NoSuchElementException, st') => handler st'
    | (Raise e, st') => (Raise e, st')
    end.

(** A driver read or call that leaves no entry in the log. *)
Definition call {W A} (op : W -> result A * W) : M W A :=
  fun st =>
    let '(r, w) := op (world st) in
    (r, mkSt w (trace st) (temp_files st)).

(** A driver action on the page: logged, then issued. *)
Definition act {W A} (ev : Event) (op : W -> result A * W) : M W A :=
  fun st =>
    let '(r, w) := op (world st) in
    (r, mkSt w (ev :: trace st) (temp_files st)).

(** [time.sleep(random.uniform(a, b))] *)
Definition pause {W} (drv : Driver W) : M W unit :=
  fun st => (Ok tt, mkSt (sleep drv (world st)) (trace st) (temp_files st)).

(** [m] returns a value from every state: no exception leaves it. *)
Definition total {W A} (m : M W A) : Prop :=
  forall st, exists a st', m st = (Ok a, st').

(** [m] adds no event selected by [P] to the log. *)
Definition preserves {W} (P : Event -> bool) {A} (m : M W A) : Prop :=
  forall st, List.filter P (trace (snd (m st))) = List.filter P (trace st).

(** Whether a driver call went through. *)
Definition succeeded {A} (r : result A) : bool :=
  match r with Ok _ => true | Raise _ => false end.

Declare Scope py_scope.
Delimit Scope py_scope with py.
Notation "x <- m ;; k" := (bind m (fun x => k))
  (at level 100, m at next level, right associativity) : py_scope.
Notation "m ;;; k" := (bind m (fun _ => k))
  (at level 100, right associativity) : py_scope.
Local Open Scope py_scope.

(** ** [ExternalFormMapper] *)
Module ExternalFormMapper.

(** One entry of [load_form_patterns]: the display name and the selector
    lists, in the order the dict literal gives them (the order
    [.items()] iterates in). *)
Record Pattern : Type := {
  name : string;
  selectors : list (string * list string)
}.

Definition resume_upload_2 : list string :=
  [ Py.css "input" "type" "=" "file"; Py.css "input" "accept" "*=" ".pdf" ].

Definition submit_button_2 : list string :=
  [ Py.css "button" "type" "=" "submit"; Py.css "input" "type" "=" "submit" ].

(** The selector table shared by 'lever', 'greenhouse' and 'bamboo'. *)
Definition exact_name_selectors : list (string * list string) :=
  [ ("name_fields", [ Py.css "input" "name" "=" "name"; Py.css "input" "name" "=" "full_name" ]);
    ("email_fields", [ Py.css "input" "name" "=" "email"; Py.css "input" "type" "=" "email" ]);
    ("phone_fields", [ Py.css "input" "name" "=" "phone"; Py.css "input" "type" "=" "tel" ]);
    ("resume_upload", resume_upload_2);
    ("submit_button", submit_button_2) ].

Definition workday_pattern : Pattern :=
  {| name := "Workday";
     selectors :=
       [ ("name_fields", [ Py.css "input" "name" "*=" "name"; Py.css "input" "id" "*=" "name" ]);
         ("email_fields", [ Py.css "input" "type" "=" "email"; Py.css "input" "name" "*=" "email" ]);
         ("phone_fields", [ Py.css "input" "type" "=" "tel"; Py.css "input" "name" "*=" "phone" ]);
         ("resume_upload", resume_upload_2);
         ("submit_button", submit_button_2) ] |}.

Definition lever_pattern : Pattern :=
  {| name := "Lever"; selectors := exact_name_selectors |}.

Definition greenhouse_pattern : Pattern :=
  {| name := "Greenhouse"; selectors := exact_name_selectors |}.

Definition bamboo_pattern : Pattern :=
  {| name := "BambooHR"; selectors := exact_name_selectors |}.

Definition generic_pattern : Pattern :=
  {| name := "Generic Form";
     selectors :=
       [ ("name_fields", [ Py.css "input" "name" "*=" "name"; Py.css "input" "id" "*=" "name";
                           Py.css "input" "placeholder" "*=" "name" ]);
         ("email_fields", [ Py.css "input" "type" "=" "email"; Py.css "input" "name" "*=" "email";
                            Py.css "input" "placeholder" "*=" "email" ]);
         ("phone_fields", [ Py.css "input" "type" "=" "tel"; Py.css "input" "name" "*=" "phone";
                            Py.css "input" "placeholder" "*=" "phone" ]);
         ("resume_upload", [ Py.css "input" "type" "=" "file"; Py.css "input" "accept" "*=" ".pdf";
                             Py.css "input" "accept" "*=" ".doc" ]);
         ("submit_button", [ Py.css "button" "type" "=" "submit"; Py.css "input" "type" "=" "submit";
                             "button:contains(" +:+ Py.dq +:+ "Submit" +:+ Py.dq +:+ ")" ]) ] |}.

(** [load_form_patterns], held in [self.form_patterns]. *)
Definition form_patterns : gmap string Pattern :=
  <["workday" := workday_pattern]>
  (<["lever" := lever_pattern]>
  (<["greenhouse" := greenhouse_pattern]>
  (<["bamboo" := bamboo_pattern]>
  (<["generic" := generic_pattern]> ∅)))).

Definition form_indicators : list string :=
  [ "form"; "application"; "apply"; "submit"; "upload"; "resume"; "cover letter" ].

Definition success_indicators : list string :=
  [ "thank you"; "application submitted"; "application received";
    "successfully applied"; "application complete"; "confirmation" ].

Definition error_indicators : list string :=
  [ "error occurred"; "application failed"; "please try again";
    "something went wrong"; "validation error" ].

Definition relevant_types : list string := [ "text"; "email"; "tel"; "number"; "url" ].

Definition relevant_names : list string :=
  [ "experience"; "years"; "skills"; "education"; "location"; "salary"; "availability" ].

Definition select_words : list string :=
  [ "yes"; "available"; "immediate"; "bachelor"; "5+" ].

Definition cover_letter_selectors : list string :=
  [ Py.css "textarea" "name" "*=" "cover";
    Py.css "textarea" "name" "*=" "letter";
    Py.css "textarea" "placeholder" "*=" "cover";
    Py.css "textarea" "placeholder" "*=" "letter";
    Py.css "textarea" "name" "*=" "message";
    Py.css "textarea" "name" "*=" "additional" ].

(** [get_field_value]: the canonical-field path.  The comparisons and
    [dict.get] raise nothing, so the [try] of the source is never left
    through its handler. *)
Definition get_field_value (field_type : string) (profile_data : gmap string string)
  : option string :=
  if String.eqb field_type "name" then Some (Py.get_str profile_data "name" "John Doe")
  else if String.eqb field_type "email" then
    Some (Py.get_str profile_data "email" "john.doe@example.com")
  else if String.eqb field_type "phone" then
    Some (Py.get_str profile_data "phone" "+65 9123 4567")
  else if String.eqb field_type "experience" then
    Some (Py.get_str profile_data "years_experience" "5")
  else if String.eqb field_type "location" then
    Some (Py.get_str profile_data "location" "Singapore")
  else None.

(** [get_additional_field_value]: the keyword rules on
    [(field_name + " " + field_placeholder).lower()], then the defaults by
    declared type.  [field_type] is [None] when the attribute is absent. *)
Definition get_additional_field_value
    (field_type : option string) (field_name field_placeholder : string)
  : option string :=
  let field_text := Py.lower (field_name +:+ " " +:+ field_placeholder) in
  if Py.any_in ["experience"; "years"] field_text then Some "5"
  else if Py.any_in ["skills"; "technologies"] field_text then
    Some "Python, SQL, Data Engineering, AWS, Apache Spark"
  else if Py.any_in ["education"; "degree"] field_text then
    Some "Bachelor's Degree in Computer Science"
  else if Py.any_in ["location"; "city"] field_text then Some "Singapore"
  else if Py.any_in ["salary"; "compensation"] field_text then Some "Negotiable"
  else if Py.any_in ["availability"; "start date"] field_text then Some "Immediate"
  else if Py.any_in ["portfolio"; "github"; "website"] field_text then
    Some "https://github.com/username"
  else if Py.eq_str field_type "text" then Some "See resume for details"
  else if Py.eq_str field_type "number" then Some "5"
  else if Py.eq_str field_type "email" then Some "john.doe@example.com"
  else None.

Section WithDriver.
Context {W : Type} (drv : Driver W).

Definition time_sleep : M W unit := pause drv.

(** [human_type]: one [send_keys] and one pause per character; no [try]. *)
Fixpoint human_type (element : WebElement) (txt : string) : M W unit :=
  match txt with
  | EmptyString => ret tt
  | String c rest =>
      let char := String c EmptyString in
      act (EvSendKeys element char) (send_keys drv element char) ;;;
      time_sleep ;;;
      human_type element rest
  end.

(** [check_submission_success]: the two [for] loops return at the first
    indicator found in the lower-cased page source. *)
Definition check_submission_success : M W bool :=
  try_except
    (src <- call (page_source drv) ;;
     let page_text := Py.lower src in
     if Py.any_in success_indicators page_text then ret true
     else if Py.any_in error_indicators page_text then ret false
     else ret true)
    (fun _ => ret false).

(** [detect_form_patterns] *)
Definition detect_form_patterns : M W bool :=
  try_except
    (src <- call (page_source drv) ;;
     let page_text := Py.lower src in
     let form_count :=
       length (List.filter (fun indicator => Py.str_in indicator page_text) form_indicators) in
     forms <- call (find_elements drv TAG_NAME "form") ;;
     inputs <- call (find_elements drv TAG_NAME "input") ;;
     ret ((3 <=? form_count)%nat || (0 <? length forms)%nat || (5 <? length inputs)%nat))
    (fun _ => ret false).

(** [detect_application_system]: both reads come first, then the URL
    scan, the page-source scan and the form heuristic. *)
Definition detect_application_system : M W string :=
  try_except
    (url <- call (current_url drv) ;;
     let url := Py.lower url in
     src <- call (page_source drv) ;;
     let src := Py.lower src in
     if Py.str_in "workday" url then ret "workday"
     else if Py.str_in "lever" url then ret "lever"
     else if Py.str_in "greenhouse" url then ret "greenhouse"
     else if Py.str_in "bamboo" url then ret "bamboo"
     else if Py.str_in "workday" src then ret "workday"
     else if Py.str_in "lever" src then ret "lever"
     else if Py.str_in "greenhouse" src then ret "greenhouse"
     else if Py.str_in "bamboo" src then ret "bamboo"
     else
       looks <- detect_form_patterns ;;
       if looks then ret "generic" else ret "unknown")
    (fun _ => ret "unknown").

(** The inner loop of [find_fields_by_selectors] over the elements one
    selector matched; [fields] is the list being appended to.  When a
    visibility read raises, the source leaves the loop for the [except]
    clause, which only goes on to the next selector: the elements appended
    so far stay in [fields]. *)
Fixpoint append_interactable (elements fields : list WebElement) : M W (list WebElement) :=
  match elements with
  | [] => ret fields
  | element :: rest =>
      keep <- try_except
                (d <- call (is_displayed drv element) ;;
                 if d then (e <- call (is_enabled drv element) ;; ret (Some e))
                 else ret (Some false))
                (fun _ => ret None) ;;
      match keep with
      | Some true => append_interactable rest (fields ++ [element])
      | Some false => append_interactable rest fields
      | None => ret fields
      end
  end.

Fixpoint find_fields_loop (sels : list string) (fields : list WebElement)
  : M W (list WebElement) :=
  match sels with
  | [] => ret fields
  | selector :: rest =>
      found <- try_except
                 (elements <- call (find_elements drv CSS_SELECTOR selector) ;;
                  ret (Some elements))
                 (fun _ => ret None) ;;
      match found with
      | Some elements =>
          fields' <- append_interactable elements fields ;;
          find_fields_loop rest fields'
      | None => find_fields_loop rest fields
      end
  end.

(** [find_fields_by_selectors] *)
Definition find_fields_by_selectors (sels : list string) : M W (list WebElement) :=
  find_fields_loop sels [].

(** The [for field_type, selectors in ...items()] loop of [map_form_fields]. *)
Fixpoint map_each (items : list (string * list string))
    (mapped_fields : gmap string (list WebElement))
  : M W (gmap string (list WebElement)) :=
  match items with
  | [] => ret mapped_fields
  | (field_type, sels) :: rest =>
      fields <- find_fields_by_selectors sels ;;
      map_each rest (<[field_type := fields]> mapped_fields)
  end.

(** [map_form_fields] *)
Definition map_form_fields (system_type : string) : M W (gmap string (list WebElement)) :=
  try_except
    (let system_type :=
       match form_patterns !! system_type with
       | None => "generic"
       | Some _ => system_type
       end in
     match form_patterns !! system_type with
     | None => raise KeyError
     | Some patterns => map_each (selectors patterns) ∅
     end)
    (fun _ => ret ∅).

(** [fill_field_appropriately] *)
Definition fill_field_appropriately (field : WebElement) (field_type : string)
    (profile_data : gmap string string) : M W bool :=
  try_except
    (let value := get_field_value field_type profile_data in
     if Py.truthy value then
       act (EvClear field) (clear drv field) ;;;
       time_sleep ;;;
       human_type field (Py.or_empty value) ;;;
       time_sleep ;;;
       ret true
     else ret false)
    (fun _ => ret false).

(** One [for field in ...: if not field.get_attribute("value"): ...; break]
    loop of [fill_basic_fields]. *)
Fixpoint fill_first_empty (fields : list WebElement) (field_type : string)
    (profile_data : gmap string string) : M W unit :=
  match fields with
  | [] => ret tt
  | field :: rest =>
      value <- call (get_attribute drv field "value") ;;
      if negb (Py.truthy value) then
        fill_field_appropriately field field_type profile_data ;;; ret tt
      else fill_first_empty rest field_type profile_data
  end.

(** [fill_basic_fields] *)
Definition fill_basic_fields (mapped_fields : gmap string (list WebElement))
    (profile_data : gmap string string) : M W unit :=
  try_except
    (fill_first_empty (Py.get_list mapped_fields "name_fields") "name" profile_data ;;;
     fill_first_empty (Py.get_list mapped_fields "email_fields") "email" profile_data ;;;
     fill_first_empty (Py.get_list mapped_fields "phone_fields") "phone" profile_data)
    (fun _ => ret tt).

(** [handle_resume_upload] *)
Definition handle_resume_upload (resume_fields : list WebElement) (resume_file : string)
  : M W bool :=
  try_except
    (match resume_fields with
     | [] => ret false
     | resume_field :: _ =>
         act (EvSendKeys resume_field resume_file) (send_keys drv resume_field resume_file) ;;;
         time_sleep ;;;
         ret true
     end)
    (fun _ => ret false).

(** [should_fill_additional_field] *)
Definition should_fill_additional_field (field : WebElement) : M W bool :=
  try_except
    (displayed <- call (is_displayed drv field) ;;
     if negb displayed then ret false else
     enabled <- call (is_enabled drv field) ;;
     if negb enabled then ret false else
     value <- call (get_attribute drv field "value") ;;
     if Py.truthy value then ret false else
     required <- call (get_attribute drv field "required") ;;
     required <- (if Py.truthy required then ret required
                  else call (get_attribute drv field "aria-required")) ;;
     if Py.truthy required then ret true else
     field_type <- call (get_attribute drv field "type") ;;
     field_name <- call (get_attribute drv field "name") ;;
     field_name <- (if Py.truthy field_name then ret field_name
                    else call (get_attribute drv field "id")) ;;
     let field_name := Py.or_empty field_name in
     field_placeholder <- call (get_attribute drv field "placeholder") ;;
     let field_placeholder := Py.or_empty field_placeholder in
     if Py.in_list field_type relevant_types then ret true
     else if Py.any_in relevant_names (Py.lower field_name) then ret true
     else if Py.any_in relevant_names (Py.lower field_placeholder) then ret true
     else ret false)
    (fun _ => ret false).

(** [fill_additional_field] *)
Definition fill_additional_field (field : WebElement) : M W bool :=
  try_except
    (field_type <- call (get_attribute drv field "type") ;;
     field_name <- call (get_attribute drv field "name") ;;
     field_name <- (if Py.truthy field_name then ret field_name
                    else call (get_attribute drv field "id")) ;;
     let field_name := Py.or_empty field_name in
     field_placeholder <- call (get_attribute drv field "placeholder") ;;
     let field_placeholder := Py.or_empty field_placeholder in
     let value := get_additional_field_value field_type field_name field_placeholder in
     if Py.truthy value then
       act (EvClear field) (clear drv field) ;;;
       time_sleep ;;;
       human_type field (Py.or_empty value) ;;;
       time_sleep ;;;
       ret true
     else ret false)
    (fun _ => ret false).

(** The [for option in options] loop of [fill_select_field]: [Some true]
    when it returned from inside the loop, [None] when it ran through.
    [option.text] is read once for the test and once more for the call. *)
Fixpoint scan_options (field : WebElement) (opts : list WebElement) : M W (option bool) :=
  match opts with
  | [] => ret None
  | opt :: rest =>
      option_text <- call (text drv opt) ;;
      if Py.any_in select_words (Py.lower option_text) then
        visible <- call (text drv opt) ;;
        act (EvSelectByVisibleText field visible) (select_by_visible_text drv field visible) ;;;
        time_sleep ;;;
        ret (Some true)
      else scan_options field rest
  end.

(** [fill_select_field] *)
Definition fill_select_field (field : WebElement) : M W bool :=
  try_except
    (call (Select drv field) ;;;
     opts <- call (options drv field) ;;
     if (1 <? length opts)%nat then
       returned <- scan_options field opts ;;
       match returned with
       | Some b => ret b
       | None =>
           if (1 <? length opts)%nat then
             act (EvSelectByIndex field 1) (select_by_index drv field 1) ;;;
             time_sleep ;;;
             ret true
           else ret false
       end
     else ret false)
    (fun _ => ret false).

(** One of the three loops of [fill_additional_questions], with the
    counter [questions_filled]. *)
Fixpoint fill_each (fill : WebElement -> M W bool) (fields : list WebElement)
    (questions_filled : nat) : M W nat :=
  match fields with
  | [] => ret questions_filled
  | field :: rest =>
      wanted <- should_fill_additional_field field ;;
      if wanted then
        filled <- fill field ;;
        fill_each fill rest (if filled then questions_filled + 1 else questions_filled)
      else fill_each fill rest questions_filled
  end.

(** [fill_additional_questions] *)
Definition fill_additional_questions (mapped_fields : gmap string (list WebElement))
  : M W nat :=
  try_except
    (all_inputs <- call (find_elements drv TAG_NAME "input") ;;
     all_textareas <- call (find_elements drv TAG_NAME "textarea") ;;
     all_selects <- call (find_elements drv TAG_NAME "select") ;;
     questions_filled <- fill_each fill_additional_field all_inputs 0 ;;
     questions_filled <- fill_each fill_additional_field all_textareas questions_filled ;;
     fill_each fill_select_field all_selects questions_filled)
    (fun _ => ret 0).

(** The [for selector in cover_letter_selectors] loop of
    [add_cover_letter]: a missing element moves on to the next selector,
    any other exception leaves the loop. *)
Fixpoint cover_letter_loop (sels : list string) (cover_letter : string) : M W bool :=
  match sels with
  | [] => ret false
  | selector :: rest =>
      returned <- try_except_NoSuchElement
                    (field <- call (find_element drv CSS_SELECTOR selector) ;;
                     displayed <- call (is_displayed drv field) ;;
                     usable <- (if displayed then call (is_enabled drv field) else ret false) ;;
                     if usable then
                       act (EvClear field) (clear drv field) ;;;
                       time_sleep ;;;
                       human_type field cover_letter ;;;
                       ret (Some true)
                     else ret None)
                    (ret None) ;;
      match returned with
      | Some b => ret b
      | None => cover_letter_loop rest cover_letter
      end
  end.

(** [add_cover_letter] *)
Definition add_cover_letter (mapped_fields : gmap string (list WebElement))
    (cover_letter : string) : M W bool :=
  try_except (cover_letter_loop cover_letter_selectors cover_letter) (fun _ => ret false).

(** The [for submit_field in submit_fields] loop of [submit_form]: the
    first enabled candidate whose click does not raise decides. *)
Fixpoint submit_loop (submit_fields : list WebElement) : M W bool :=
  match submit_fields with
  | [] => ret false
  | submit_field :: rest =>
      returned <- try_except
                    (enabled <- call (is_enabled drv submit_field) ;;
                     if enabled then
                       act (EvClick submit_field) (click drv submit_field) ;;;
                       time_sleep ;;;
                       ok <- check_submission_success ;;
                       ret (Some ok)
                     else ret None)
                    (fun _ => ret None) ;;
      match returned with
      | Some b => ret b
      | None => submit_loop rest
      end
  end.

(** [submit_form] *)
Definition submit_form (submit_fields : list WebElement) : M W bool :=
  try_except
    (match submit_fields with
     | [] => ret false
     | _ => submit_loop submit_fields
     end)
    (fun _ => ret false).

(** [fill_application_form] *)
Definition fill_application_form (mapped_fields : gmap string (list WebElement))
    (profile_data : gmap string string) (resume_file cover_letter : string) : M W bool :=
  try_except
    (fill_basic_fields mapped_fields profile_data ;;;
     resume_uploaded <- handle_resume_upload (Py.get_list mapped_fields "resume_upload")
                                             resume_file ;;
     questions_filled <- fill_additional_questions mapped_fields ;;
     cover_letter_added <- add_cover_letter mapped_fields cover_letter ;;
     if resume_uploaded then submit_form (Py.get_list mapped_fields "submit_button")
     else ret false)
    (fun _ => ret false).

End WithDriver.

End ExternalFormMapper.

(** ** [LinkedInApplicationHandler]: the Easy Apply path *)
Module LinkedInApplicationHandler.

Definition file_input_selectors : list string :=
  [ "input[type='file']"; "input[accept*='.pdf']"; "input[accept*='.doc']";
    "input[accept*='.docx']"; "[data-test-id='resume-upload-input']" ].

Definition question_selectors : list string :=
  [ "input[type='text']"; "textarea"; "select"; "input[type='number']";
    "input[type='email']"; "input[type='tel']" ].

Definition cover_letter_selectors : list string :=
  [ "textarea[name*='cover']"; "textarea[name*='letter']";
    "textarea[placeholder*='cover']"; "textarea[placeholder*='letter']";
    "[data-test-id='cover-letter-input']" ].

Definition submit_selectors : list string :=
  [ "button[data-control-name='submit_unify']";
    "button[aria-label='Submit application']";
    "button[type='submit']";
    ".jobs-easy-apply-content button:last-child" ].

Definition success_indicators : list string :=
  [ "Application submitted"; "Thank you for your application"; "Application received";
    "Successfully applied"; "Application complete" ].

Definition error_indicators : list string :=
  [ "error occurred"; "application failed"; "please try again"; "something went wrong" ].

Definition relevant_types : list string := [ "text"; "email"; "tel"; "number"; "url" ].

Definition relevant_names : list string :=
  [ "name"; "email"; "phone"; "experience"; "years"; "skills" ].

(** [get_field_value]; [field_name] arrives lower-cased. *)
Definition get_field_value (field_type : option string) (field_name : string)
  : option string :=
  if Py.str_in "name" field_name then Some "John Doe"
  else if Py.str_in "email" field_name then Some "john.doe@example.com"
  else if Py.str_in "phone" field_name || Py.str_in "tel" field_name then Some "+65 9123 4567"
  else if Py.str_in "experience" field_name || Py.str_in "years" field_name then Some "5"
  else if Py.str_in "skills" field_name then Some "Python, SQL, Data Engineering"
  else if Py.str_in "education" field_name then Some "Bachelor's Degree"
  else if Py.str_in "location" field_name then Some "Singapore"
  else if Py.eq_str field_type "text" then Some "See resume for details"
  else if Py.eq_str field_type "number" then Some "5"
  else if Py.eq_str field_type "email" then Some "john.doe@example.com"
  else None.

(** [os.path.join(a, b)] for a relative [b]. *)
Definition path_join (a b : string) : string :=
  match a with
  | EmptyString => b
  | _ => if String.eqb (String.substring (String.length a - 1) 1 a) "/"
         then a +:+ b else a +:+ "/" +:+ b
  end.

Section WithDriver.
Context {W : Type} (drv : Driver W).

Definition time_sleep : M W unit := pause drv.

(** [human_type] *)
Fixpoint human_type (element : WebElement) (txt : string) : M W unit :=
  match txt with
  | EmptyString => ret tt
  | String c rest =>
      let char := String c EmptyString in
      act (EvSendKeys element char) (send_keys drv element char) ;;;
      time_sleep ;;;
      human_type element rest
  end.

(** [self.temp_files.append(path)] *)
Definition temp_files_append (path : string) : M W unit :=
  fun st => (Ok tt, mkSt (world st) (trace st) (temp_files st ++ [path])).

(** [create_temp_resume_file] *)
Definition create_temp_resume_file : M W (option string) :=
  try_except
    (temp_dir <- call (mkdtemp drv) ;;
     let resume_file := path_join temp_dir "resume.pdf" in
     call (write_file drv resume_file "Resume content would go here") ;;;
     temp_files_append resume_file ;;;
     ret (Some resume_file))
    (fun _ => ret None).

(** The selector loop of [handle_resume_upload]: the first selector that
    finds an element ends the search. *)
Fixpoint find_file_input (sels : list string) : M W (option WebElement) :=
  match sels with
  | [] => ret None
  | selector :: rest =>
      found <- try_except_NoSuchElement
                 (file_input <- call (find_element drv CSS_SELECTOR selector) ;;
                  ret (Some file_input))
                 (ret None) ;;
      match found with
      | Some file_input => ret (Some file_input)
      | None => find_file_input rest
      end
  end.

(** [handle_resume_upload] *)
Definition handle_resume_upload : M W bool :=
  try_except
    (file_input <- find_file_input file_input_selectors ;;
     match file_input with
     | None => ret false
     | Some file_input =>
         resume_file <- create_temp_resume_file ;;
         if negb (Py.truthy resume_file) then ret false else
         let resume_file := Py.or_empty resume_file in
         act (EvSendKeys file_input resume_file) (send_keys drv file_input resume_file) ;;;
         time_sleep ;;;
         ret true
     end)
    (fun _ => ret false).

(** [should_fill_field] *)
Definition should_fill_field (field : WebElement) : M W bool :=
  try_except
    (displayed <- call (is_displayed drv field) ;;
     if negb displayed then ret false else
     enabled <- call (is_enabled drv field) ;;
     if negb enabled then ret false else
     value <- call (get_attribute drv field "value") ;;
     if Py.truthy value then ret false else
     required <- call (get_attribute drv field "required") ;;
     required <- (if Py.truthy required then ret required
                  else call (get_attribute drv field "aria-required")) ;;
     if Py.truthy required then ret true else
     field_type <- call (get_attribute drv field "type") ;;
     field_name <- call (get_attribute drv field "name") ;;
     field_name <- (if Py.truthy field_name then ret field_name
                    else call (get_attribute drv field "id")) ;;
     let field_name := Py.or_empty field_name in
     if Py.in_list field_type relevant_types then ret true
     else if Py.any_in relevant_names (Py.lower field_name) then ret true
     else ret false)
    (fun _ => ret false).

(** [fill_field_appropriately] *)
Definition fill_field_appropriately (field : WebElement) : M W bool :=
  try_except
    (field_type <- call (get_attribute drv field "type") ;;
     field_name <- call (get_attribute drv field "name") ;;
     field_name <- (if Py.truthy field_name then ret field_name
                    else call (get_attribute drv field "id")) ;;
     let field_name_lower := Py.lower (Py.or_empty field_name) in
     let value := get_field_value field_type field_name_lower in
     if Py.truthy value then
       act (EvClear field) (clear drv field) ;;;
       time_sleep ;;;
       human_type field (Py.or_empty value) ;;;
       ret true
     else ret false)
    (fun _ => ret false).

(** The inner loop of [fill_easy_apply_questions] with its counter; an
    exception leaves the loop for the [except] clause of the selector
    loop, the count reached so far is kept. *)
Fixpoint fill_fields (fields : list WebElement) (questions_filled : nat) : M W nat :=
  match fields with
  | [] => ret questions_filled
  | field :: rest =>
      step <- try_except
                (wanted <- should_fill_field field ;;
                 if wanted then
                   filled <- fill_field_appropriately field ;;
                   if filled then time_sleep ;;; ret (Some true) else ret (Some false)
                 else ret (Some false))
                (fun _ => ret None) ;;
      match step with
      | Some true => fill_fields rest (questions_filled + 1)
      | Some false => fill_fields rest questions_filled
      | None => ret questions_filled
      end
  end.

Fixpoint questions_loop (sels : list string) (questions_filled : nat) : M W nat :=
  match sels with
  | [] => ret questions_filled
  | selector :: rest =>
      found <- try_except
                 (fields <- call (find_elements drv CSS_SELECTOR selector) ;;
                  ret (Some fields))
                 (fun _ => ret None) ;;
      match found with
      | Some fields =>
          questions_filled <- fill_fields fields questions_filled ;;
          questions_loop rest questions_filled
      | None => questions_loop rest questions_filled
      end
  end.

(** [fill_easy_apply_questions] *)
Definition fill_easy_apply_questions : M W bool :=
  try_except
    (questions_filled <- questions_loop question_selectors 0 ;;
     ret (0 <? questions_filled)%nat)
    (fun _ => ret false).

Fixpoint cover_letter_loop (sels : list string) (cover_letter : string) : M W bool :=
  match sels with
  | [] => ret false
  | selector :: rest =>
      returned <- try_except_NoSuchElement
                    (field <- call (find_element drv CSS_SELECTOR selector) ;;
                     displayed <- call (is_displayed drv field) ;;
                     usable <- (if displayed then call (is_enabled drv field) else ret false) ;;
                     if usable then
                       act (EvClear field) (clear drv field) ;;;
                       time_sleep ;;;
                       human_type field cover_letter ;;;
                       ret (Some true)
                     else ret None)
                    (ret None) ;;
      match returned with
      | Some b => ret b
      | None => cover_letter_loop rest cover_letter
      end
  end.

(** [add_cover_letter_to_easy_apply] *)
Definition add_cover_letter_to_easy_apply (cover_letter : string) : M W bool :=
  try_except (cover_letter_loop cover_letter_selectors cover_letter) (fun _ => ret false).

(** [check_application_success] *)
Definition check_application_success : M W bool :=
  try_except
    (src <- call (page_source drv) ;;
     let page_text := Py.lower src in
     if existsb (fun indicator => Py.str_in (Py.lower indicator) page_text) success_indicators
     then ret true
     else if existsb (fun indicator => Py.str_in (Py.lower indicator) page_text)
                     error_indicators
     then ret false
     else ret true)
    (fun _ => ret false).

Fixpoint submit_loop (sels : list string) : M W bool :=
  match sels with
  | [] => ret false
  | selector :: rest =>
      returned <- try_except_NoSuchElement
                    (submit_button <- call (find_element drv CSS_SELECTOR selector) ;;
                     enabled <- call (is_enabled drv submit_button) ;;
                     if enabled then
                       act (EvClick submit_button) (click drv submit_button) ;;;
                       time_sleep ;;;
                       ok <- check_application_success ;;
                       ret (Some ok)
                     else ret None)
                    (ret None) ;;
      match returned with
      | Some b => ret b
      | None => submit_loop rest
      end
  end.

(** [submit_easy_apply] *)
Definition submit_easy_apply : M W bool :=
  try_except (submit_loop submit_selectors) (fun _ => ret false).

(** [handle_linkedin_easy_apply] *)
Definition handle_linkedin_easy_apply (resume_content cover_letter : string) : M W bool :=
  try_except
    (call (wait_presence drv ".jobs-easy-apply-content") ;;;
     resume_uploaded <- handle_resume_upload ;;
     questions_filled <- fill_easy_apply_questions ;;
     cover_letter_added <- add_cover_letter_to_easy_apply cover_letter ;;
     if resume_uploaded then submit_easy_apply else ret false)
    (fun _ => ret false).

End WithDriver.

(** *** The rest of the handler: apply button, external sites, clean-up *)

(** The calls of the handler that [Driver] does not list: the wait for a
    clickable element, the file system and the clock.  [path_exists] and
    [clock] are given the type of the calls that can raise, the code
    around them does not depend on it. *)
Record Host (W : Type) : Type := {
  (* [WebDriverWait(driver, 5).until(EC.element_to_be_clickable((By.CSS_SELECTOR, s)))] *)
  wait_clickable : string -> W -> result WebElement * W;
  (* [os.path.exists(path)], [os.remove(path)] *)
  path_exists : string -> W -> result bool * W;
  os_remove : string -> W -> result unit * W;
  (* [driver.save_screenshot(path)] *)
  save_screenshot : string -> W -> result bool * W;
  (* [int(time.time())] *)
  clock : W -> result nat * W
}.
Arguments wait_clickable {W} _ _ _.
Arguments path_exists {W} _ _ _.
Arguments os_remove {W} _ _ _.
Arguments save_screenshot {W} _ _ _.
Arguments clock {W} _ _.

Definition apply_selectors : list string :=
  [ "button[data-control-name='jobdetails_topcard_inapply']";
    "button[data-control-name='jobdetails_topcard_apply']";
    "button[aria-label*='Apply']";
    "button[aria-label*='Easy Apply']";
    "button:contains('Apply')";
    ".apply-button";
    ".job-apply-button" ].

Definition easy_apply_indicators : list string :=
  [ ".jobs-easy-apply-content"; ".jobs-easy-apply-form";
    "[data-test-id='easy-apply-form']"; ".jobs-easy-apply-modal" ].

Definition external_link_selectors : list string :=
  [ "a[href*='apply']"; "a[href*='career']"; "a[href*='jobs']";
    "button[data-control-name='external_apply']" ].

(** [f"external_application_{int(time.time())}.png"] *)
Definition screenshot_name (now : nat) : string :=
  "external_application_" +:+ NilEmpty.string_of_uint (Nat.to_uint now) +:+ ".png".

(** [try: body except (TimeoutException, NoSuchElementException): handler] *)
Definition try_except_Timeout_NoSuchElement {W A} (body handler : M W A) : M W A :=
  fun st =>
    match body st with
    | (Ok a, st') => (Ok a, st')
    | (Raise TimeoutException, st') => handler st'
    | (Raise NoSuchElementException, st') => handler st'
    | (Raise e, st') => (Raise e, st')
    end.

(** [d[key]] on a dict of strings. *)
Definition getitem {W} (d : gmap string string) (key : string) : M W string :=
  match d !! key with
  | Some v => ret v
  | None => raise KeyError
  end.

Section WithHost.
Context {W : Type} (drv : Driver W) (host : Host W).

(** The selector loop of [is_linkedin_easy_apply]. *)
Fixpoint easy_apply_loop (indicators : list string) : M W bool :=
  match indicators with
  | [] => ret false
  | indicator :: rest =>
      returned <- try_except_NoSuchElement
                    (element <- call (find_element drv CSS_SELECTOR indicator) ;;
                     displayed <- call (is_displayed drv element) ;;
                     if displayed then ret (Some true) else ret None)
                    (ret None) ;;
      match returned with
      | Some b => ret b
      | None => easy_apply_loop rest
      end
  end.

(** [is_linkedin_easy_apply] *)
Definition is_linkedin_easy_apply : M W bool :=
  try_except (easy_apply_loop easy_apply_indicators) (fun _ => ret false).

(** The selector loop of [find_and_click_apply_button]: [Some true] when
    it returned from inside the loop, [None] when it ran through. *)
Fixpoint apply_selector_loop (sels : list string) : M W (option bool) :=
  match sels with
  | [] => ret None
  | selector :: rest =>
      returned <- try_except_Timeout_NoSuchElement
                    (apply_button <- call (wait_clickable host selector) ;;
                     act (EvClick apply_button) (click drv apply_button) ;;;
                     time_sleep drv ;;;
                     ret (Some true))
                    (ret None) ;;
      match returned with
      | Some b => ret (Some b)
      | None => apply_selector_loop rest
      end
  end.

(** The loop over the buttons of the page, by their text. *)
Fixpoint apply_text_loop (buttons : list WebElement) : M W (option bool) :=
  match buttons with
  | [] => ret None
  | button :: rest =>
      button_text <- call (text drv button) ;;
      if Py.str_in "apply" (Py.lower button_text) then
        act (EvClick button) (click drv button) ;;;
        time_sleep drv ;;;
        ret (Some true)
      else apply_text_loop rest
  end.

(** [find_and_click_apply_button] *)
Definition find_and_click_apply_button : M W bool :=
  try_except
    (time_sleep drv ;;;
     returned <- apply_selector_loop apply_selectors ;;
     match returned with
     | Some b => ret b
     | None =>
         returned <- try_except
                       (buttons <- call (find_elements drv TAG_NAME "button") ;;
                        apply_text_loop buttons)
                       (fun _ => ret None) ;;
         match returned with
         | Some b => ret b
         | None => ret false
         end
     end)
    (fun _ => ret false).

(** [self.temp_files] and [self.temp_files.clear()] *)
Definition temp_files_read : M W (list string) :=
  fun st => (Ok (temp_files st), st).

Definition temp_files_clear : M W unit :=
  fun st => (Ok tt, mkSt (world st) (trace st) []).

(** The loop of [cleanup_temp_files], one [try] per file. *)
Fixpoint remove_each (paths : list string) : M W unit :=
  match paths with
  | [] => ret tt
  | file_path :: rest =>
      try_except
        (there <- call (path_exists host file_path) ;;
         if there then call (os_remove host file_path) else ret tt)
        (fun _ => ret tt) ;;;
      remove_each rest
  end.

(** [cleanup_temp_files] *)
Definition cleanup_temp_files : M W unit :=
  try_except
    (paths <- temp_files_read ;;
     remove_each paths ;;;
     temp_files_clear)
    (fun _ => ret tt).

(** [handle_external_site_application] *)
Definition handle_external_site_application (resume_content cover_letter : string)
  : M W bool :=
  try_except
    (time_sleep drv ;;;
     call (current_url drv) ;;;
     now <- call (clock host) ;;
     let screenshot_path := screenshot_name now in
     call (save_screenshot host screenshot_path) ;;;
     ret false)
    (fun _ => ret false).

(** The link loop of [handle_external_application]. *)
Fixpoint external_link_loop (sels : list string) (resume_content cover_letter : string)
  : M W bool :=
  match sels with
  | [] => ret false
  | selector :: rest =>
      returned <- try_except_NoSuchElement
                    (link <- call (find_element drv CSS_SELECTOR selector) ;;
                     displayed <- call (is_displayed drv link) ;;
                     if displayed then
                       act (EvClick link) (click drv link) ;;;
                       time_sleep drv ;;;
                       handled <- handle_external_site_application resume_content
                                    cover_letter ;;
                       ret (Some handled)
                     else ret None)
                    (ret None) ;;
      match returned with
      | Some b => ret b
      | None => external_link_loop rest resume_content cover_letter
      end
  end.

(** [handle_external_application] *)
Definition handle_external_application (resume_content cover_letter : string) : M W bool :=
  try_except
    (address <- call (current_url drv) ;;
     if negb (Py.str_in "linkedin.com" address) then
       handle_external_site_application resume_content cover_letter
     else external_link_loop external_link_selectors resume_content cover_letter)
    (fun _ => ret false).

(** [handle_application_form]; the log line at its head reads
    [job_info['title']] and [job_info['company']]. *)
Definition handle_application_form (job_info : gmap string string)
    (resume_content cover_letter : string) : M W bool :=
  try_except
    (getitem job_info "title" ;;;
     getitem job_info "company" ;;;
     clicked <- find_and_click_apply_button ;;
     if negb clicked then ret false else
     easy <- is_linkedin_easy_apply ;;
     application_success <- (if easy
                             then handle_linkedin_easy_apply drv resume_content cover_letter
                             else ret false) ;;
     application_success <- (if negb application_success
                             then handle_external_application resume_content cover_letter
                             else ret application_success) ;;
     cleanup_temp_files ;;;
     ret application_success)
    (fun _ => cleanup_temp_files ;;; ret false).

End WithHost.

End LinkedInApplicationHandler.

(** ** The classifier and the detector as the specification words them

    [shouldFill], [detect] and [vendorNames] follow the text of sections
    4.1 and 4.3 of the specification, not the code; they are what the
    code's functions are compared with.  [shouldFillEasyApply] and
    [scannedNames] put next to them what the code has where it differs. *)
Module Spec.

(** What one control shows to the classifier. *)
Record Control : Type := {
  isVisible : bool;
  isEnabled : bool;
  attr : string -> option string
}.




Definition rawType (c : Control) : option string := attr c "type".

(** The control's name, or its id when it has no name. *)
Definition nameOrId (c : Control) : string :=
  Py.or_empty (Py.or_ (attr c "name") (attr c "id")).

Definition placeholder (c : Control) : string := Py.or_empty (attr c "placeholder").






(** The first name of [names] that occurs in [s]. *)
Definition first_in (names : list string) (s : string) : option string :=
  List.find (fun v => Py.str_in v s) names.

(** [detect] of section 4.1 over a list of vendor names: the URL scan,
    then the markup scan, then the form heuristic [looks]. *)
Definition detect (names : list string) (pageUrl pageMarkup : string) (looks : bool) : string :=
  match first_in names (Py.lower pageUrl) with
  | Some v => v
  | None =>
      match first_in names (Py.lower pageMarkup) with
      | Some v => v
      | None => if looks then "generic" else "unknown"
      end
  end.

(** The vendor names as section 4.1 lists them, and as the code scans
    for them. *)
Definition vendorNames : list string := [ "workday"; "lever"; "greenhouse"; "bamboohr" ].
Definition scannedNames : list string := [ "workday"; "lever"; "greenhouse"; "bamboo" ].

(** The number of form keywords present in a page text. *)
Definition keywordCount (pageText : string) : nat :=
  length (List.filter (fun k => Py.str_in k (Py.lower pageText))
                      ExternalFormMapper.form_indicators).

(** The driver shows the control [c] at [field]: every read of the
    element succeeds, gives what [c] holds and leaves the world as it is. *)
Definition shows {W} (drv : Driver W) (field : WebElement) (c : Control) : Prop :=
  (forall w, is_displayed drv field w = (Ok (isVisible c), w)) /\
  (forall w, is_enabled drv field w = (Ok (isEnabled c), w)) /\
  (forall a w, get_attribute drv field a w = (Ok (attr c a), w)).

(** Whether a run ended with [True]. *)
Definition returned_true (r : result bool) : bool :=
  match r with Ok true => true | _ => false end.

(** The tags [detect_application_system] can return. *)
Definition returnedTags : list string := scannedNames ++ [ "generic"; "unknown" ].

End Spec.

(** ** Reading the action log *)
Module Log.

Definition is_clear (ev : Event) : bool :=
  match ev with EvClear _ => true | _ => false end.

Definition clicks (tr : list Event) : nat := length (List.filter is_click tr).

Definition clears (tr : list Event) : nat := length (List.filter is_clear tr).

(** The log after [txt] was typed into [element] one character at a time
    on top of [older]. *)
Fixpoint keystrokes (element : WebElement) (txt : string) (older : list Event)
  : list Event :=
  match txt with
  | EmptyString => older
  | String c rest => keystrokes element rest (EvSendKeys element (String c EmptyString) :: older)
  end.

(** The text the log says was sent to [element], oldest keys first. *)
Fixpoint typed_into (element : WebElement) (tr : list Event) : string :=
  match tr with
  | [] => EmptyString
  | EvSendKeys e keys :: older =>
      if Nat.eqb e element then typed_into element older +:+ keys
      else typed_into element older
  | _ :: older => typed_into element older
  end.

(** Clearing [field] and sending keys to it go through, from every world. *)
Definition obeys {W} (drv : Driver W) (field : WebElement) : Prop :=
  (forall w, exists w', clear drv field w = (Ok tt, w')) /\
  (forall keys w, exists w', send_keys drv field keys w = (Ok tt, w')).

(** [m] adds at most [n] events selected by [P] to the log. *)
Definition adds_at_most {W A} (P : Event -> bool) (n : nat) (m : M W A) : Prop :=
  forall st,
    (length (List.filter P (trace (snd (m st)))) <= n + length (List.filter P (trace st)))%nat.

(** Every keyword of the rules of [get_additional_field_value]. *)
Definition rule_keywords : list string :=
  [ "experience"; "years"; "skills"; "technologies"; "education"; "degree";
    "location"; "city"; "salary"; "compensation"; "availability"; "start date";
    "portfolio"; "github"; "website" ].

(** [submit_form] passes over the candidate [s] from [st] to [st']: it
    reads as disabled, or reading it raises, or it is enabled and its
    click raises (the click is then in the log). *)
Definition passes_over {W} (drv : Driver W) (s : WebElement) (st st' : St W) : Prop :=
  (exists w', is_enabled drv s (world st) = (Ok false, w') /\
              st' = mkSt w' (trace st) (temp_files st)) \/
  (exists e w', is_enabled drv s (world st) = (Raise e, w') /\
                st' = mkSt w' (trace st) (temp_files st)) \/
  (exists w1 e w2, is_enabled drv s (world st) = (Ok true, w1) /\
                   click drv s w1 = (Raise e, w2) /\
                   st' = mkSt w2 (EvClick s :: trace st) (temp_files st)).

(** The candidates [skipped] are passed over one after the other. *)
Fixpoint passes_over_all {W} (drv : Driver W) (skipped : list WebElement)
    (st st' : St W) : Prop :=
  match skipped with
  | [] => st' = st
  | s :: more => exists st1, passes_over drv s st st1 /\ passes_over_all drv more st1 st'
  end.

End Log.

(** ** Concrete pages

    A driver over a fixed page, used to run the methods on examples. *)
Module Fixture.

Record Page : Type := {
  url : result string;
  source : result string;
  by_tag : string -> result (list WebElement);
  by_css : string -> result (list WebElement);
  displayed : WebElement -> result bool;
  enabled : WebElement -> result bool;
  attribute : WebElement -> string -> result (option string);
  inner_text : WebElement -> result string;
  as_select : WebElement -> result unit;
  select_options : WebElement -> result (list WebElement);
  action : Event -> result unit;
  tempdir : result string
}.

Definition first_of (found : result (list WebElement)) : result WebElement :=
  match found with
  | Ok (e :: _) => Ok e
  | Ok [] => Raise NoSuchElementException
  | Raise e => Raise e
  end.

Definition driver (p : Page) : Driver unit :=
  {| current_url := fun w => (url p, w);
     page_source := fun w => (source p, w);
     find_elements := fun by_ sel w =>
       (match by_ with TAG_NAME => by_tag p sel | CSS_SELECTOR => by_css p sel end, w);
     find_element := fun by_ sel w =>
       (first_of (match by_ with TAG_NAME => by_tag p sel | CSS_SELECTOR => by_css p sel end), w);
     is_displayed := fun e w => (displayed p e, w);
     is_enabled := fun e w => (enabled p e, w);
     get_attribute := fun e a w => (attribute p e a, w);
     text := fun e w => (inner_text p e, w);
     clear := fun e w => (action p (EvClear e), w);
     send_keys := fun e k w => (action p (EvSendKeys e k), w);
     click := fun e w => (action p (EvClick e), w);
     Select := fun e w => (as_select p e, w);
     options := fun e w => (select_options p e, w);
     select_by_visible_text := fun e t w => (action p (EvSelectByVisibleText e t), w);
     select_by_index := fun e i w => (action p (EvSelectByIndex e i), w);
     wait_presence := fun sel w => (first_of (by_css p sel), w);
     sleep := fun w => w;
     mkdtemp := fun w => (tempdir p, w);
     write_file := fun _ _ w => (Ok tt, w) |}.

(** A page given by its address, its source and its elements by tag;
    every element is shown and enabled, carries the attributes [attrs]
    gives it, and every action on it goes through. *)
Definition page (u s : result string) (tags : string -> list WebElement)
    (attrs : WebElement -> string -> option string) : Page :=
  {| url := u;
     source := s;
     by_tag := fun t => Ok (tags t);
     by_css := fun _ => Ok [];
     displayed := fun _ => Ok true;
     enabled := fun _ => Ok true;
     attribute := fun e a => Ok (attrs e a);
     inner_text := fun _ => Ok EmptyString;
     as_select := fun _ => Ok tt;
     select_options := fun _ => Ok [];
     action := fun _ => Ok tt;
     tempdir := Ok "/tmp/tmpdir" |}.

Definition no_elements : string -> list WebElement := fun _ => [].
Definition no_attributes : WebElement -> string -> option string := fun _ _ => None.

Definition st0 : St unit := mkSt tt [] [].

(** Pages that differ in their source only. *)
Definition page_saying (s : result string) : Page :=
  page (Ok "https://example.com/jobs/42") s no_elements no_attributes.

Definition thanks_page : Page := page_saying (Ok "<p>Thank you for your application</p>").
Definition shouting_error_page : Page := page_saying (Ok "<p>ERROR OCCURRED</p>").
Definition silent_page : Page := page_saying (Ok "<p>Next step</p>").
Definition unreadable_page : Page := page_saying (Raise WebDriverException).

(** Six inputs and no form keyword in the source. *)
Definition six_inputs_page : Page :=
  page (Ok "https://example.com/") (Ok "<html><body></body></html>")
       (fun t => if String.eqb t "input" then [1; 2; 3; 4; 5; 6] else [])
       no_attributes.

(** Three form keywords and no element at all. *)
Definition three_keywords_page : Page :=
  page (Ok "https://example.com/") (Ok "Apply now: upload your resume")
       no_elements no_attributes.

(** An address that holds "bamboo" and not "bamboohr". *)
Definition bamboo_page : Page :=
  page (Ok "https://bamboo-garden.example/careers") (Ok "<html><body></body></html>")
       no_elements no_attributes.




(** The same page with other answers to CSS selectors, other options
    under its dropdowns, or other outcomes of its actions. *)
Definition with_css (p : Page) (css : string -> result (list WebElement)) : Page :=
  {| url := url p; source := source p; by_tag := by_tag p; by_css := css;
     displayed := displayed p; enabled := enabled p; attribute := attribute p;
     inner_text := inner_text p; as_select := as_select p;
     select_options := select_options p; action := action p; tempdir := tempdir p |}.

Definition with_options (p : Page) (opts : WebElement -> list WebElement)
    (txt : WebElement -> string) : Page :=
  {| url := url p; source := source p; by_tag := by_tag p; by_css := by_css p;
     displayed := displayed p; enabled := enabled p; attribute := attribute p;
     inner_text := fun e => Ok (txt e); as_select := as_select p;
     select_options := fun e => Ok (opts e); action := action p; tempdir := tempdir p |}.

Definition with_action (p : Page) (act : Event -> result unit) : Page :=
  {| url := url p; source := source p; by_tag := by_tag p; by_css := by_css p;
     displayed := displayed p; enabled := enabled p; attribute := attribute p;
     inner_text := inner_text p; as_select := as_select p;
     select_options := select_options p; action := act; tempdir := tempdir p |}.

(** A form whose mapping found a submit button (element 9) and no upload
    control. *)
Definition mapped_without_upload : gmap string (list WebElement) :=
  {[ "submit_button" := [9] ]}.

(** A form whose mapping found an upload control (element 3) and a submit
    button (element 9). *)
Definition mapped_with_upload : gmap string (list WebElement) :=
  <["resume_upload" := [3]]> {[ "submit_button" := [9] ]}.

(** The upload control refuses the file. *)
Definition refusing_upload_page : Page :=
  with_action thanks_page
    (fun ev => match ev with
               | EvSendKeys 3 _ => Raise WebDriverException
               | _ => Ok tt
               end).

(** An Easy Apply dialog (element 7) with a submit button (element 9) and
    no file input. *)
Definition easy_apply_without_input : Page :=
  with_css thanks_page
    (fun sel => if String.eqb sel ".jobs-easy-apply-content" then Ok [7]
                else if String.eqb sel "button[type='submit']" then Ok [9]
                else Ok []).

(** A dropdown (element 0) with the single option "Yes" (element 1). *)
Definition single_yes_page : Page :=
  with_options silent_page
    (fun e => match e with 0 => [1] | _ => [] end)
    (fun e => match e with 1 => "Yes" | _ => EmptyString end).

(** The dropdown of section 8: "Select...", "No", "Yes, immediately
    available" (elements 1, 2, 3 under element 0). *)
Definition availability_page : Page :=
  with_options silent_page
    (fun e => match e with 0 => [1; 2; 3] | _ => [] end)
    (fun e => match e with
              | 1 => "Select..."
              | 2 => "No"
              | 3 => "Yes, immediately available"
              | _ => EmptyString
              end).

(** A dropdown with no keyword in its options. *)
Definition colours_page : Page :=
  with_options silent_page
    (fun e => match e with 0 => [1; 2; 3] | _ => [] end)
    (fun e => match e with
              | 1 => "Select..."
              | 2 => "Red"
              | 3 => "Green"
              | _ => EmptyString
              end).

(** Pages the driver fails on: the address cannot be read; the source of
    a Workday address cannot be read; the form elements cannot be listed;
    every click raises. *)
Definition offline_page : Page :=
  page (Raise WebDriverException) (Ok "<html>workday</html>") no_elements no_attributes.

Definition workday_unreadable_page : Page :=
  page (Ok "https://acme.workday.com/apply") (Raise WebDriverException)
       no_elements no_attributes.

Definition unlistable_page : Page :=
  {| url := Ok "https://example.com/jobs/42";
     source := Ok "Apply now: upload your resume";
     by_tag := fun _ => Raise WebDriverException;
     by_css := fun _ => Ok [];
     displayed := fun _ => Ok true;
     enabled := fun _ => Ok true;
     attribute := fun _ _ => Ok None;
     inner_text := fun _ => Ok EmptyString;
     as_select := fun _ => Ok tt;
     select_options := fun _ => Ok [];
     action := fun _ => Ok tt;
     tempdir := Ok "/tmp/tmpdir" |}.

Definition dead_button_page : Page :=
  with_action thanks_page
    (fun ev => match ev with
               | EvClick _ => Raise WebDriverException
               | _ => Ok tt
               end).

(** A host whose waits answer as the page answers CSS selectors, whose
    files exist, and whose removals end as [removal] says. *)
Definition host (p : Page) (removal : string -> result unit)
  : LinkedInApplicationHandler.Host unit :=
  {| LinkedInApplicationHandler.wait_clickable := fun sel w =>
       (match first_of (by_css p sel) with
        | Raise NoSuchElementException => Raise TimeoutException
        | r => r
        end, w);
     LinkedInApplicationHandler.path_exists := fun _ w => (Ok true, w);
     LinkedInApplicationHandler.os_remove := fun path w => (removal path, w);
     LinkedInApplicationHandler.save_screenshot := fun _ w => (Ok true, w);
     LinkedInApplicationHandler.clock := fun w => (Ok 42, w) |}.

Definition removal_ok : string -> result unit := fun _ => Ok tt.
Definition removal_denied : string -> result unit := fun _ => Raise WebDriverException.

(** Two candidates per selector, found twice: elements 1 and 2 under the
    first selector, 2 and 3 under the second; element 3 is hidden. *)
Definition overlapping_page : Page :=
  {| url := Ok "https://example.com/jobs/42";
     source := Ok "<html><body></body></html>";
     by_tag := fun _ => Ok [];
     by_css := fun sel =>
       if String.eqb sel "first" then Ok [1; 2]
       else if String.eqb sel "second" then Ok [2; 3]
       else Raise WebDriverException;
     displayed := fun e => Ok (negb (Nat.eqb e 3));
     enabled := fun _ => Ok true;
     attribute := fun _ _ => Ok None;
     inner_text := fun _ => Ok EmptyString;
     as_select := fun _ => Ok tt;
     select_options := fun _ => Ok [];
     action := fun _ => Ok tt;
     tempdir := Ok "/tmp/tmpdir" |}.

(** A form with one input (element 1, named "years_of_experience"), one
    upload control (3) and one submit button (9). *)
Definition experience_attrs : WebElement -> string -> option string :=
  fun e a => match e with
             | 1 => if String.eqb a "name" then Some "years_of_experience"
                    else if String.eqb a "type" then Some "text" else None
             | _ => None
             end.

Definition experience_page : Page :=
  page (Ok "https://example.com/jobs/42") (Ok "<p>Thank you for your application</p>")
       (fun t => if String.eqb t "input" then [1] else []) experience_attrs.

(** Every control already carries the value "x". *)
Definition prefilled_page : Page :=
  page (Ok "https://example.com/jobs/42") (Ok "<html><body></body></html>")
       no_elements (fun _ a => if String.eqb a "value" then Some "x" else None).

(** Candidates for every basic field kind. *)
Definition mapped_basic : gmap string (list WebElement) :=
  <["name_fields" := [1; 2]]> (<["email_fields" := [3]]> {[ "phone_fields" := [4; 5] ]}).

(** No button is enabled. *)
Definition disabled_buttons_page : Page :=
  {| url := Ok "https://example.com/jobs/42";
     source := Ok "<p>Thank you for your application</p>";
     by_tag := fun _ => Ok [];
     by_css := fun _ => Ok [];
     displayed := fun _ => Ok true;
     enabled := fun _ => Ok false;
     attribute := fun _ _ => Ok None;
     inner_text := fun _ => Ok EmptyString;
     as_select := fun _ => Ok tt;
     select_options := fun _ => Ok [];
     action := fun _ => Ok tt;
     tempdir := Ok "/tmp/tmpdir" |}.

(** An Easy Apply dialog (element 7) with a file input (3), a submit
    button (9) and an apply button (5). *)
Definition easy_apply_page : Page :=
  with_css thanks_page
    (fun sel => if String.eqb sel ".jobs-easy-apply-content" then Ok [7]
                else if String.eqb sel "input[type='file']" then Ok [3]
                else if String.eqb sel "button[type='submit']" then Ok [9]
                else if String.eqb sel ".apply-button" then Ok [5]
                else Ok []).

(** A page whose cover-letter search fails at once with an error that is
    not a missing element. *)
Definition stale_page : Page :=
  with_css silent_page (fun _ => Raise WebDriverException).

Definition st_with_files (files : list string) : St unit := mkSt tt [] files.

Definition job : gmap string string :=
  <["title" := "Data Engineer"]> {[ "company" := "Acme" ]}.

Definition job_without_company : gmap string string := {[ "title" := "Data Engineer" ]}.

(** A job page whose top-card apply button (element 5) is clickable. *)
Definition top_card_page : Page :=
  with_css silent_page
    (fun sel => if String.eqb sel "button[data-control-name='jobdetails_topcard_inapply']"
                then Ok [5] else Ok []).

(** Button 6 cannot be read, button 7 is disabled, the click on button 8
    raises, button 9 works. *)
Definition fourth_button_page : Page :=
  {| url := Ok "https://example.com/jobs/42";
     source := Ok "<p>Thank you for your application</p>";
     by_tag := fun _ => Ok [];
     by_css := fun _ => Ok [];
     displayed := fun _ => Ok true;
     enabled := fun e => match e with
                         | 6 => Raise WebDriverException
                         | 7 => Ok false
                         | _ => Ok true
                         end;
     attribute := fun _ _ => Ok None;
     inner_text := fun _ => Ok EmptyString;
     as_select := fun _ => Ok tt;
     select_options := fun _ => Ok [];
     action := fun ev => match ev with
                         | EvClick 8 => Raise WebDriverException
                         | _ => Ok tt
                         end;
     tempdir := Ok "/tmp/tmpdir" |}.

End Fixture.

(** ** Facts about the monad *)
Section MonadFacts.
Context {W : Type}.

Lemma total_ret {A} (a : A) : total (@ret W A a).
Proof. intros st. exists a, st. reflexivity. Qed.

Lemma total_bind {A B} (m : M W A) (k : A -> M W B) :
  total m -> (forall a, total (k a)) -> total (bind m k).
Proof.
  intros Hm Hk st. unfold bind.
  destruct (Hm st) as (a & st' & ->). apply Hk.
Qed.

Lemma total_try_except {A} (body : M W A) (handler : exn -> M W A) :
  (forall e, total (handler e)) -> total (try_except body handler).
Proof.
  intros Hh st. unfold try_except.
  destruct (body st) as [[a | e] st'].
  - exists a, st'. reflexivity.
  - apply Hh.
Qed.

Lemma total_pause (drv : Driver W) : total (pause drv).
Proof. intros st. eexists _, _. reflexivity. Qed.

Lemma preserves_ret P {A} (a : A) : preserves P (@ret W A a).
Proof. intros st. reflexivity. Qed.

Lemma preserves_raise P {A} (e : exn) : preserves P (@raise W A e).
Proof. intros st. reflexivity. Qed.

Lemma preserves_bind P {A B} (m : M W A) (k : A -> M W B) :
  preserves P m -> (forall a, preserves P (k a)) -> preserves P (bind m k).
Proof.
  intros Hm Hk st. unfold bind.
  specialize (Hm st). destruct (m st) as [[a | e] st']; simpl in *.
  - rewrite Hk. exact Hm.
  - exact Hm.
Qed.

Lemma preserves_try_except P {A} (body : M W A) (handler : exn -> M W A) :
  preserves P body -> (forall e, preserves P (handler e)) ->
  preserves P (try_except body handler).
Proof.
  intros Hb Hh st. unfold try_except.
  specialize (Hb st). destruct (body st) as [[a | e] st']; simpl in *.
  - exact Hb.
  - rewrite Hh. exact Hb.
Qed.

Lemma preserves_try_except_NoSuchElement P {A} (body handler : M W A) :
  preserves P body -> preserves P handler ->
  preserves P (try_except_NoSuchElement body handler).
Proof.
  intros Hb Hh st. unfold try_except_NoSuchElement.
  specialize (Hb st). destruct (body st) as [[a | []] st']; simpl in *;
    try exact Hb.
  rewrite Hh. exact Hb.
Qed.

Lemma preserves_call P {A} (op : W -> result A * W) : preserves P (call op).
Proof. intros st. unfold call. destruct (op (world st)). reflexivity. Qed.

Lemma preserves_act P {A} (ev : Event) (op : W -> result A * W) :
  P ev = false -> preserves P (act ev op).
Proof.
  intros Hev st. unfold act. destruct (op (world st)). simpl. rewrite Hev. reflexivity.
Qed.

Lemma preserves_pause P (drv : Driver W) : preserves P (pause drv).
Proof. intros st. reflexivity. Qed.

Lemma preserves_if P {A} (b : bool) (m1 m2 : M W A) :
  preserves P m1 -> preserves P m2 -> preserves P (if b then m1 else m2).
Proof. destruct b; auto. Qed.

(** [call] on a read whose outcome is known. *)
Lemma call_eq {A} (op : W -> result A * W) st r w :
  op (world st) = (r, w) -> call op st = (r, mkSt w (trace st) (temp_files st)).
Proof. intros H. unfold call. rewrite H. reflexivity. Qed.

(** The first statement of a [try] body, once its outcome is known. *)
Lemma try_bind_ok {A B} (m : M W A) (k : A -> M W B) (h : exn -> M W B) st a st1 :
  m st = (Ok a, st1) -> try_except (bind m k) h st = try_except (k a) h st1.
Proof. intros H. unfold try_except, bind. rewrite H. reflexivity. Qed.

Lemma try_bind_raise {A B} (m : M W A) (k : A -> M W B) (h : exn -> M W B) st e st1 :
  m st = (Raise e, st1) -> try_except (bind m k) h st = h e st1.
Proof. intros H. unfold try_except, bind. rewrite H. reflexivity. Qed.

(** [call] on a read that succeeds and leaves the world as it is. *)
Lemma call_pure {A} (op : W -> result A * W) (a : A) (st : St W) :
  (forall w, op w = (Ok a, w)) -> call op st = (Ok a, st).
Proof. intros H. unfold call. rewrite H. destruct st; reflexivity. Qed.

End MonadFacts.

Create HintDb pres discriminated.
#[export] Hint Resolve preserves_ret preserves_raise preserves_call preserves_pause : pres.

(** Goals of the form [preserves P m] for straight-line code. *)
Ltac pres_step :=
  match goal with
  | |- preserves _ (bind _ _) => apply preserves_bind; [ | intros ? ]
  | |- preserves _ (try_except _ _) => apply preserves_try_except; [ | intros ? ]
  | |- preserves _ (try_except_NoSuchElement _ _) =>
      apply preserves_try_except_NoSuchElement
  | |- preserves _ (ret _) => apply preserves_ret
  | |- preserves _ (raise _) => apply preserves_raise
  | |- preserves _ (call _) => apply preserves_call
  | |- preserves _ (pause _) => apply preserves_pause
  | |- preserves _ (act _ _) => apply preserves_act; reflexivity
  | |- preserves _ (if ?b then _ else _) => destruct b
  | |- preserves _ (match ?x with _ => _ end) => destruct x
  end.

Ltac pres := repeat pres_step; eauto with pres.

(** ** Facts about Python's string operations *)
Section StringFacts.

Lemma prefix_app_l (k a b : string) :
  String.prefix k a = true -> String.prefix k (a +:+ b) = true.
Proof.
  revert a. induction k as [| c k IH]; intros a H.
  - destruct (a +:+ b); reflexivity.
  - destruct a as [| c' a]; simpl in H; [ discriminate | ].
    simpl. destruct (Ascii.ascii_dec c c'); [ auto | discriminate ].
Qed.

Lemma str_in_app_l (k a b : string) :
  Py.str_in k a = true -> Py.str_in k (a +:+ b) = true.
Proof.
  induction a as [| c a IH]; intros H.
  - destruct k as [| c' k]; [ destruct b; reflexivity | discriminate H ].
  - change (String c a +:+ b) with (String c (a +:+ b)).
    cbn [Py.str_in] in *.
    destruct (String.prefix k (String c a)) eqn:Hp.
    + pose proof (prefix_app_l k (String c a) b Hp) as Hq.
      change (String c a +:+ b) with (String c (a +:+ b)) in Hq.
      rewrite Hq. reflexivity.
    + destruct (String.prefix k (String c (a +:+ b))); auto.
Qed.

Lemma str_in_app_r (k a b : string) :
  Py.str_in k b = true -> Py.str_in k (a +:+ b) = true.
Proof.
  intros H. induction a as [| c a IH]; [ exact H | ].
  change (String c a +:+ b) with (String c (a +:+ b)).
  cbn [Py.str_in].
  destruct (String.prefix k (String c (a +:+ b))); auto.
Qed.

Lemma lower_app (a b : string) : Py.lower (a +:+ b) = Py.lower a +:+ Py.lower b.
Proof. induction a as [| c a IH]; simpl; [ | rewrite IH ]; reflexivity. Qed.

Lemma any_in_app_l (ks : list string) (a b : string) :
  Py.any_in ks a = true -> Py.any_in ks (a +:+ b) = true.
Proof.
  unfold Py.any_in. rewrite !existsb_exists.
  intros (k & Hk & H). exists k. split; [ exact Hk | apply str_in_app_l, H ].
Qed.

Lemma any_in_app_r (ks : list string) (a b : string) :
  Py.any_in ks b = true -> Py.any_in ks (a +:+ b) = true.
Proof.
  unfold Py.any_in. rewrite !existsb_exists.
  intros (k & Hk & H). exists k. split; [ exact Hk | apply str_in_app_r, H ].
Qed.

End StringFacts.

(** ** Outcome classification *)
Section CheckSubmissionSuccess.
Context {W : Type} (drv : Driver W).


(** C10. When reading the post-submit page raises, the classification is
    failure: the optimistic default is not reached. *)
Theorem check_submission_success_unreadable :
  forall (st : St W) (e : exn) (w' : W),
    page_source drv (world st) = (Raise e, w') ->
    ExternalFormMapper.check_submission_success drv st
      = (Ok false, mkSt w' (trace st) (temp_files st)).
Proof.
  intros st e w' Hsrc.
  unfold ExternalFormMapper.check_submission_success, try_except, bind.
  rewrite (call_eq _ _ _ _ Hsrc). reflexivity.
Qed.

End CheckSubmissionSuccess.


Lemma check_submission_success_unreadable_witness :
  ExternalFormMapper.check_submission_success
    (Fixture.driver Fixture.unreadable_page) Fixture.st0 = (Ok false, Fixture.st0).
Proof.
  apply (check_submission_success_unreadable
           (Fixture.driver Fixture.unreadable_page) Fixture.st0 WebDriverException tt).
  reflexivity.
Defined.

(** ** The form heuristic and the vendor detector *)
Section Detection.
Context {W : Type} (drv : Driver W).

(** C6. On a page whose source and whose form and input elements can be
    read, [detect_form_patterns] returns true exactly when at least three
    of the keywords occur in the page text, or a form element exists, or
    more than five input elements exist; so six inputs with no keyword
    give true, and three keywords with no form or input element give
    true. *)
Theorem detect_form_patterns_iff :
  forall (st : St W) (src : string) (forms inputs : list WebElement) (w1 w2 w3 : W),
    page_source drv (world st) = (Ok src, w1) ->
    find_elements drv TAG_NAME "form" w1 = (Ok forms, w2) ->
    find_elements drv TAG_NAME "input" w2 = (Ok inputs, w3) ->
    exists looks : bool,
      ExternalFormMapper.detect_form_patterns drv st
        = (Ok looks, mkSt w3 (trace st) (temp_files st)) /\
      (looks = true <->
         (3 <= Spec.keywordCount src \/ 1 <= length forms \/ 5 < length inputs)%nat) /\
      (Spec.keywordCount src = 0%nat -> length inputs = 6%nat -> looks = true) /\
      (Spec.keywordCount src = 3%nat -> forms = [] -> inputs = [] -> looks = true).
Proof.
  intros st src forms inputs w1 w2 w3 Hsrc Hforms Hinputs.
  unfold ExternalFormMapper.detect_form_patterns, try_except, bind.
  rewrite (call_eq _ _ _ _ Hsrc).
  rewrite (call_eq _ (mkSt w1 _ _) _ _ Hforms).
  rewrite (call_eq _ (mkSt w2 _ _) _ _ Hinputs).
  fold (Spec.keywordCount src). cbn [ret world trace temp_files].
  eexists. split; [ reflexivity | ].
  assert (Hiff :
    ((3 <=? Spec.keywordCount src)%nat || (0 <? length forms)%nat
       || (5 <? length inputs)%nat = true <->
     (3 <= Spec.keywordCount src \/ 1 <= length forms \/ 5 < length inputs)%nat)).
  { rewrite !orb_true_iff, Nat.leb_le, !Nat.ltb_lt. unfold lt. tauto. }
  split; [ exact Hiff | ].
  split.
  - intros _ H6. apply Hiff. right. right. rewrite H6. auto.
  - intros H3 _ _. apply Hiff. left. rewrite H3. auto.
Qed.

(** C5, as the code has it. [detect_application_system] always returns
    one of workday, lever, greenhouse, bamboo, generic, unknown and never
    raises.  When the address and the source can be read and are ASCII
    text, it scans the lower-cased address for "workday", "lever",
    "greenhouse", "bamboo" in that order, then the lower-cased source in
    the same order, and else returns generic or unknown by the form
    heuristic. *)
Theorem detect_application_system_scans :
  forall st : St W,
    (exists tag st',
        ExternalFormMapper.detect_application_system drv st = (Ok tag, st') /\
        In tag Spec.returnedTags) /\
    (forall (url src : string) (w1 w2 : W),
        current_url drv (world st) = (Ok url, w1) ->
        page_source drv w1 = (Ok src, w2) ->
        Py.is_ascii url = true ->
        Py.is_ascii src = true ->
        fst (ExternalFormMapper.detect_application_system drv st)
          = Ok (Spec.detect Spec.scannedNames url src
                  (Spec.returned_true
                     (fst (ExternalFormMapper.detect_form_patterns drv
                             (mkSt w2 (trace st) (temp_files st))))))).
Proof.
  intros st. split.
  - unfold ExternalFormMapper.detect_application_system, try_except, bind.
    destruct (call (current_url drv) st) as [[url | e] st1];
      [ | eexists _, _; split; [ reflexivity | cbn; tauto ] ].
    destruct (call (page_source drv) st1) as [[src | e] st2];
      [ | eexists _, _; split; [ reflexivity | cbn; tauto ] ].
    repeat match goal with
           | |- context [if ?b then _ else _] =>
               destruct b; [ eexists _, _; split; [ reflexivity | cbn; tauto ] | ]
           end.
    destruct (ExternalFormMapper.detect_form_patterns drv st2) as [[[] | e] st3];
      eexists _, _; (split; [ reflexivity | cbn; tauto ]).
  - intros url src w1 w2 Hurl Hsrc _ _.
    unfold ExternalFormMapper.detect_application_system, try_except, bind.
    rewrite (call_eq _ _ _ _ Hurl).
    rewrite (call_eq _ (mkSt w1 _ _) _ _ Hsrc).
    cbn [world trace temp_files].
    unfold Spec.detect, Spec.first_in, Spec.scannedNames. cbn [List.find].
    repeat match goal with
           | |- context [if Py.str_in ?k ?s then _ else _] =>
               destruct (Py.str_in k s); [ reflexivity | ]
           end.
    destruct (ExternalFormMapper.detect_form_patterns drv _) as [[[] | e] st3];
      reflexivity.
Qed.

End Detection.

Lemma detect_form_patterns_iff_witness :
  ExternalFormMapper.detect_form_patterns (Fixture.driver Fixture.six_inputs_page) Fixture.st0
    = (Ok true, Fixture.st0)
  /\ ExternalFormMapper.detect_form_patterns
       (Fixture.driver Fixture.three_keywords_page) Fixture.st0
     = (Ok true, Fixture.st0).
Proof.
  split.
  - destruct (detect_form_patterns_iff (Fixture.driver Fixture.six_inputs_page) Fixture.st0
                _ _ _ tt tt tt eq_refl eq_refl eq_refl) as (looks & Hrun & _ & H6 & _).
    rewrite Hrun, H6; reflexivity.
  - destruct (detect_form_patterns_iff (Fixture.driver Fixture.three_keywords_page) Fixture.st0
                _ _ _ tt tt tt eq_refl eq_refl eq_refl) as (looks & Hrun & _ & _ & H3).
    rewrite Hrun, H3; reflexivity.
Defined.

(** C5 fails as stated: on an address holding "bamboo" but not "bamboohr"
    the code returns the tag bamboo, where a scan for the name bamboohr
    finds nothing and ends in unknown. *)
Lemma detect_application_system_bamboo :
  fst (ExternalFormMapper.detect_application_system
         (Fixture.driver Fixture.bamboo_page) Fixture.st0) = Ok "bamboo"
  /\ Spec.detect Spec.vendorNames
       "https://bamboo-garden.example/careers" "<html><body></body></html>"
       (Spec.returned_true
          (fst (ExternalFormMapper.detect_form_patterns
                  (Fixture.driver Fixture.bamboo_page) Fixture.st0))) = "unknown"
  /\ ~ In "bamboo" (Spec.vendorNames ++ [ "generic"; "unknown" ])
  /\ Py.is_ascii "https://bamboo-garden.example/careers" = true
  /\ Py.is_ascii "<html><body></body></html>" = true.
Proof.
  split; [ reflexivity | split; [ reflexivity | ] ].
  split; [ | split; reflexivity ].
  cbn. intros H. repeat (destruct H as [H | H]; [ discriminate H | ]). exact H.
Qed.

Lemma detect_application_system_scans_witness :
  fst (ExternalFormMapper.detect_application_system
         (Fixture.driver Fixture.bamboo_page) Fixture.st0) = Ok "bamboo".
Proof.
  destruct (detect_application_system_scans (Fixture.driver Fixture.bamboo_page) Fixture.st0)
    as (_ & H).
  rewrite (H _ _ tt tt eq_refl eq_refl eq_refl eq_refl). reflexivity.
Defined.

(** ** The value resolver for additional fields *)

(** C7. The keyword rules come before the defaults by type: whenever
    "experience" or "years" occurs in the lower-cased text the code builds
    from name and placeholder (in particular when it occurs in the name
    or in the placeholder), the resolver returns "5" whatever the declared
    type is; so it does for the name "years_of_experience" with an empty
    placeholder. *)
Theorem get_additional_field_value_experience_first :
  forall (field_type : option string) (field_name field_placeholder : string),
    (Py.any_in [ "experience"; "years" ]
       (Py.lower (field_name +:+ " " +:+ field_placeholder)) = true ->
     ExternalFormMapper.get_additional_field_value field_type field_name field_placeholder
       = Some "5") /\
    (Py.any_in [ "experience"; "years" ] (Py.lower field_name) = true \/
     Py.any_in [ "experience"; "years" ] (Py.lower field_placeholder) = true ->
     ExternalFormMapper.get_additional_field_value field_type field_name field_placeholder
       = Some "5") /\
    ExternalFormMapper.get_additional_field_value field_type "years_of_experience" ""
      = Some "5".
Proof.
  intros field_type field_name field_placeholder.
  assert (Hkey :
    Py.any_in [ "experience"; "years" ]
      (Py.lower (field_name +:+ " " +:+ field_placeholder)) = true ->
    ExternalFormMapper.get_additional_field_value field_type field_name field_placeholder
      = Some "5").
  { intros H. unfold ExternalFormMapper.get_additional_field_value.
    cbv zeta. rewrite H. reflexivity. }
  split; [ exact Hkey | split; [ | reflexivity ] ].
  intros [H | H]; apply Hkey; rewrite !lower_app.
  - apply any_in_app_l, H.
  - apply any_in_app_r, any_in_app_r, H.
Qed.

Lemma get_additional_field_value_experience_first_witness :
  ExternalFormMapper.get_additional_field_value (Some "text") "Total YEARS in role" "e.g. 3"
    = Some "5"
  /\ ExternalFormMapper.get_additional_field_value (Some "email") "q7" "Work experience"
     = Some "5".
Proof.
  split.
  - destruct (get_additional_field_value_experience_first
                (Some "text") "Total YEARS in role" "e.g. 3") as (H & _).
    apply H. reflexivity.
  - destruct (get_additional_field_value_experience_first
                (Some "email") "q7" "Work experience") as (_ & H & _).
    apply H. right. reflexivity.
Defined.

(** ** The field classifier *)
Section Classifier.
Context {W : Type} (drv : Driver W).


End Classifier.



(** ** Actions that never click *)
Section NoClick.
Context {W : Type} (drv : Driver W).

Local Abbreviation no_click := (preserves is_click).

Lemma human_type_no_click element txt :
  no_click (ExternalFormMapper.human_type drv element txt).
Proof.
  induction txt as [| c txt IH]; cbn [ExternalFormMapper.human_type].
  - pres.
  - unfold ExternalFormMapper.time_sleep. pres.
Qed.

Lemma fill_field_appropriately_no_click field field_type profile_data :
  no_click (ExternalFormMapper.fill_field_appropriately drv field field_type profile_data).
Proof.
  unfold ExternalFormMapper.fill_field_appropriately, ExternalFormMapper.time_sleep.
  pres. apply human_type_no_click.
Qed.

Lemma fill_first_empty_no_click fields field_type profile_data :
  no_click (ExternalFormMapper.fill_first_empty drv fields field_type profile_data).
Proof.
  induction fields as [| field rest IH]; cbn [ExternalFormMapper.fill_first_empty].
  - pres.
  - pres. apply fill_field_appropriately_no_click.
Qed.

Lemma fill_basic_fields_no_click mapped_fields profile_data :
  no_click (ExternalFormMapper.fill_basic_fields drv mapped_fields profile_data).
Proof.
  unfold ExternalFormMapper.fill_basic_fields. pres; apply fill_first_empty_no_click.
Qed.

Lemma handle_resume_upload_no_click resume_fields resume_file :
  no_click (ExternalFormMapper.handle_resume_upload drv resume_fields resume_file).
Proof.
  unfold ExternalFormMapper.handle_resume_upload, ExternalFormMapper.time_sleep. pres.
Qed.

Lemma should_fill_additional_field_no_click field :
  no_click (ExternalFormMapper.should_fill_additional_field drv field).
Proof. unfold ExternalFormMapper.should_fill_additional_field. pres. Qed.

Lemma fill_additional_field_no_click field :
  no_click (ExternalFormMapper.fill_additional_field drv field).
Proof.
  unfold ExternalFormMapper.fill_additional_field, ExternalFormMapper.time_sleep.
  pres. apply human_type_no_click.
Qed.

Lemma scan_options_no_click field opts :
  no_click (ExternalFormMapper.scan_options drv field opts).
Proof.
  induction opts as [| opt rest IH]; cbn [ExternalFormMapper.scan_options];
    unfold ExternalFormMapper.time_sleep; pres.
Qed.

Lemma fill_select_field_no_click field :
  no_click (ExternalFormMapper.fill_select_field drv field).
Proof.
  unfold ExternalFormMapper.fill_select_field, ExternalFormMapper.time_sleep.
  pres; apply scan_options_no_click.
Qed.

Lemma fill_each_no_click (fill : WebElement -> M W bool) fields questions_filled :
  (forall field, no_click (fill field)) ->
  no_click (ExternalFormMapper.fill_each drv fill fields questions_filled).
Proof.
  intros Hfill. revert questions_filled.
  induction fields as [| field rest IH]; intros questions_filled;
    cbn [ExternalFormMapper.fill_each].
  - pres.
  - pres; auto using should_fill_additional_field_no_click.
Qed.

Lemma fill_additional_questions_no_click mapped_fields :
  no_click (ExternalFormMapper.fill_additional_questions drv mapped_fields).
Proof.
  unfold ExternalFormMapper.fill_additional_questions.
  pres; apply fill_each_no_click;
    auto using fill_additional_field_no_click, fill_select_field_no_click.
Qed.

Lemma cover_letter_loop_no_click sels cover_letter :
  no_click (ExternalFormMapper.cover_letter_loop drv sels cover_letter).
Proof.
  induction sels as [| selector rest IH]; cbn [ExternalFormMapper.cover_letter_loop];
    unfold ExternalFormMapper.time_sleep; pres.
  apply human_type_no_click.
Qed.

Lemma add_cover_letter_no_click mapped_fields cover_letter :
  no_click (ExternalFormMapper.add_cover_letter drv mapped_fields cover_letter).
Proof.
  unfold ExternalFormMapper.add_cover_letter. pres. apply cover_letter_loop_no_click.
Qed.

End NoClick.

Section NoClickEasyApply.
Context {W : Type} (drv : Driver W).

Local Abbreviation no_click := (preserves is_click).

Lemma easy_human_type_no_click element txt :
  no_click (LinkedInApplicationHandler.human_type drv element txt).
Proof.
  induction txt as [| c txt IH]; cbn [LinkedInApplicationHandler.human_type];
    unfold LinkedInApplicationHandler.time_sleep; pres.
Qed.

Lemma temp_files_append_no_click path :
  no_click (@LinkedInApplicationHandler.temp_files_append W path).
Proof. intros st. reflexivity. Qed.

Lemma create_temp_resume_file_no_click :
  no_click (LinkedInApplicationHandler.create_temp_resume_file drv).
Proof.
  unfold LinkedInApplicationHandler.create_temp_resume_file. pres.
  apply temp_files_append_no_click.
Qed.

Lemma find_file_input_no_click sels :
  no_click (LinkedInApplicationHandler.find_file_input drv sels).
Proof.
  induction sels as [| selector rest IH]; cbn [LinkedInApplicationHandler.find_file_input];
    pres.
Qed.

Lemma easy_handle_resume_upload_no_click :
  no_click (LinkedInApplicationHandler.handle_resume_upload drv).
Proof.
  unfold LinkedInApplicationHandler.handle_resume_upload,
    LinkedInApplicationHandler.time_sleep.
  pres; auto using find_file_input_no_click, create_temp_resume_file_no_click.
Qed.

Lemma should_fill_field_no_click field :
  no_click (LinkedInApplicationHandler.should_fill_field drv field).
Proof. unfold LinkedInApplicationHandler.should_fill_field. pres. Qed.

Lemma easy_fill_field_appropriately_no_click field :
  no_click (LinkedInApplicationHandler.fill_field_appropriately drv field).
Proof.
  unfold LinkedInApplicationHandler.fill_field_appropriately,
    LinkedInApplicationHandler.time_sleep.
  pres. apply easy_human_type_no_click.
Qed.

Lemma fill_fields_no_click fields questions_filled :
  no_click (LinkedInApplicationHandler.fill_fields drv fields questions_filled).
Proof.
  revert questions_filled.
  induction fields as [| field rest IH]; intros questions_filled;
    cbn [LinkedInApplicationHandler.fill_fields];
    unfold LinkedInApplicationHandler.time_sleep; pres;
    auto using should_fill_field_no_click, easy_fill_field_appropriately_no_click.
Qed.

Lemma questions_loop_no_click sels questions_filled :
  no_click (LinkedInApplicationHandler.questions_loop drv sels questions_filled).
Proof.
  revert questions_filled.
  induction sels as [| selector rest IH]; intros questions_filled;
    cbn [LinkedInApplicationHandler.questions_loop]; pres;
    auto using fill_fields_no_click.
Qed.

Lemma fill_easy_apply_questions_no_click :
  no_click (LinkedInApplicationHandler.fill_easy_apply_questions drv).
Proof.
  unfold LinkedInApplicationHandler.fill_easy_apply_questions. pres.
  apply questions_loop_no_click.
Qed.

Lemma easy_cover_letter_loop_no_click sels cover_letter :
  no_click (LinkedInApplicationHandler.cover_letter_loop drv sels cover_letter).
Proof.
  induction sels as [| selector rest IH];
    cbn [LinkedInApplicationHandler.cover_letter_loop];
    unfold LinkedInApplicationHandler.time_sleep; pres.
  apply easy_human_type_no_click.
Qed.

Lemma add_cover_letter_to_easy_apply_no_click cover_letter :
  no_click (LinkedInApplicationHandler.add_cover_letter_to_easy_apply drv cover_letter).
Proof.
  unfold LinkedInApplicationHandler.add_cover_letter_to_easy_apply. pres.
  apply easy_cover_letter_loop_no_click.
Qed.

End NoClickEasyApply.

(** ** The upload gate *)
Section UploadGate.
Context {W : Type} (drv : Driver W).

(** The steps between the upload and the submission leave the result and
    the clicks alone: if [upload] returned [False] at [st1], a body of the
    shape both handlers share returns [False] and clicks nothing. *)
Lemma gated_submit {Q C} (upload : M W bool) (questions : M W Q) (cover : M W C)
    (submit : M W bool) (st1 : St W) :
  preserves is_click upload ->
  preserves is_click questions ->
  preserves is_click cover ->
  fst (upload st1) = Ok false ->
  let run :=
    try_except
      (resume_uploaded <- upload ;;
       questions_filled <- questions ;;
       cover_letter_added <- cover ;;
       if resume_uploaded then submit else ret false)
      (fun _ => ret false) st1 in
  fst run = Ok false /\
  List.filter is_click (trace (snd run)) = List.filter is_click (trace st1).
Proof.
  intros Hu Hq Hc Hup. cbv zeta. unfold try_except, bind.
  specialize (Hu st1). destruct (upload st1) as [ru st2]. simpl in Hup, Hu. subst ru.
  specialize (Hq st2). destruct (questions st2) as [[q | e] st3]; simpl in Hq;
    [ | simpl; split; [ reflexivity | congruence ] ].
  specialize (Hc st3). destruct (cover st3) as [[c | e] st4]; simpl in Hc;
    simpl; (split; [ reflexivity | congruence ]).
Qed.

(** C1. Whenever the upload step of a fill returns failure (or, in the
    Easy Apply handler, is not reached because the dialog never showed),
    the fill returns failure and issues no click, so that nothing is
    submitted; this holds for [fill_application_form] and for
    [handle_linkedin_easy_apply], whatever the page, the profile and the
    other inputs are. *)
Theorem upload_failure_blocks_submission :
  (forall (mapped_fields : gmap string (list WebElement))
          (profile_data : gmap string string) (resume_file cover_letter : string)
          (st : St W),
      let st1 := snd (ExternalFormMapper.fill_basic_fields drv mapped_fields profile_data st) in
      let run := ExternalFormMapper.fill_application_form drv mapped_fields profile_data
                   resume_file cover_letter st in
      fst (ExternalFormMapper.handle_resume_upload drv
             (Py.get_list mapped_fields "resume_upload") resume_file st1) = Ok false ->
      fst run = Ok false /\
      List.filter is_click (trace (snd run)) = List.filter is_click (trace st)) /\
  (forall (resume_content cover_letter : string) (st : St W),
      let st1 := snd (call (wait_presence drv ".jobs-easy-apply-content") st) in
      let run := LinkedInApplicationHandler.handle_linkedin_easy_apply drv
                   resume_content cover_letter st in
      (exists e, fst (call (wait_presence drv ".jobs-easy-apply-content") st) = Raise e) \/
      fst (LinkedInApplicationHandler.handle_resume_upload drv st1) = Ok false ->
      fst run = Ok false /\
      List.filter is_click (trace (snd run)) = List.filter is_click (trace st)).
Proof.
  split.
  - intros mapped_fields profile_data resume_file cover_letter st. cbv zeta. intros Hup.
    pose proof (fill_basic_fields_no_click drv mapped_fields profile_data st) as Hb.
    pose proof (gated_submit
                  (ExternalFormMapper.handle_resume_upload drv
                     (Py.get_list mapped_fields "resume_upload") resume_file)
                  (ExternalFormMapper.fill_additional_questions drv mapped_fields)
                  (ExternalFormMapper.add_cover_letter drv mapped_fields cover_letter)
                  (ExternalFormMapper.submit_form drv
                     (Py.get_list mapped_fields "submit_button"))
                  _
                  (handle_resume_upload_no_click drv _ _)
                  (fill_additional_questions_no_click drv _)
                  (add_cover_letter_no_click drv _ _)
                  Hup) as Hg.
    cbv zeta in Hg. revert Hg.
    unfold ExternalFormMapper.fill_application_form, try_except, bind.
    destruct (ExternalFormMapper.fill_basic_fields drv mapped_fields profile_data st)
      as [[[] | e] st1]; simpl in Hb |- *.
    + rewrite Hb. exact (fun H => H).
    + intros _. split; [ reflexivity | exact Hb ].
  - intros resume_content cover_letter st. cbv zeta. intros Hup.
    pose proof (preserves_call is_click (wait_presence drv ".jobs-easy-apply-content") st)
      as Hb.
    unfold LinkedInApplicationHandler.handle_linkedin_easy_apply.
    destruct (call (wait_presence drv ".jobs-easy-apply-content") st)
      as [[found | e] st1] eqn:Hw; simpl in Hb, Hup.
    + destruct Hup as [(e & He) | Hup]; [ discriminate He | ].
      rewrite (try_bind_ok _ _ _ _ _ _ Hw), <- Hb.
      exact (gated_submit
               (LinkedInApplicationHandler.handle_resume_upload drv)
               (LinkedInApplicationHandler.fill_easy_apply_questions drv)
               (LinkedInApplicationHandler.add_cover_letter_to_easy_apply drv cover_letter)
               (LinkedInApplicationHandler.submit_easy_apply drv)
               st1
               (easy_handle_resume_upload_no_click drv)
               (fill_easy_apply_questions_no_click drv)
               (add_cover_letter_to_easy_apply_no_click drv _)
               Hup).
    + rewrite (try_bind_raise _ _ _ _ _ _ Hw). split; [ reflexivity | exact Hb ].
Qed.

(** The two ways the upload of [fill_application_form] fails: no upload
    control was mapped, or handing the file over raised. *)
Lemma handle_resume_upload_false_iff resume_fields resume_file (st : St W) :
  fst (ExternalFormMapper.handle_resume_upload drv resume_fields resume_file st) = Ok false
  <-> resume_fields = [] \/
      exists resume_field rest e,
        resume_fields = resume_field :: rest /\
        fst (send_keys drv resume_field resume_file (world st)) = Raise e.
Proof.
  unfold ExternalFormMapper.handle_resume_upload, try_except, bind, act,
    ExternalFormMapper.time_sleep, pause.
  destruct resume_fields as [| resume_field rest]; simpl.
  - split; [ left; reflexivity | reflexivity ].
  - destruct (send_keys drv resume_field resume_file (world st)) as [[[] | e] w] eqn:Hs;
      simpl.
    + split; [ discriminate | ].
      intros [H | (f & r & e & Heq & H)]; [ discriminate H | ].
      injection Heq as <- <-. rewrite Hs in H. discriminate H.
    + split; [ | reflexivity ].
      intros _. right. exists resume_field, rest, e. rewrite Hs. split; reflexivity.
Qed.

End UploadGate.

(** No upload control mapped; an upload control that refuses the file; an
    Easy Apply dialog with no file input: each time a submit button is
    there, and it is not clicked. *)
Lemma upload_failure_blocks_submission_witness :
  (let run := ExternalFormMapper.fill_application_form
                (Fixture.driver Fixture.thanks_page) Fixture.mapped_without_upload
                ∅ "resume.pdf" "Dear team" Fixture.st0 in
   fst run = Ok false /\ List.filter is_click (trace (snd run)) = [])
  /\ (let run := ExternalFormMapper.fill_application_form
                   (Fixture.driver Fixture.refusing_upload_page) Fixture.mapped_with_upload
                   ∅ "resume.pdf" "Dear team" Fixture.st0 in
      fst run = Ok false /\ List.filter is_click (trace (snd run)) = [])
  /\ (let run := LinkedInApplicationHandler.handle_linkedin_easy_apply
                   (Fixture.driver Fixture.easy_apply_without_input)
                   "resume" "Dear team" Fixture.st0 in
      fst run = Ok false /\ List.filter is_click (trace (snd run)) = []).
Proof.
  split; [ | split ].
  - destruct (upload_failure_blocks_submission (Fixture.driver Fixture.thanks_page))
      as (H & _).
    apply (H Fixture.mapped_without_upload ∅ "resume.pdf" "Dear team" Fixture.st0).
    vm_compute. reflexivity.
  - destruct (upload_failure_blocks_submission (Fixture.driver Fixture.refusing_upload_page))
      as (H & _).
    apply (H Fixture.mapped_with_upload ∅ "resume.pdf" "Dear team" Fixture.st0).
    vm_compute. reflexivity.
  - destruct (upload_failure_blocks_submission
                (Fixture.driver Fixture.easy_apply_without_input)) as (_ & H).
    apply (H "resume" "Dear team" Fixture.st0).
    right. vm_compute. reflexivity.
Defined.

(** ** Dropdowns *)
Section SelectField.
Context {W : Type} (drv : Driver W).

(** The option loop when every option text can be read and stays what it
    is: it runs through when no option matches, and issues the selection
    of the first matching option otherwise. *)
Lemma scan_options_stable (field : WebElement) (txt : WebElement -> string)
    (opts : list WebElement) (st : St W) :
  (forall o w, text drv o w = (Ok (txt o), w)) ->
  ExternalFormMapper.scan_options drv field opts st =
    match List.find (fun o => Py.any_in ExternalFormMapper.select_words (Py.lower (txt o)))
                    opts with
    | None => (Ok None, st)
    | Some o =>
        (act (EvSelectByVisibleText field (txt o))
             (select_by_visible_text drv field (txt o)) ;;;
         pause drv ;;;
         ret (Some true)) st
    end.
Proof.
  intros Htxt. induction opts as [| opt rest IH];
    cbn [ExternalFormMapper.scan_options List.find]; [ reflexivity | ].
  unfold bind at 1. rewrite (call_pure _ _ _ (Htxt opt)).
  destruct (Py.any_in ExternalFormMapper.select_words (Py.lower (txt opt))).
  - unfold bind at 1. rewrite (call_pure _ _ _ (Htxt opt)). reflexivity.
  - exact IH.
Qed.

(** C3, as the code has it. On a dropdown whose options can be read:
    with more than one option, the options are scanned in order for a
    keyword and the first matching option is selected by its text; with
    more than one option and no match, the option at index 1 is selected;
    with one option or none, nothing is scanned or selected and the
    result is failure. *)
Theorem fill_select_field_selects :
  forall (field : WebElement) (opts : list WebElement) (txt : WebElement -> string)
         (st : St W) (w1 w2 : W),
    Select drv field (world st) = (Ok tt, w1) ->
    options drv field w1 = (Ok opts, w2) ->
    (forall o w, text drv o w = (Ok (txt o), w)) ->
    let run := ExternalFormMapper.fill_select_field drv field st in
    if (1 <? length opts)%nat then
      match List.find (fun o => Py.any_in ExternalFormMapper.select_words (Py.lower (txt o)))
                      opts with
      | Some o =>
          trace (snd run) = EvSelectByVisibleText field (txt o) :: trace st /\
          fst run = Ok (succeeded (fst (select_by_visible_text drv field (txt o) w2)))
      | None =>
          trace (snd run) = EvSelectByIndex field 1 :: trace st /\
          fst run = Ok (succeeded (fst (select_by_index drv field 1 w2)))
      end
    else run = (Ok false, mkSt w2 (trace st) (temp_files st)).
Proof.
  intros field opts txt st w1 w2 Hsel Hopts Htxt. cbv zeta.
  remember (ExternalFormMapper.fill_select_field drv field st) as run eqn:Hrun.
  unfold ExternalFormMapper.fill_select_field, try_except in Hrun.
  unfold bind at 1 in Hrun. rewrite (call_eq _ _ _ _ Hsel) in Hrun.
  unfold bind at 1 in Hrun. rewrite (call_eq _ (mkSt w1 _ _) _ _ Hopts) in Hrun.
  cbn [world trace temp_files] in Hrun.
  destruct (1 <? length opts)%nat; [ | exact Hrun ].
  unfold bind at 1 in Hrun. rewrite (scan_options_stable field txt opts _ Htxt) in Hrun.
  destruct (List.find _ opts) as [o |].
  - unfold bind, act, pause, ret in Hrun. cbn [world trace temp_files] in Hrun.
    destruct (select_by_visible_text drv field (txt o) w2) as [[[] | e] w3];
      subst run; split; reflexivity.
  - unfold ExternalFormMapper.time_sleep, bind, act, pause, ret in Hrun.
    cbn [world trace temp_files] in Hrun.
    destruct (select_by_index drv field 1 w2) as [[[] | e] w3];
      subst run; split; reflexivity.
Qed.

End SelectField.

(** C3 fails as stated: the single option "Yes" holds a keyword, and the
    code neither selects it nor anything else; it returns failure. *)
Lemma fill_select_field_single_option :
  snd (options (Fixture.driver Fixture.single_yes_page) 0 tt) = tt
  /\ fst (options (Fixture.driver Fixture.single_yes_page) 0 tt) = Ok [1]
  /\ fst (text (Fixture.driver Fixture.single_yes_page) 1 tt) = Ok "Yes"
  /\ Py.any_in ExternalFormMapper.select_words (Py.lower "Yes") = true
  /\ ExternalFormMapper.fill_select_field (Fixture.driver Fixture.single_yes_page) 0
       Fixture.st0 = (Ok false, Fixture.st0).
Proof. repeat split; reflexivity. Qed.

(** The dropdown of the specification's scenario, and one with no
    keyword. *)
Lemma fill_select_field_selects_witness :
  (let run := ExternalFormMapper.fill_select_field
                (Fixture.driver Fixture.availability_page) 0 Fixture.st0 in
   trace (snd run) = [ EvSelectByVisibleText 0 "Yes, immediately available" ]
   /\ fst run = Ok true)
  /\ (let run := ExternalFormMapper.fill_select_field
                   (Fixture.driver Fixture.colours_page) 0 Fixture.st0 in
      trace (snd run) = [ EvSelectByIndex 0 1 ] /\ fst run = Ok true).
Proof.
  split.
  - exact (fill_select_field_selects (Fixture.driver Fixture.availability_page) 0 [1; 2; 3]
             (fun e => match e with
                       | 1 => "Select..."
                       | 2 => "No"
                       | 3 => "Yes, immediately available"
                       | _ => EmptyString
                       end)
             Fixture.st0 tt tt eq_refl eq_refl (fun o w => eq_refl)).
  - exact (fill_select_field_selects (Fixture.driver Fixture.colours_page) 0 [1; 2; 3]
             (fun e => match e with
                       | 1 => "Select..."
                       | 2 => "Red"
                       | 3 => "Green"
                       | _ => EmptyString
                       end)
             Fixture.st0 tt tt eq_refl eq_refl (fun o w => eq_refl)).
Defined.

(** ** Field mapping *)
Section FieldMapping.
Context {W : Type} (drv : Driver W).

Lemma append_interactable_total elements fields :
  total (ExternalFormMapper.append_interactable drv elements fields).
Proof.
  revert fields. induction elements as [| element rest IH]; intros fields;
    cbn [ExternalFormMapper.append_interactable].
  - apply total_ret.
  - apply total_bind.
    + apply total_try_except. intros e. apply total_ret.
    + intros [[] |]; auto using total_ret.
Qed.

Lemma find_fields_loop_total sels fields :
  total (ExternalFormMapper.find_fields_loop drv sels fields).
Proof.
  revert fields. induction sels as [| selector rest IH]; intros fields;
    cbn [ExternalFormMapper.find_fields_loop].
  - apply total_ret.
  - apply total_bind.
    + apply total_try_except. intros e. apply total_ret.
    + intros [elements |]; [ | apply IH ].
      apply total_bind; [ apply append_interactable_total | intros; apply IH ].
Qed.

(** The mapping loop never raises and adds exactly the field kinds it is
    given. *)
Lemma map_each_dom (items : list (string * list string))
    (mapped_fields : gmap string (list WebElement)) (st : St W) :
  exists mapped st',
    ExternalFormMapper.map_each drv items mapped_fields st = (Ok mapped, st') /\
    dom mapped = list_to_set (map fst items) ∪ dom mapped_fields.
Proof.
  revert mapped_fields st.
  induction items as [| [field_type sels] rest IH]; intros mapped_fields st;
    cbn [ExternalFormMapper.map_each].
  - exists mapped_fields, st. split; [ reflexivity | ].
    cbn [map list_to_set]. by rewrite (left_id_L ∅ (∪)).
  - unfold bind, ExternalFormMapper.find_fields_by_selectors.
    destruct (find_fields_loop_total sels [] st) as (fields & st1 & ->).
    destruct (IH (<[field_type := fields]> mapped_fields) st1) as (mapped & st' & Hrun & Hdom).
    exists mapped, st'. split; [ exact Hrun | ].
    rewrite Hdom, dom_insert_L. cbn [map fst list_to_set].
    rewrite (assoc_L (∪)). f_equal. apply (comm_L (∪)).
Qed.

(** C9. A system tag that the pattern table does not hold, 'unknown'
    among them, is mapped as 'generic' is: the run is the mapping loop
    over the generic selector lists, it raises nothing, and the mapping it
    returns has the five field kinds, so it is not empty. *)
Theorem map_form_fields_falls_back_to_generic :
  forall (system_type : string) (st : St W),
    ExternalFormMapper.form_patterns !! system_type = None ->
    ExternalFormMapper.map_form_fields drv system_type st
      = ExternalFormMapper.map_form_fields drv "generic" st /\
    exists mapped st',
      ExternalFormMapper.map_form_fields drv system_type st = (Ok mapped, st') /\
      ExternalFormMapper.map_each drv
        (ExternalFormMapper.selectors ExternalFormMapper.generic_pattern) ∅ st
        = (Ok mapped, st') /\
      dom mapped = ({[ "name_fields"; "email_fields"; "phone_fields";
                       "resume_upload"; "submit_button" ]} : gset string) /\
      mapped <> ∅.
Proof.
  intros system_type st Hnone.
  assert (Hgen : ExternalFormMapper.form_patterns !! "generic"
                 = Some ExternalFormMapper.generic_pattern) by (vm_compute; reflexivity).
  assert (Hrun : ExternalFormMapper.map_form_fields drv system_type st
                 = ExternalFormMapper.map_form_fields drv "generic" st).
  { unfold ExternalFormMapper.map_form_fields. rewrite Hnone, Hgen. reflexivity. }
  split; [ exact Hrun | ].
  destruct (map_each_dom
              (ExternalFormMapper.selectors ExternalFormMapper.generic_pattern) ∅ st)
    as (mapped & st' & Heach & Hdom).
  exists mapped, st'. split; [ | split; [ exact Heach | ] ].
  - rewrite Hrun. unfold ExternalFormMapper.map_form_fields, try_except.
    rewrite Hgen. cbv beta iota zeta. rewrite Hgen, Heach. reflexivity.
  - assert (Hd : dom mapped = ({[ "name_fields"; "email_fields"; "phone_fields";
                                  "resume_upload"; "submit_button" ]} : gset string)).
    { rewrite Hdom, dom_empty_L, (right_id_L ∅ (∪)). cbn [map fst list_to_set].
      unfold ExternalFormMapper.generic_pattern, ExternalFormMapper.selectors.
      cbn [map fst list_to_set]. by rewrite (right_id_L ∅ (∪)), !(assoc_L (∪)). }
    split; [ exact Hd | ].
    intros ->. rewrite dom_empty_L in Hd.
    assert (Hin : "submit_button" ∈ (∅ : gset string))
      by (rewrite Hd; apply elem_of_union_r, elem_of_singleton; reflexivity).
    exact (not_elem_of_empty _ Hin).
Qed.

End FieldMapping.

Lemma map_form_fields_falls_back_to_generic_witness :
  ExternalFormMapper.map_form_fields (Fixture.driver Fixture.silent_page) "unknown" Fixture.st0
    = ExternalFormMapper.map_form_fields (Fixture.driver Fixture.silent_page) "generic"
        Fixture.st0.
Proof.
  apply (map_form_fields_falls_back_to_generic
           (Fixture.driver Fixture.silent_page) "unknown" Fixture.st0).
  vm_compute. reflexivity.
Defined.

(** ** The component boundary *)
Section Boundary.
Context {W : Type} (drv : Driver W).

(** When the click on every candidate raises, the loop of [submit_form]
    runs through and reports failure. *)
Lemma submit_loop_all_clicks_raise (submit_fields : list WebElement) (st : St W) :
  (forall f w, In f submit_fields -> exists e w', click drv f w = (Raise e, w')) ->
  fst (ExternalFormMapper.submit_loop drv submit_fields st) = Ok false.
Proof.
  revert st. induction submit_fields as [| f rest IH]; intros st Hclick;
    cbn [ExternalFormMapper.submit_loop]; [ reflexivity | ].
  assert (Hrest : forall st', fst (ExternalFormMapper.submit_loop drv rest st') = Ok false).
  { intros st'. apply IH. intros f' w Hin. apply Hclick. right. exact Hin. }
  unfold try_except, bind at 1 2.
  destruct (call (is_enabled drv f) st) as [[[] | e] st1]; try apply Hrest.
  unfold bind at 1, act.
  destruct (Hclick f (world st1) (or_introl eq_refl)) as (e & w' & ->).
  apply Hrest.
Qed.

(** C8. The five public operations of the mapper return a value from
    every state, whatever the driver raises.  A failure to read the
    address or the source, or a failure inside the form heuristic, makes
    the detection 'unknown'; an upload that raises makes the fill fail;
    a submission whose every click raises fails. *)
Theorem no_exception_crosses_the_boundary :
  total (ExternalFormMapper.detect_application_system drv) /\
  (forall system_type, total (ExternalFormMapper.map_form_fields drv system_type)) /\
  (forall mapped_fields profile_data resume_file cover_letter,
      total (ExternalFormMapper.fill_application_form drv mapped_fields profile_data
               resume_file cover_letter)) /\
  (forall submit_fields, total (ExternalFormMapper.submit_form drv submit_fields)) /\
  total (ExternalFormMapper.check_submission_success drv) /\
  (forall (st : St W) e w1,
      current_url drv (world st) = (Raise e, w1) ->
      fst (ExternalFormMapper.detect_application_system drv st) = Ok "unknown") /\
  (forall (st : St W) url e w1 w2,
      current_url drv (world st) = (Ok url, w1) ->
      page_source drv w1 = (Raise e, w2) ->
      fst (ExternalFormMapper.detect_application_system drv st) = Ok "unknown") /\
  (forall (st : St W) url src w1 w2,
      current_url drv (world st) = (Ok url, w1) ->
      page_source drv w1 = (Ok src, w2) ->
      Spec.first_in Spec.scannedNames (Py.lower url) = None ->
      Spec.first_in Spec.scannedNames (Py.lower src) = None ->
      (exists e w3, page_source drv w2 = (Raise e, w3)) \/
      (exists s w3 e w4,
          page_source drv w2 = (Ok s, w3) /\
          find_elements drv TAG_NAME "form" w3 = (Raise e, w4)) \/
      (exists s w3 forms w4 e w5,
          page_source drv w2 = (Ok s, w3) /\
          find_elements drv TAG_NAME "form" w3 = (Ok forms, w4) /\
          find_elements drv TAG_NAME "input" w4 = (Raise e, w5)) ->
      fst (ExternalFormMapper.detect_application_system drv st) = Ok "unknown") /\
  (forall mapped_fields profile_data resume_file cover_letter (st : St W)
          resume_field rest e,
      Py.get_list mapped_fields "resume_upload" = resume_field :: rest ->
      fst (send_keys drv resume_field resume_file
             (world (snd (ExternalFormMapper.fill_basic_fields drv mapped_fields
                            profile_data st)))) = Raise e ->
      fst (ExternalFormMapper.fill_application_form drv mapped_fields profile_data
             resume_file cover_letter st) = Ok false) /\
  (forall submit_fields (st : St W),
      (forall f w, In f submit_fields -> exists e w', click drv f w = (Raise e, w')) ->
      fst (ExternalFormMapper.submit_form drv submit_fields st) = Ok false).
Proof.
  repeat apply conj.
  - apply total_try_except. intros e. apply total_ret.
  - intros system_type. apply total_try_except. intros e. apply total_ret.
  - intros. apply total_try_except. intros e. apply total_ret.
  - intros. apply total_try_except. intros e. apply total_ret.
  - apply total_try_except. intros e. apply total_ret.
  - intros st e w1 Hurl.
    unfold ExternalFormMapper.detect_application_system, try_except, bind.
    rewrite (call_eq _ _ _ _ Hurl). reflexivity.
  - intros st url e w1 w2 Hurl Hsrc.
    unfold ExternalFormMapper.detect_application_system, try_except, bind.
    rewrite (call_eq _ _ _ _ Hurl), (call_eq _ (mkSt w1 _ _) _ _ Hsrc). reflexivity.
  - intros st url src w1 w2 Hurl Hsrc Hu Hs Hraise.
    unfold ExternalFormMapper.detect_application_system, try_except, bind.
    rewrite (call_eq _ _ _ _ Hurl), (call_eq _ (mkSt w1 _ _) _ _ Hsrc).
    cbn [world trace temp_files].
    unfold Spec.first_in, Spec.scannedNames in Hu, Hs. cbn [List.find] in Hu, Hs.
    repeat match type of Hu with
           | (if ?b then _ else _) = None => destruct b; [ discriminate Hu | ]
           end.
    repeat match type of Hs with
           | (if ?b then _ else _) = None => destruct b; [ discriminate Hs | ]
           end.
    unfold ExternalFormMapper.detect_form_patterns, try_except, bind.
    destruct Hraise as [(e & w3 & H1) | [(s & w3 & e & w4 & H1 & H2)
                                        | (s & w3 & forms & w4 & e & w5 & H1 & H2 & H3)]].
    + rewrite (call_eq _ (mkSt w2 _ _) _ _ H1). reflexivity.
    + rewrite (call_eq _ (mkSt w2 _ _) _ _ H1), (call_eq _ (mkSt w3 _ _) _ _ H2).
      reflexivity.
    + rewrite (call_eq _ (mkSt w2 _ _) _ _ H1), (call_eq _ (mkSt w3 _ _) _ _ H2),
        (call_eq _ (mkSt w4 _ _) _ _ H3).
      reflexivity.
  - intros mapped_fields profile_data resume_file cover_letter st resume_field rest e
      Hfields Hsend.
    assert (Hup : fst (ExternalFormMapper.handle_resume_upload drv
                         (Py.get_list mapped_fields "resume_upload") resume_file
                         (snd (ExternalFormMapper.fill_basic_fields drv mapped_fields
                                 profile_data st))) = Ok false).
    { apply handle_resume_upload_false_iff. right.
      exists resume_field, rest, e. split; assumption. }
    pose proof (gated_submit
                  (ExternalFormMapper.handle_resume_upload drv
                     (Py.get_list mapped_fields "resume_upload") resume_file)
                  (ExternalFormMapper.fill_additional_questions drv mapped_fields)
                  (ExternalFormMapper.add_cover_letter drv mapped_fields cover_letter)
                  (ExternalFormMapper.submit_form drv
                     (Py.get_list mapped_fields "submit_button"))
                  _
                  (handle_resume_upload_no_click drv _ _)
                  (fill_additional_questions_no_click drv _)
                  (add_cover_letter_no_click drv _ _)
                  Hup) as (Hg & _).
    revert Hg.
    unfold ExternalFormMapper.fill_application_form, try_except, bind.
    destruct (ExternalFormMapper.fill_basic_fields drv mapped_fields profile_data st)
      as [[[] | e'] st1]; simpl; [ exact (fun H => H) | reflexivity ].
  - intros submit_fields st Hclick.
    unfold ExternalFormMapper.submit_form, try_except.
    destruct submit_fields as [| f rest]; [ reflexivity | ].
    pose proof (submit_loop_all_clicks_raise (f :: rest) st Hclick) as Hloop.
    destruct (ExternalFormMapper.submit_loop drv (f :: rest) st) as [[b | e] st'];
      simpl in Hloop |- *; [ exact Hloop | reflexivity ].
Qed.

End Boundary.

(** An address that cannot be read; a Workday address whose source cannot
    be read; a page whose elements cannot be listed; an upload control
    that refuses the file; a submit button whose click raises. *)
Lemma no_exception_crosses_the_boundary_witness :
  fst (ExternalFormMapper.detect_application_system
         (Fixture.driver Fixture.offline_page) Fixture.st0) = Ok "unknown"
  /\ fst (ExternalFormMapper.detect_application_system
            (Fixture.driver Fixture.workday_unreadable_page) Fixture.st0) = Ok "unknown"
  /\ fst (ExternalFormMapper.detect_application_system
            (Fixture.driver Fixture.unlistable_page) Fixture.st0) = Ok "unknown"
  /\ fst (ExternalFormMapper.fill_application_form
            (Fixture.driver Fixture.refusing_upload_page) Fixture.mapped_with_upload
            ∅ "resume.pdf" "Dear team" Fixture.st0) = Ok false
  /\ fst (ExternalFormMapper.submit_form
            (Fixture.driver Fixture.dead_button_page) [9] Fixture.st0) = Ok false.
Proof.
  repeat apply conj.
  - destruct (no_exception_crosses_the_boundary (Fixture.driver Fixture.offline_page))
      as (_ & _ & _ & _ & _ & H & _).
    apply (H Fixture.st0 WebDriverException tt). reflexivity.
  - destruct (no_exception_crosses_the_boundary
                (Fixture.driver Fixture.workday_unreadable_page))
      as (_ & _ & _ & _ & _ & _ & H & _).
    apply (H Fixture.st0 "https://acme.workday.com/apply" WebDriverException tt tt);
      reflexivity.
  - destruct (no_exception_crosses_the_boundary (Fixture.driver Fixture.unlistable_page))
      as (_ & _ & _ & _ & _ & _ & _ & H & _).
    apply (H Fixture.st0 "https://example.com/jobs/42" "Apply now: upload your resume" tt tt);
      try reflexivity.
    right. left. exists "Apply now: upload your resume", tt, WebDriverException, tt.
    split; reflexivity.
  - destruct (no_exception_crosses_the_boundary
                (Fixture.driver Fixture.refusing_upload_page))
      as (_ & _ & _ & _ & _ & _ & _ & _ & H & _).
    apply (H Fixture.mapped_with_upload ∅ "resume.pdf" "Dear team" Fixture.st0
             3 [] WebDriverException); vm_compute; reflexivity.
  - destruct (no_exception_crosses_the_boundary (Fixture.driver Fixture.dead_button_page))
      as (_ & _ & _ & _ & _ & _ & _ & _ & _ & H).
    apply (H [9] Fixture.st0).
    intros f w _. exists WebDriverException, w. reflexivity.
Defined.

(** * Further properties of the two classes *)

(** ** More facts about the monad *)
Section MoreMonadFacts.
Context {W : Type}.

(** [call] on an operation whose outcome is fixed and leaves the world. *)
Lemma call_stable {A} (op : W -> result A * W) (r : result A) (st : St W) :
  (forall w, op w = (r, w)) -> call op st = (r, st).
Proof. intros H. unfold call. rewrite H. destruct st; reflexivity. Qed.

Lemma filter_all {A} (l : list A) : List.filter (fun _ => true) l = l.
Proof. induction l as [| x l IH]; simpl; [ | rewrite IH ]; reflexivity. Qed.

(** An operation that adds no event at all leaves the log as it is. *)
Lemma preserves_all_trace {A} (m : M W A) (st : St W) :
  preserves (fun _ => true) m -> trace (snd (m st)) = trace st.
Proof. intros H. specialize (H st). rewrite !filter_all in H. exact H. Qed.

Lemma total_try_except_NoSuchElement {A} (body handler : M W A) :
  total body -> total (try_except_NoSuchElement body handler).
Proof.
  intros Hb st. unfold try_except_NoSuchElement.
  destruct (Hb st) as (a & st' & ->). exists a, st'. reflexivity.
Qed.

End MoreMonadFacts.

(** ** The field locator *)
Section Locator.
Context {W : Type} (drv : Driver W).

Variable found : string -> result (list WebElement).
Variable vis en : WebElement -> bool.
Hypothesis Hfound : forall sel w, find_elements drv CSS_SELECTOR sel w = (found sel, w).
Hypothesis Hvis : forall e w, is_displayed drv e w = (Ok (vis e), w).
Hypothesis Hen : forall e w, is_enabled drv e w = (Ok (en e), w).

Lemma append_interactable_stable elements fields (st : St W) :
  ExternalFormMapper.append_interactable drv elements fields st
    = (Ok (fields ++ List.filter (fun e => vis e && en e) elements), st).
Proof.
  revert fields. induction elements as [| e rest IH]; intros fields;
    cbn [ExternalFormMapper.append_interactable List.filter].
  - rewrite app_nil_r. reflexivity.
  - unfold bind at 1. unfold try_except, bind at 1.
    rewrite (call_stable _ _ _ (Hvis e)).
    destruct (vis e); cbn [andb].
    + unfold bind at 1. rewrite (call_stable _ _ _ (Hen e)). cbn [ret].
      destruct (en e); rewrite IH; [ rewrite <- app_assoc | ]; reflexivity.
    + cbn [ret]. apply IH.
Qed.

Lemma find_fields_loop_stable sels fields (st : St W) :
  ExternalFormMapper.find_fields_loop drv sels fields st
    = (Ok (fields ++
           flat_map (fun sel => match found sel with
                                | Ok elements =>
                                    List.filter (fun e => vis e && en e) elements
                                | Raise _ => []
                                end) sels), st).
Proof.
  revert fields. induction sels as [| sel rest IH]; intros fields;
    cbn [ExternalFormMapper.find_fields_loop flat_map].
  - rewrite app_nil_r. reflexivity.
  - unfold bind at 1. unfold try_except, bind at 1.
    rewrite (call_stable _ _ _ (Hfound sel)).
    destruct (found sel) as [elements | e]; cbn [ret].
    + unfold bind at 1. rewrite append_interactable_stable, IH, app_assoc. reflexivity.
    + apply IH.
Qed.

(** X1. On a page whose answers do not change, [find_fields_by_selectors]
    returns, selector by selector and in order, the elements that are
    displayed and enabled; an element matched by two selectors is listed
    twice, and a selector whose query raises contributes nothing and does
    not stop the others. *)
Theorem find_fields_by_selectors_collects :
  forall (sels : list string) (st : St W),
    ExternalFormMapper.find_fields_by_selectors drv sels st
      = (Ok (flat_map
               (fun sel => match found sel with
                           | Ok elements => List.filter (fun e => vis e && en e) elements
                           | Raise _ => []
                           end) sels), st).
Proof.
  intros sels st. unfold ExternalFormMapper.find_fields_by_selectors.
  apply find_fields_loop_stable.
Qed.

End Locator.

Lemma find_fields_by_selectors_collects_witness :
  ExternalFormMapper.find_fields_by_selectors (Fixture.driver Fixture.overlapping_page)
    [ "first"; "broken"; "second" ] Fixture.st0
  = (Ok [1; 2; 2], Fixture.st0).
Proof.
  apply (find_fields_by_selectors_collects (Fixture.driver Fixture.overlapping_page)
           (Fixture.by_css Fixture.overlapping_page)
           (fun e => negb (Nat.eqb e 3)) (fun _ => true)).
  - intros sel w. reflexivity.
  - intros e w. reflexivity.
  - intros e w. reflexivity.
Defined.

(** ** Operations that only look at the page *)
Section ReadOnly.
Context {W : Type} (drv : Driver W).

Local Abbreviation silent := (preserves (fun _ => true)).

Lemma append_interactable_silent elements fields :
  silent (ExternalFormMapper.append_interactable drv elements fields).
Proof.
  revert fields. induction elements as [| e rest IH]; intros fields;
    cbn [ExternalFormMapper.append_interactable]; pres.
Qed.

Lemma find_fields_loop_silent sels fields :
  silent (ExternalFormMapper.find_fields_loop drv sels fields).
Proof.
  revert fields. induction sels as [| sel rest IH]; intros fields;
    cbn [ExternalFormMapper.find_fields_loop]; pres.
  apply append_interactable_silent.
Qed.

Lemma map_each_silent items mapped_fields :
  silent (ExternalFormMapper.map_each drv items mapped_fields).
Proof.
  revert mapped_fields. induction items as [| [field_type sels] rest IH];
    intros mapped_fields; cbn [ExternalFormMapper.map_each]; pres.
  apply find_fields_loop_silent.
Qed.

Lemma map_form_fields_silent system_type :
  silent (ExternalFormMapper.map_form_fields drv system_type).
Proof.
  unfold ExternalFormMapper.map_form_fields. pres; apply map_each_silent.
Qed.

Lemma detect_form_patterns_silent : silent (ExternalFormMapper.detect_form_patterns drv).
Proof. unfold ExternalFormMapper.detect_form_patterns. pres. Qed.

(** Every entry of the pattern table lists the same five field kinds. *)
Lemma form_patterns_kinds system_type patterns :
  ExternalFormMapper.form_patterns !! system_type = Some patterns ->
  map fst (ExternalFormMapper.selectors patterns)
    = [ "name_fields"; "email_fields"; "phone_fields"; "resume_upload"; "submit_button" ].
Proof.
  unfold ExternalFormMapper.form_patterns. intros H.
  repeat (apply lookup_insert_Some in H; destruct H as [[_ <-] | [_ H]];
          [ reflexivity | ]).
  rewrite lookup_empty in H. discriminate H.
Qed.

(** X2. For every system tag, known or not, [map_form_fields] raises
    nothing, returns a mapping with exactly the five field kinds (so the
    later [get] of 'resume_upload' and 'submit_button' never falls back
    on its default), and issues no action on the page. *)
Theorem map_form_fields_five_kinds :
  forall (system_type : string) (st : St W),
    exists mapped st',
      ExternalFormMapper.map_form_fields drv system_type st = (Ok mapped, st') /\
      dom mapped = ({[ "name_fields"; "email_fields"; "phone_fields";
                       "resume_upload"; "submit_button" ]} : gset string) /\
      trace st' = trace st.
Proof.
  intros system_type st.
  pose proof (preserves_all_trace _ st (map_form_fields_silent system_type)) as Htr.
  revert Htr. unfold ExternalFormMapper.map_form_fields, try_except.
  set (tag := match ExternalFormMapper.form_patterns !! system_type with
              | Some _ => system_type
              | None => "generic"
              end).
  assert (Htag : exists patterns, ExternalFormMapper.form_patterns !! tag = Some patterns).
  { subst tag. destruct (ExternalFormMapper.form_patterns !! system_type) eqn:Hl.
    - exists p. exact Hl.
    - eexists. vm_compute. reflexivity. }
  destruct Htag as (patterns & Hp). cbv zeta. rewrite Hp.
  destruct (map_each_dom drv (ExternalFormMapper.selectors patterns) ∅ st)
    as (mapped & st' & -> & Hdom).
  intros Htr. exists mapped, st'. split; [ reflexivity | split; [ | exact Htr ] ].
  rewrite Hdom, (form_patterns_kinds _ _ Hp), dom_empty_L, (right_id_L ∅ (∪)).
  cbn [list_to_set]. by rewrite (right_id_L ∅ (∪)), !(assoc_L (∪)).
Qed.

(** X3. Detection, the form heuristic, both classifiers and both outcome
    checks only read: whatever the page answers or raises, they add
    nothing to the log of actions. *)
Theorem inspection_is_read_only :
  forall (field : WebElement) (st : St W),
    trace (snd (ExternalFormMapper.detect_application_system drv st)) = trace st /\
    trace (snd (ExternalFormMapper.detect_form_patterns drv st)) = trace st /\
    trace (snd (ExternalFormMapper.should_fill_additional_field drv field st)) = trace st /\
    trace (snd (ExternalFormMapper.check_submission_success drv st)) = trace st /\
    trace (snd (LinkedInApplicationHandler.should_fill_field drv field st)) = trace st /\
    trace (snd (LinkedInApplicationHandler.check_application_success drv st)) = trace st.
Proof.
  intros field st. repeat apply conj; apply preserves_all_trace.
  - unfold ExternalFormMapper.detect_application_system. pres.
    apply detect_form_patterns_silent.
  - apply detect_form_patterns_silent.
  - unfold ExternalFormMapper.should_fill_additional_field. pres.
  - unfold ExternalFormMapper.check_submission_success. pres.
  - unfold LinkedInApplicationHandler.should_fill_field. pres.
  - unfold LinkedInApplicationHandler.check_application_success. pres.
Qed.

End ReadOnly.

(** ** Typing *)
Section Typing.
Context {W : Type} (drv : Driver W).

Lemma append_assoc (a b c : string) : (a +:+ b) +:+ c = a +:+ (b +:+ c).
Proof.
  induction a as [| x a IH]; [ reflexivity | ].
  change ((String x (a +:+ b)) +:+ c = String x (a +:+ (b +:+ c))).
  change (String x ((a +:+ b) +:+ c) = String x (a +:+ (b +:+ c))).
  rewrite IH. reflexivity.
Qed.

Lemma typed_into_keystrokes element txt older :
  Log.typed_into element (Log.keystrokes element txt older)
    = Log.typed_into element older +:+ txt.
Proof.
  revert older. induction txt as [| c txt IH]; intros older; cbn [Log.keystrokes].
  - induction (Log.typed_into element older) as [| x s IHs]; [ reflexivity | ].
    change (String x s = String x (s +:+ "")). rewrite <- IHs. reflexivity.
  - rewrite IH. cbn [Log.typed_into]. rewrite Nat.eqb_refl, append_assoc. reflexivity.
Qed.

Lemma human_type_keystrokes element txt (st : St W) :
  (forall keys w, exists w', send_keys drv element keys w = (Ok tt, w')) ->
  exists w',
    ExternalFormMapper.human_type drv element txt st
      = (Ok tt, mkSt w' (Log.keystrokes element txt (trace st)) (temp_files st)).
Proof.
  intros Hsend. revert st. induction txt as [| c txt IH]; intros st;
    cbn [ExternalFormMapper.human_type Log.keystrokes].
  - exists (world st). destruct st; reflexivity.
  - unfold bind at 1, act.
    destruct (Hsend (String c EmptyString) (world st)) as (w1 & ->).
    unfold bind at 1, ExternalFormMapper.time_sleep, pause. cbn [world trace temp_files].
    destruct (IH (mkSt (sleep drv w1)
                       (EvSendKeys element (String c EmptyString) :: trace st)
                       (temp_files st))) as (w' & ->).
    exists w'. reflexivity.
Qed.

(** X4. [human_type] sends the text one character per call, in order:
    when the element takes every key, the log afterwards reads as the
    text appended to whatever had been typed into that element before.
    It has no handler of its own: when the first key raises, the
    exception leaves [human_type]. *)
Theorem human_type_types_the_text :
  forall (element : WebElement) (st : St W),
    (forall (txt : string),
        (forall keys w, exists w', send_keys drv element keys w = (Ok tt, w')) ->
        fst (ExternalFormMapper.human_type drv element txt st) = Ok tt /\
        Log.typed_into element (trace (snd (ExternalFormMapper.human_type drv element txt st)))
          = Log.typed_into element (trace st) +:+ txt) /\
    (forall (c : ascii) (rest : string) (e : exn) (w' : W),
        send_keys drv element (String c EmptyString) (world st) = (Raise e, w') ->
        fst (ExternalFormMapper.human_type drv element (String c rest) st) = Raise e).
Proof.
  intros element st. split.
  - intros txt Hsend.
    destruct (human_type_keystrokes element txt st Hsend) as (w' & ->).
    split; [ reflexivity | apply typed_into_keystrokes ].
  - intros c rest e w' Hsend. cbn [ExternalFormMapper.human_type].
    unfold bind at 1, act. rewrite Hsend. reflexivity.
Qed.

End Typing.

Lemma human_type_types_the_text_witness :
  Log.typed_into 1
    (trace (snd (ExternalFormMapper.human_type (Fixture.driver Fixture.silent_page) 1
                   "Jane Roe" Fixture.st0))) = "Jane Roe"
  /\ fst (ExternalFormMapper.human_type (Fixture.driver Fixture.refusing_upload_page) 3
            "resume.pdf" Fixture.st0) = Raise WebDriverException.
Proof.
  split.
  - destruct (human_type_types_the_text (Fixture.driver Fixture.silent_page) 1 Fixture.st0)
      as (H & _).
    apply (H "Jane Roe"). intros keys w. exists w. reflexivity.
  - destruct (human_type_types_the_text
                (Fixture.driver Fixture.refusing_upload_page) 3 Fixture.st0) as (_ & H).
    apply (H "r"%char "esume.pdf" WebDriverException tt). reflexivity.
Defined.

(** ** Counting events *)
Section Counting.
Context {W : Type}.

Lemma adds_of_preserves P {A} (m : M W A) n : preserves P m -> Log.adds_at_most P n m.
Proof. intros H st. rewrite H. lia. Qed.

Lemma adds_bind P {A B} (m : M W A) (k : A -> M W B) n1 n2 :
  Log.adds_at_most P n1 m -> (forall a, Log.adds_at_most P n2 (k a)) ->
  Log.adds_at_most P (n1 + n2) (bind m k).
Proof.
  intros Hm Hk st. unfold bind.
  specialize (Hm st). destruct (m st) as [[a | e] st1]; simpl in *.
  - specialize (Hk a st1). lia.
  - lia.
Qed.

Lemma adds_try_except P {A} (body : M W A) (handler : exn -> M W A) n :
  Log.adds_at_most P n body -> (forall e, preserves P (handler e)) ->
  Log.adds_at_most P n (try_except body handler).
Proof.
  intros Hb Hh st. unfold try_except.
  specialize (Hb st). destruct (body st) as [[a | e] st1]; simpl in *.
  - exact Hb.
  - rewrite Hh. exact Hb.
Qed.

Lemma adds_act P {A} (ev : Event) (op : W -> result A * W) :
  Log.adds_at_most P 1 (act ev op).
Proof.
  intros st. unfold act. destruct (op (world st)). simpl.
  destruct (P ev); simpl; lia.
Qed.

End Counting.

(** ** Basic fields *)
Section BasicFields.
Context {W : Type} (drv : Driver W).

Lemma human_type_no_clear element txt :
  preserves Log.is_clear (ExternalFormMapper.human_type drv element txt).
Proof.
  induction txt as [| c txt IH]; cbn [ExternalFormMapper.human_type];
    unfold ExternalFormMapper.time_sleep; pres.
Qed.

Lemma fill_field_appropriately_one_clear field field_type profile_data :
  Log.adds_at_most Log.is_clear 1
    (ExternalFormMapper.fill_field_appropriately drv field field_type profile_data).
Proof.
  unfold ExternalFormMapper.fill_field_appropriately.
  apply adds_try_except; [ | intros e; apply preserves_ret ].
  destruct (Py.truthy _); [ | apply adds_of_preserves, preserves_ret ].
  apply (adds_bind _ _ _ 1 0); [ apply adds_act | intros _ ].
  apply adds_of_preserves. unfold ExternalFormMapper.time_sleep. pres.
  apply human_type_no_clear.
Qed.

Lemma fill_first_empty_one_clear fields field_type profile_data :
  Log.adds_at_most Log.is_clear 1
    (ExternalFormMapper.fill_first_empty drv fields field_type profile_data).
Proof.
  induction fields as [| field rest IH]; cbn [ExternalFormMapper.fill_first_empty].
  - apply adds_of_preserves, preserves_ret.
  - apply (adds_bind _ _ _ 0 1); [ apply adds_of_preserves, preserves_call | intros value ].
    destruct (negb (Py.truthy value)); [ | exact IH ].
    apply (adds_bind _ _ _ 1 0); [ apply fill_field_appropriately_one_clear | intros _ ].
    apply adds_of_preserves, preserves_ret.
Qed.

(** X5. [fill_basic_fields] clears, and so fills, at most one control of
    each of the three kinds: whatever the mapping holds, the log gains at
    most three clears. *)
Theorem fill_basic_fields_at_most_one_per_kind :
  forall (mapped_fields : gmap string (list WebElement))
         (profile_data : gmap string string) (st : St W),
    (Log.clears
       (trace (snd (ExternalFormMapper.fill_basic_fields drv mapped_fields profile_data st)))
     <= 3 + Log.clears (trace st))%nat.
Proof.
  intros mapped_fields profile_data st. unfold Log.clears.
  apply (adds_try_except Log.is_clear _ _ 3); [ | intros e; apply preserves_ret ].
  apply (adds_bind _ _ _ 1 2); [ apply fill_first_empty_one_clear | intros _ ].
  apply (adds_bind _ _ _ 1 1); [ apply fill_first_empty_one_clear | intros _ ].
  apply fill_first_empty_one_clear.
Qed.

Lemma fill_first_empty_prefilled fields field_type profile_data (st : St W) :
  (forall f w, In f fields ->
               exists v w', get_attribute drv f "value" w = (Ok v, w') /\ Py.truthy v = true) ->
  exists w',
    ExternalFormMapper.fill_first_empty drv fields field_type profile_data st
      = (Ok tt, mkSt w' (trace st) (temp_files st)).
Proof.
  revert st. induction fields as [| field rest IH]; intros st Hfull;
    cbn [ExternalFormMapper.fill_first_empty].
  - exists (world st). destruct st; reflexivity.
  - unfold bind at 1, call.
    destruct (Hfull field (world st) (or_introl eq_refl)) as (v & w1 & -> & Hv).
    rewrite Hv. cbn [negb].
    destruct (IH (mkSt w1 (trace st) (temp_files st))) as (w' & ->).
    + intros f w Hin. apply Hfull. right. exact Hin.
    + exists w'. reflexivity.
Qed.

(** X6. Controls that already carry a value are left alone: when every
    mapped name, email and phone control reads as non-empty,
    [fill_basic_fields] issues no action at all. *)
Theorem fill_basic_fields_keeps_prefilled :
  forall (mapped_fields : gmap string (list WebElement))
         (profile_data : gmap string string) (st : St W),
    (forall kind f w,
        In kind [ "name_fields"; "email_fields"; "phone_fields" ] ->
        In f (Py.get_list mapped_fields kind) ->
        exists v w', get_attribute drv f "value" w = (Ok v, w') /\ Py.truthy v = true) ->
    fst (ExternalFormMapper.fill_basic_fields drv mapped_fields profile_data st) = Ok tt /\
    trace (snd (ExternalFormMapper.fill_basic_fields drv mapped_fields profile_data st))
      = trace st.
Proof.
  intros mapped_fields profile_data st Hfull.
  assert (Hrun : exists w3,
             ExternalFormMapper.fill_basic_fields drv mapped_fields profile_data st
             = (Ok tt, mkSt w3 (trace st) (temp_files st))).
  { unfold ExternalFormMapper.fill_basic_fields, try_except.
    unfold bind at 1.
    destruct (fill_first_empty_prefilled (Py.get_list mapped_fields "name_fields") "name"
                profile_data st) as (w1 & ->).
    { intros f w Hin. apply (Hfull "name_fields"); [ cbn; tauto | exact Hin ]. }
    unfold bind at 1.
    destruct (fill_first_empty_prefilled (Py.get_list mapped_fields "email_fields") "email"
                profile_data (mkSt w1 (trace st) (temp_files st))) as (w2 & ->).
    { intros f w Hin. apply (Hfull "email_fields"); [ cbn; tauto | exact Hin ]. }
    cbn [world trace temp_files].
    destruct (fill_first_empty_prefilled (Py.get_list mapped_fields "phone_fields") "phone"
                profile_data (mkSt w2 (trace st) (temp_files st))) as (w3 & ->).
    { intros f w Hin. apply (Hfull "phone_fields"); [ cbn; tauto | exact Hin ]. }
    exists w3. reflexivity. }
  destruct Hrun as (w3 & ->). split; reflexivity.
Qed.

(** X7. A profile entry that is present but empty is not replaced by the
    built-in default: for the kinds name, email, phone and location the
    field is then left untouched and the fill reports [False]; so it is
    for a kind the resolver does not know. *)
Theorem fill_field_appropriately_skips_empty :
  forall (field : WebElement) (field_type : string)
         (profile_data : gmap string string) (st : St W),
    (In field_type [ "name"; "email"; "phone"; "location" ] /\
     profile_data !! field_type = Some EmptyString) \/
    ~ In field_type [ "name"; "email"; "phone"; "experience"; "location" ] ->
    ExternalFormMapper.fill_field_appropriately drv field field_type profile_data st
      = (Ok false, st).
Proof.
  intros field field_type profile_data st H.
  assert (Hv : Py.truthy (ExternalFormMapper.get_field_value field_type profile_data)
               = false).
  { unfold ExternalFormMapper.get_field_value, Py.get_str.
    destruct H as [[Hin Hempty] | Hout].
    - cbn in Hin.
      destruct Hin as [<- | [<- | [<- | [<- | []]]]]; cbn [String.eqb Ascii.eqb];
        rewrite Hempty; reflexivity.
    - repeat match goal with
             | |- context [String.eqb field_type ?k] =>
                 destruct (String.eqb_spec field_type k) as [-> | _];
                 [ exfalso; apply Hout; cbn; tauto | ]
             end.
      reflexivity. }
  unfold ExternalFormMapper.fill_field_appropriately, try_except.
  rewrite Hv. reflexivity.
Qed.

End BasicFields.

Lemma fill_basic_fields_keeps_prefilled_witness :
  trace (snd (ExternalFormMapper.fill_basic_fields (Fixture.driver Fixture.prefilled_page)
                Fixture.mapped_basic ∅ Fixture.st0)) = [].
Proof.
  apply (fill_basic_fields_keeps_prefilled (Fixture.driver Fixture.prefilled_page)
           Fixture.mapped_basic ∅ Fixture.st0).
  intros kind f w _ _. exists (Some "x"), w. split; reflexivity.
Defined.

Lemma fill_field_appropriately_skips_empty_witness :
  ExternalFormMapper.fill_field_appropriately (Fixture.driver Fixture.silent_page) 1
    "name" {[ "name" := EmptyString ]} Fixture.st0 = (Ok false, Fixture.st0)
  /\ ExternalFormMapper.fill_field_appropriately (Fixture.driver Fixture.silent_page) 1
       "linkedin" ∅ Fixture.st0 = (Ok false, Fixture.st0).
Proof.
  split.
  - apply (fill_field_appropriately_skips_empty (Fixture.driver Fixture.silent_page) 1
             "name" {[ "name" := EmptyString ]} Fixture.st0).
    left. split; [ cbn; tauto | vm_compute; reflexivity ].
  - apply (fill_field_appropriately_skips_empty (Fixture.driver Fixture.silent_page) 1
             "linkedin" ∅ Fixture.st0).
    right. cbn. intros H. repeat (destruct H as [H | H]; [ discriminate H | ]). exact H.
Defined.

(** ** Additional fields *)
Section AdditionalFields.
Context {W : Type} (drv : Driver W).

Lemma get_additional_field_value_not_empty field_type field_name field_placeholder :
  ExternalFormMapper.get_additional_field_value field_type field_name field_placeholder
    <> Some EmptyString.
Proof.
  unfold ExternalFormMapper.get_additional_field_value. cbv zeta.
  repeat match goal with
         | |- context [if ?b then _ else _] => destruct b; [ discriminate | ]
         end.
  discriminate.
Qed.

(** X8. For a name and a placeholder in ASCII, the resolver for
    additional fields gives no value exactly when none of the rule
    keywords occurs in the lower-cased name and placeholder and the
    declared type is none of text, number, email.  Whatever the text is,
    it never gives the empty string, so a resolved value is always
    typed. *)
Theorem get_additional_field_value_absent_iff :
  forall (field_type : option string) (field_name field_placeholder : string),
    (Py.is_ascii field_name = true ->
     Py.is_ascii field_placeholder = true ->
     (ExternalFormMapper.get_additional_field_value field_type field_name field_placeholder
        = None <->
      Py.any_in Log.rule_keywords
        (Py.lower (field_name +:+ " " +:+ field_placeholder)) = false /\
      Py.in_list field_type [ "text"; "number"; "email" ] = false)) /\
    ExternalFormMapper.get_additional_field_value field_type field_name field_placeholder
      <> Some EmptyString.
Proof.
  intros field_type field_name field_placeholder.
  split; [ intros _ _ | apply get_additional_field_value_not_empty ].
  unfold ExternalFormMapper.get_additional_field_value, Py.any_in, Log.rule_keywords.
  cbv zeta. set (t := Py.lower (field_name +:+ " " +:+ field_placeholder)).
  cbn [existsb].
  repeat match goal with
         | |- context [Py.str_in ?k t] =>
             destruct (Py.str_in k t); cbn [orb];
             [ solve [ split; [ discriminate | intros [? ?]; congruence ] ] | ]
         end.
  unfold Py.in_list. cbn [existsb].
  destruct (Py.eq_str field_type "text"); cbn [orb];
    [ solve [ split; [ discriminate | intros [? ?]; congruence ] ] | ].
  destruct (Py.eq_str field_type "number"); cbn [orb];
    [ solve [ split; [ discriminate | intros [? ?]; congruence ] ] | ].
  destruct (Py.eq_str field_type "email"); cbn [orb];
    [ solve [ split; [ discriminate | intros [? ?]; congruence ] ] | ].
  split; [ intros _; split; reflexivity | reflexivity ].
Qed.

(** X9. On a control the driver shows and that takes its keys,
    [fill_additional_field] clears the control and types exactly the
    value the resolver gives for its type, name or id, and placeholder;
    when the resolver gives none, the control is skipped without any
    action and the result is [False]. *)
Theorem fill_additional_field_types_resolved_value :
  forall (field : WebElement) (c : Spec.Control) (st : St W),
    Spec.shows drv field c ->
    Log.obeys drv field ->
    match ExternalFormMapper.get_additional_field_value
            (Spec.rawType c) (Spec.nameOrId c) (Spec.placeholder c) with
    | None => ExternalFormMapper.fill_additional_field drv field st = (Ok false, st)
    | Some value =>
        fst (ExternalFormMapper.fill_additional_field drv field st) = Ok true /\
        trace (snd (ExternalFormMapper.fill_additional_field drv field st))
          = Log.keystrokes field value (EvClear field :: trace st)
    end.
Proof.
  intros field c st (_ & _ & Ha) (Hclear & Hsend).
  assert (Hattr : forall a s, call (get_attribute drv field a) s = (Ok (Spec.attr c a), s)).
  { intros a s. apply call_pure. intros w. apply Ha. }
  assert (Hname :
    forall s, (field_name <- call (get_attribute drv field "name") ;;
               (if Py.truthy field_name then ret field_name
                else call (get_attribute drv field "id"))) s
              = (Ok (Py.or_ (Spec.attr c "name") (Spec.attr c "id")), s)).
  { intros s. unfold bind. rewrite Hattr. unfold Py.or_.
    destruct (Py.truthy (Spec.attr c "name")); [ reflexivity | apply Hattr ]. }
  pose proof (get_additional_field_value_not_empty
                (Spec.rawType c) (Spec.nameOrId c) (Spec.placeholder c)) as Hne.
  remember (ExternalFormMapper.fill_additional_field drv field st) as run eqn:Hrun.
  unfold ExternalFormMapper.fill_additional_field, try_except in Hrun.
  unfold bind at 1 in Hrun. rewrite Hattr in Hrun.
  unfold bind at 1 in Hrun. rewrite Hattr in Hrun.
  unfold bind at 1 in Hrun. unfold Py.or_ in Hname.
  fold (Spec.rawType c) in Hrun.
  assert (Hrun' : run =
    let value := ExternalFormMapper.get_additional_field_value
                   (Spec.rawType c) (Spec.nameOrId c) (Spec.placeholder c) in
    match (if Py.truthy value then
             act (EvClear field) (clear drv field) ;;;
             ExternalFormMapper.time_sleep drv ;;;
             ExternalFormMapper.human_type drv field (Py.or_empty value) ;;;
             ExternalFormMapper.time_sleep drv ;;;
             ret true
           else ret false) st with
    | (Ok a, st') => (Ok a, st')
    | (Raise _, st') => (Ok false, st')
    end).
  { rewrite Hrun. unfold Spec.nameOrId, Spec.placeholder, Py.or_.
    destruct (Py.truthy (Spec.attr c "name")); cbn [ret]; rewrite ?Hattr;
      unfold bind at 1; rewrite Hattr; reflexivity. }
  clear Hrun. cbv zeta in Hrun'.
  destruct (ExternalFormMapper.get_additional_field_value
              (Spec.rawType c) (Spec.nameOrId c) (Spec.placeholder c)) as [value |].
  - assert (Hv : Py.truthy (Some value) = true).
    { destruct value; [ exfalso; apply Hne; reflexivity | reflexivity ]. }
    rewrite Hv in Hrun'. cbn [Py.or_empty] in Hrun'.
    unfold bind at 1, act in Hrun'.
    destruct (Hclear (world st)) as (w1 & Hc). rewrite Hc in Hrun'.
    unfold bind at 1, ExternalFormMapper.time_sleep, pause in Hrun'.
    cbn [world trace temp_files] in Hrun'.
    unfold bind at 1 in Hrun'.
    destruct (human_type_keystrokes drv field value
                (mkSt (sleep drv w1) (EvClear field :: trace st) (temp_files st)) Hsend)
      as (w2 & Ht).
    rewrite Ht in Hrun'. unfold bind, ret in Hrun'. cbn [world trace temp_files] in Hrun'.
    subst run. split; reflexivity.
  - cbn [Py.truthy ret] in Hrun'. exact Hrun'.
Qed.

Lemma should_fill_additional_field_total field :
  total (ExternalFormMapper.should_fill_additional_field drv field).
Proof. apply total_try_except. intros e. apply total_ret. Qed.

Lemma fill_each_bound (fill : WebElement -> M W bool) fields questions_filled (st : St W) :
  (forall field, total (fill field)) ->
  exists n st',
    ExternalFormMapper.fill_each drv fill fields questions_filled st = (Ok n, st') /\
    (questions_filled <= n <= questions_filled + length fields)%nat.
Proof.
  intros Hfill. revert questions_filled st.
  induction fields as [| field rest IH]; intros q st; cbn [ExternalFormMapper.fill_each].
  - exists q, st. split; [ reflexivity | simpl; lia ].
  - unfold bind at 1.
    destruct (should_fill_additional_field_total field st) as (wanted & st1 & ->).
    destruct wanted.
    + unfold bind at 1. destruct (Hfill field st1) as (filled & st2 & ->).
      destruct (IH (if filled then q + 1 else q)%nat st2) as (n & st' & -> & Hn).
      exists n, st'. split; [ reflexivity | ]. destruct filled; simpl; lia.
    + destruct (IH q st1) as (n & st' & -> & Hn).
      exists n, st'. split; [ reflexivity | simpl; lia ].
Qed.

(** X10. [fill_additional_questions] counts each control at most once:
    when the inputs, textareas and dropdowns of the page can be listed,
    the number it returns is at most the number of those elements; when
    listing the inputs raises, it returns 0. *)
Theorem fill_additional_questions_bounded :
  forall (mapped_fields : gmap string (list WebElement)) (st : St W),
    (forall inputs textareas selects w1 w2 w3,
        find_elements drv TAG_NAME "input" (world st) = (Ok inputs, w1) ->
        find_elements drv TAG_NAME "textarea" w1 = (Ok textareas, w2) ->
        find_elements drv TAG_NAME "select" w2 = (Ok selects, w3) ->
        exists n,
          fst (ExternalFormMapper.fill_additional_questions drv mapped_fields st) = Ok n /\
          (n <= length inputs + length textareas + length selects)%nat) /\
    (forall e w1,
        find_elements drv TAG_NAME "input" (world st) = (Raise e, w1) ->
        fst (ExternalFormMapper.fill_additional_questions drv mapped_fields st) = Ok 0%nat).
Proof.
  intros mapped_fields st. split.
  - intros inputs textareas selects w1 w2 w3 Hi Ht Hs.
    unfold ExternalFormMapper.fill_additional_questions, try_except.
    unfold bind at 1. rewrite (call_eq _ _ _ _ Hi).
    unfold bind at 1. rewrite (call_eq _ (mkSt w1 _ _) _ _ Ht).
    unfold bind at 1. rewrite (call_eq _ (mkSt w2 _ _) _ _ Hs).
    cbn [world trace temp_files].
    assert (Hfa : forall f, total (ExternalFormMapper.fill_additional_field drv f))
      by (intros f; apply total_try_except; intros e; apply total_ret).
    assert (Hfs : forall f, total (ExternalFormMapper.fill_select_field drv f))
      by (intros f; apply total_try_except; intros e; apply total_ret).
    unfold bind at 1.
    destruct (fill_each_bound (ExternalFormMapper.fill_additional_field drv) inputs 0
                (mkSt w3 (trace st) (temp_files st)) Hfa) as (n1 & st1 & -> & H1).
    unfold bind at 1.
    destruct (fill_each_bound (ExternalFormMapper.fill_additional_field drv) textareas n1 st1
                Hfa)
      as (n2 & st2 & -> & H2).
    destruct (fill_each_bound (ExternalFormMapper.fill_select_field drv) selects n2 st2 Hfs)
      as (n3 & st3 & -> & H3).
    exists n3. split; [ reflexivity | lia ].
  - intros e w1 Hi.
    unfold ExternalFormMapper.fill_additional_questions, try_except.
    unfold bind at 1. rewrite (call_eq _ _ _ _ Hi). reflexivity.
Qed.

End AdditionalFields.

Lemma get_additional_field_value_absent_iff_witness :
  ExternalFormMapper.get_additional_field_value (Some "checkbox") "newsletter" "Tick to join"
    = None.
Proof.
  destruct (get_additional_field_value_absent_iff
              (Some "checkbox") "newsletter" "Tick to join") as (H & _).
  apply (H eq_refl eq_refl). split; reflexivity.
Defined.

Lemma fill_additional_field_types_resolved_value_witness :
  Log.typed_into 1
    (trace (snd (ExternalFormMapper.fill_additional_field
                   (Fixture.driver Fixture.experience_page) 1 Fixture.st0))) = "5"
  /\ ExternalFormMapper.fill_additional_field
       (Fixture.driver Fixture.experience_page) 2 Fixture.st0 = (Ok false, Fixture.st0).
Proof.
  split.
  - pose proof (fill_additional_field_types_resolved_value
                  (Fixture.driver Fixture.experience_page) 1
                  {| Spec.isVisible := true; Spec.isEnabled := true;
                     Spec.attr := Fixture.experience_attrs 1 |} Fixture.st0) as H.
    cbv beta iota zeta in H. destruct H as (_ & ->).
    + repeat split; intros; reflexivity.
    + split; intros; exists w; reflexivity.
    + reflexivity.
  - exact (fill_additional_field_types_resolved_value
             (Fixture.driver Fixture.experience_page) 2
             {| Spec.isVisible := true; Spec.isEnabled := true;
                Spec.attr := Fixture.experience_attrs 2 |} Fixture.st0
             (conj (fun w => eq_refl) (conj (fun w => eq_refl) (fun a w => eq_refl)))
             (conj (fun w => ex_intro _ w eq_refl) (fun k w => ex_intro _ w eq_refl))).
Defined.

Lemma fill_additional_questions_bounded_witness :
  (exists n,
      fst (ExternalFormMapper.fill_additional_questions
             (Fixture.driver Fixture.experience_page) ∅ Fixture.st0) = Ok n /\
      (n <= 1 + 0 + 0)%nat)
  /\ fst (ExternalFormMapper.fill_additional_questions
            (Fixture.driver Fixture.unlistable_page) ∅ Fixture.st0) = Ok 0%nat.
Proof.
  split.
  - destruct (fill_additional_questions_bounded
                (Fixture.driver Fixture.experience_page) ∅ Fixture.st0) as (H & _).
    exact (H [1] [] [] tt tt tt eq_refl eq_refl eq_refl).
  - destruct (fill_additional_questions_bounded
                (Fixture.driver Fixture.unlistable_page) ∅ Fixture.st0) as (_ & H).
    exact (H WebDriverException tt eq_refl).
Defined.

(** ** Submission *)
Section Submission.
Context {W : Type} (drv : Driver W).

Lemma check_submission_success_run (st : St W) :
  exists b w',
    ExternalFormMapper.check_submission_success drv st
      = (Ok b, mkSt w' (trace st) (temp_files st)).
Proof.
  unfold ExternalFormMapper.check_submission_success, try_except, bind, call.
  destruct (page_source drv (world st)) as [[src | e] w']; cbn [world trace temp_files].
  - destruct (Py.any_in _ _); [ | destruct (Py.any_in _ _) ]; eexists _, _; reflexivity.
  - eexists _, _; reflexivity.
Qed.

(** A [True] from the submit loop comes right after a click on one of
    the candidates. *)
Lemma submit_loop_run_true (submit_fields : list WebElement) (st st' : St W) :
  ExternalFormMapper.submit_loop drv submit_fields st = (Ok true, st') ->
  exists f older, In f submit_fields /\ trace st' = EvClick f :: older.
Proof.
  revert st. induction submit_fields as [| f rest IH]; intros st Hrun;
    cbn [ExternalFormMapper.submit_loop] in Hrun; [ discriminate Hrun | ].
  assert (Hrest : forall st1,
             ExternalFormMapper.submit_loop drv rest st1 = (Ok true, st') ->
             exists f' older, In f' (f :: rest) /\ trace st' = EvClick f' :: older).
  { intros st1 H. destruct (IH st1 H) as (f' & older & Hin & Htr).
    exists f', older. split; [ right; exact Hin | exact Htr ]. }
  unfold bind at 1 in Hrun. unfold try_except, bind at 1 in Hrun.
  destruct (call (is_enabled drv f) st) as [[[] | e] st1]; try (apply (Hrest _ Hrun)).
  unfold bind at 1, act in Hrun.
  destruct (click drv f (world st1)) as [[[] | e] w2]; [ | apply (Hrest _ Hrun) ].
  unfold bind at 1, ExternalFormMapper.time_sleep, pause in Hrun.
  cbn [world trace temp_files] in Hrun.
  unfold bind at 1 in Hrun.
  destruct (check_submission_success_run
              (mkSt (sleep drv w2) (EvClick f :: trace st1) (temp_files st1)))
    as (b & w3 & Hck).
  rewrite Hck in Hrun. cbn [ret] in Hrun. injection Hrun as _ <-.
  exists f, (trace st1). split; [ left; reflexivity | reflexivity ].
Qed.

Lemma submit_loop_true_clicked (submit_fields : list WebElement) (st : St W) :
  fst (ExternalFormMapper.submit_loop drv submit_fields st) = Ok true ->
  exists f older,
    In f submit_fields /\
    trace (snd (ExternalFormMapper.submit_loop drv submit_fields st)) = EvClick f :: older.
Proof.
  destruct (ExternalFormMapper.submit_loop drv submit_fields st) as [r st'] eqn:Hrun.
  cbn [fst snd]. intros ->. exact (submit_loop_run_true _ _ _ Hrun).
Qed.

Lemma submit_form_true_clicked (submit_fields : list WebElement) (st : St W) :
  fst (ExternalFormMapper.submit_form drv submit_fields st) = Ok true ->
  exists f older,
    In f submit_fields /\
    trace (snd (ExternalFormMapper.submit_form drv submit_fields st)) = EvClick f :: older.
Proof.
  unfold ExternalFormMapper.submit_form, try_except.
  destruct submit_fields as [| f rest]; [ discriminate | ].
  pose proof (submit_loop_true_clicked (f :: rest) st) as H.
  destruct (ExternalFormMapper.submit_loop drv (f :: rest) st) as [[b | e] st'];
    [ exact H | discriminate ].
Qed.

(** X11. A candidate that reads as disabled is never clicked: when every
    submit candidate is disabled (or there is none), [submit_form]
    returns [False] and issues no action. *)
Theorem submit_form_skips_disabled :
  forall (submit_fields : list WebElement) (st : St W),
    (forall f w, In f submit_fields -> exists w', is_enabled drv f w = (Ok false, w')) ->
    fst (ExternalFormMapper.submit_form drv submit_fields st) = Ok false /\
    trace (snd (ExternalFormMapper.submit_form drv submit_fields st)) = trace st.
Proof.
  intros submit_fields st Hdis.
  assert (Hloop : forall fs st0,
             (forall f w, In f fs -> exists w', is_enabled drv f w = (Ok false, w')) ->
             exists w', ExternalFormMapper.submit_loop drv fs st0
                        = (Ok false, mkSt w' (trace st0) (temp_files st0))).
  { induction fs as [| f rest IH]; intros st0 H; cbn [ExternalFormMapper.submit_loop].
    - exists (world st0). destruct st0; reflexivity.
    - unfold bind at 1. unfold try_except, bind at 1. unfold call.
      destruct (H f (world st0) (or_introl eq_refl)) as (w1 & ->). cbn [ret].
      destruct (IH (mkSt w1 (trace st0) (temp_files st0))) as (w' & ->).
      + intros f' w Hin. apply H. right. exact Hin.
      + exists w'. reflexivity. }
  unfold ExternalFormMapper.submit_form, try_except.
  destruct submit_fields as [| f rest]; [ split; reflexivity | ].
  destruct (Hloop (f :: rest) st Hdis) as (w' & ->). split; reflexivity.
Qed.

(** X12. [fill_application_form] reports success only after the upload
    step returned [True], and then the last action on the page is a
    click on one of the mapped submit buttons. *)
Theorem fill_application_form_success_needs_upload_and_click :
  forall (mapped_fields : gmap string (list WebElement))
         (profile_data : gmap string string) (resume_file cover_letter : string)
         (st : St W),
    let run := ExternalFormMapper.fill_application_form drv mapped_fields profile_data
                 resume_file cover_letter st in
    fst run = Ok true ->
    fst (ExternalFormMapper.handle_resume_upload drv
           (Py.get_list mapped_fields "resume_upload") resume_file
           (snd (ExternalFormMapper.fill_basic_fields drv mapped_fields profile_data st)))
      = Ok true /\
    exists f older,
      In f (Py.get_list mapped_fields "submit_button") /\
      trace (snd run) = EvClick f :: older.
Proof.
  intros mapped_fields profile_data resume_file cover_letter st. cbv zeta.
  remember (ExternalFormMapper.fill_application_form drv mapped_fields profile_data
              resume_file cover_letter st) as run eqn:Hrun.
  unfold ExternalFormMapper.fill_application_form, try_except, bind in Hrun.
  destruct (ExternalFormMapper.fill_basic_fields drv mapped_fields profile_data st)
    as [[[] | e] st1]; [ | subst run; discriminate ].
  cbn [snd].
  destruct (ExternalFormMapper.handle_resume_upload drv _ resume_file st1)
    as [[up | e] st2]; [ | subst run; discriminate ].
  destruct (ExternalFormMapper.fill_additional_questions drv mapped_fields st2)
    as [[q | e] st3]; [ | subst run; discriminate ].
  destruct (ExternalFormMapper.add_cover_letter drv mapped_fields cover_letter st3)
    as [[cl | e] st4]; [ | subst run; discriminate ].
  destruct up; [ | subst run; discriminate ].
  pose proof (submit_form_true_clicked (Py.get_list mapped_fields "submit_button") st4) as H.
  destruct (ExternalFormMapper.submit_form drv (Py.get_list mapped_fields "submit_button") st4)
    as [[b | e] st5]; subst run; cbn [fst snd] in *; [ | discriminate ].
  intros Hb. split; [ reflexivity | exact (H Hb) ].
Qed.

(** X13. The search for a cover-letter field goes on only past missing
    elements: when every selector finds nothing, [add_cover_letter]
    returns [False] without any action; when the first lookup raises
    anything else, the search ends there with [False] and no further
    call to the driver. *)
Theorem add_cover_letter_search :
  forall (mapped_fields : gmap string (list WebElement)) (cover_letter : string) (st : St W),
    ((forall sel w, exists w',
          find_element drv CSS_SELECTOR sel w = (Raise NoSuchElementException, w')) ->
     fst (ExternalFormMapper.add_cover_letter drv mapped_fields cover_letter st) = Ok false /\
     trace (snd (ExternalFormMapper.add_cover_letter drv mapped_fields cover_letter st))
       = trace st) /\
    (forall e w1,
        e <> NoSuchElementException ->
        find_element drv CSS_SELECTOR (Py.css "textarea" "name" "*=" "cover") (world st)
          = (Raise e, w1) ->
        ExternalFormMapper.add_cover_letter drv mapped_fields cover_letter st
          = (Ok false, mkSt w1 (trace st) (temp_files st))).
Proof.
  intros mapped_fields cover_letter st. split.
  - intros Hnone.
    assert (Hloop : forall sels st0,
               exists w', ExternalFormMapper.cover_letter_loop drv sels cover_letter st0
                          = (Ok false, mkSt w' (trace st0) (temp_files st0))).
    { induction sels as [| sel rest IH]; intros st0;
        cbn [ExternalFormMapper.cover_letter_loop].
      - exists (world st0). destruct st0; reflexivity.
      - unfold bind at 1. unfold try_except_NoSuchElement, bind at 1. unfold call.
        destruct (Hnone sel (world st0)) as (w1 & ->). cbn [ret].
        destruct (IH (mkSt w1 (trace st0) (temp_files st0))) as (w' & ->).
        exists w'. reflexivity. }
    unfold ExternalFormMapper.add_cover_letter, try_except.
    destruct (Hloop ExternalFormMapper.cover_letter_selectors st) as (w' & ->).
    split; reflexivity.
  - intros e w1 Hne Hfind.
    unfold ExternalFormMapper.add_cover_letter, try_except,
      ExternalFormMapper.cover_letter_selectors.
    cbn [ExternalFormMapper.cover_letter_loop].
    unfold bind at 1. unfold try_except_NoSuchElement, bind at 1.
    rewrite (call_eq _ _ _ _ Hfind).
    destruct e; [ contradiction Hne; reflexivity | reflexivity .. ].
Qed.

End Submission.

Lemma submit_form_skips_disabled_witness :
  ExternalFormMapper.submit_form (Fixture.driver Fixture.disabled_buttons_page) [8; 9]
    Fixture.st0 = (Ok false, Fixture.st0).
Proof.
  pose proof (submit_form_skips_disabled (Fixture.driver Fixture.disabled_buttons_page)
                [8; 9] Fixture.st0) as H.
  destruct H as (H1 & H2).
  - intros f w _. exists w. reflexivity.
  - reflexivity.
Defined.

Lemma fill_application_form_success_needs_upload_and_click_witness :
  exists f older,
    In f (Py.get_list Fixture.mapped_with_upload "submit_button") /\
    trace (snd (ExternalFormMapper.fill_application_form
                  (Fixture.driver Fixture.experience_page) Fixture.mapped_with_upload
                  ∅ "resume.pdf" "Dear team" Fixture.st0)) = EvClick f :: older.
Proof.
  apply (fill_application_form_success_needs_upload_and_click
           (Fixture.driver Fixture.experience_page) Fixture.mapped_with_upload
           ∅ "resume.pdf" "Dear team" Fixture.st0).
  vm_compute. reflexivity.
Defined.

Lemma add_cover_letter_search_witness :
  ExternalFormMapper.add_cover_letter (Fixture.driver Fixture.stale_page) ∅ "Dear team"
    Fixture.st0 = (Ok false, Fixture.st0)
  /\ fst (ExternalFormMapper.add_cover_letter (Fixture.driver Fixture.silent_page) ∅
            "Dear team" Fixture.st0) = Ok false.
Proof.
  split.
  - destruct (add_cover_letter_search (Fixture.driver Fixture.stale_page) ∅ "Dear team"
                Fixture.st0) as (_ & H).
    apply (H WebDriverException tt); [ discriminate | reflexivity ].
  - destruct (add_cover_letter_search (Fixture.driver Fixture.silent_page) ∅ "Dear team"
                Fixture.st0) as (H & _).
    apply H. intros sel w. exists w. reflexivity.
Defined.

(** ** The Easy Apply handler: outcome check, temporary files, clean-up *)
Section EasyApplyFiles.
Context {W : Type} (drv : Driver W) (host : LinkedInApplicationHandler.Host W).

(** X14. [check_application_success] classifies a page source in ASCII,
    lower-cased, with its own phrase lists: one of its five success
    phrases gives success, else one of its four error phrases gives
    failure, else success.  "validation error" is not among them: a page
    that says only that is a success here and a failure for
    [check_submission_success] of the external mapper. *)
Theorem check_application_success_classifies :
  forall (st : St W) (page_text : string) (w' : W),
    page_source drv (world st) = (Ok page_text, w') ->
    Py.is_ascii page_text = true ->
    let outcome := fst (LinkedInApplicationHandler.check_application_success drv st) in
    let has phrases :=
      existsb (fun indicator => Py.str_in (Py.lower indicator) (Py.lower page_text))
              phrases in
    (has LinkedInApplicationHandler.success_indicators = true -> outcome = Ok true) /\
    (has LinkedInApplicationHandler.success_indicators = false ->
     has LinkedInApplicationHandler.error_indicators = true -> outcome = Ok false) /\
    (has LinkedInApplicationHandler.success_indicators = false ->
     has LinkedInApplicationHandler.error_indicators = false -> outcome = Ok true) /\
    (has LinkedInApplicationHandler.success_indicators = false ->
     has LinkedInApplicationHandler.error_indicators = false ->
     Py.any_in ExternalFormMapper.success_indicators (Py.lower page_text) = false ->
     Py.str_in "validation error" (Py.lower page_text) = true ->
     outcome = Ok true /\
     fst (ExternalFormMapper.check_submission_success drv st) = Ok false).
Proof.
  intros st page_text w' Hsrc _. cbv zeta.
  assert (Hrun : fst (LinkedInApplicationHandler.check_application_success drv st) =
    Ok (if existsb (fun i => Py.str_in (Py.lower i) (Py.lower page_text))
                   LinkedInApplicationHandler.success_indicators then true
        else if existsb (fun i => Py.str_in (Py.lower i) (Py.lower page_text))
                        LinkedInApplicationHandler.error_indicators then false
        else true)).
  { unfold LinkedInApplicationHandler.check_application_success, try_except, bind.
    rewrite (call_eq _ _ _ _ Hsrc).
    destruct (existsb _ LinkedInApplicationHandler.success_indicators);
      [ | destruct (existsb _ LinkedInApplicationHandler.error_indicators) ]; reflexivity. }
  rewrite Hrun.
  repeat apply conj.
  - intros ->. reflexivity.
  - intros -> ->. reflexivity.
  - intros -> ->. reflexivity.
  - intros -> -> Hs Hv. split; [ reflexivity | ].
    unfold ExternalFormMapper.check_submission_success, try_except, bind.
    rewrite (call_eq _ _ _ _ Hsrc), Hs.
    assert (He : Py.any_in ExternalFormMapper.error_indicators (Py.lower page_text) = true).
    { unfold Py.any_in. apply existsb_exists. exists "validation error".
      split; [ cbn; tauto | exact Hv ]. }
    rewrite He. reflexivity.
Qed.

Lemma create_temp_resume_file_run (st : St W) :
  (exists w', LinkedInApplicationHandler.create_temp_resume_file drv st
              = (Ok None, mkSt w' (trace st) (temp_files st))) \/
  (exists temp_dir w1 w',
      mkdtemp drv (world st) = (Ok temp_dir, w1) /\
      LinkedInApplicationHandler.create_temp_resume_file drv st
      = (Ok (Some (LinkedInApplicationHandler.path_join temp_dir "resume.pdf")),
         mkSt w' (trace st)
              (temp_files st ++ [LinkedInApplicationHandler.path_join temp_dir "resume.pdf"]))).
Proof.
  unfold LinkedInApplicationHandler.create_temp_resume_file, try_except, bind, call,
    LinkedInApplicationHandler.temp_files_append, ret.
  destruct (mkdtemp drv (world st)) as [[temp_dir | e] w1]; cbn [world trace temp_files];
    [ | left; eexists; reflexivity ].
  destruct (write_file drv _ _ w1) as [[[] | e] w2]; cbn [world trace temp_files];
    [ | left; eexists; reflexivity ].
  right. exists temp_dir, w1, w2. split; reflexivity.
Qed.

(** X15. [create_temp_resume_file] registers a path in [temp_files]
    exactly when it returns one: a returned path is [resume.pdf] joined
    to the directory [mkdtemp] gave and is appended to [temp_files]; when
    it returns [None] (the directory or the file could not be made),
    [temp_files] is as before.  It never raises and acts on no control. *)
Theorem create_temp_resume_file_registers :
  forall st : St W,
    let run := LinkedInApplicationHandler.create_temp_resume_file drv st in
    trace (snd run) = trace st /\
    match fst run with
    | Ok (Some resume_file) =>
        exists temp_dir w1,
          mkdtemp drv (world st) = (Ok temp_dir, w1) /\
          resume_file = LinkedInApplicationHandler.path_join temp_dir "resume.pdf" /\
          temp_files (snd run) = temp_files st ++ [resume_file]
    | Ok None => temp_files (snd run) = temp_files st
    | Raise _ => False
    end.
Proof.
  intros st. cbv zeta.
  destruct (create_temp_resume_file_run st) as [(w' & ->) | (d & w1 & w' & Hd & ->)];
    cbn [fst snd trace temp_files].
  - split; reflexivity.
  - split; [ reflexivity | ]. exists d, w1. repeat split. exact Hd.
Qed.

Lemma find_file_input_run sels (st : St W) :
  exists r w',
    LinkedInApplicationHandler.find_file_input drv sels st
      = (r, mkSt w' (trace st) (temp_files st)).
Proof.
  revert st. induction sels as [| sel rest IH]; intros st;
    cbn [LinkedInApplicationHandler.find_file_input].
  - exists (Ok None), (world st). destruct st; reflexivity.
  - unfold bind at 1. unfold try_except_NoSuchElement, bind at 1. unfold call.
    destruct (find_element drv CSS_SELECTOR sel (world st)) as [[el | []] w1]; cbn [ret];
      try (eexists _, _; reflexivity).
    apply (IH (mkSt w1 (trace st) (temp_files st))).
Qed.

(** X16. A successful Easy Apply upload leaves exactly one new path in
    [temp_files], and that path is what was sent to the file input, as
    the last action.  When no selector finds a file input, the upload
    fails before any file is made: [temp_files] and the log stay as they
    were. *)
Theorem easy_apply_upload_sends_registered_file :
  forall st : St W,
    let run := LinkedInApplicationHandler.handle_resume_upload drv st in
    (fst run = Ok true ->
     exists file_input resume_file,
       temp_files (snd run) = temp_files st ++ [resume_file] /\
       trace (snd run) = EvSendKeys file_input resume_file :: trace st) /\
    ((forall sel w, exists w',
         find_element drv CSS_SELECTOR sel w = (Raise NoSuchElementException, w')) ->
     fst run = Ok false /\
     temp_files (snd run) = temp_files st /\
     trace (snd run) = trace st).
Proof.
  intros st. cbv zeta.
  remember (LinkedInApplicationHandler.handle_resume_upload drv st) as run eqn:Hrun.
  unfold LinkedInApplicationHandler.handle_resume_upload, try_except in Hrun.
  unfold bind at 1 in Hrun.
  split.
  - destruct (find_file_input_run LinkedInApplicationHandler.file_input_selectors st)
      as (r & w1 & Hfind).
    rewrite Hfind in Hrun.
    destruct r as [[file_input |] | e]; [ | subst run; discriminate .. ].
    unfold bind at 1 in Hrun.
    destruct (create_temp_resume_file_run (mkSt w1 (trace st) (temp_files st)))
      as [(w2 & Hc) | (d & w2 & w3 & _ & Hc)]; rewrite Hc in Hrun;
      [ subst run; discriminate | ].
    cbn [world trace temp_files] in Hrun.
    set (p := LinkedInApplicationHandler.path_join d "resume.pdf") in *.
    destruct (Py.truthy (Some p)); cbn [negb] in Hrun; [ | subst run; discriminate ].
    cbn [Py.or_empty] in Hrun.
    unfold bind, act, LinkedInApplicationHandler.time_sleep, pause, ret in Hrun.
    cbn [world trace temp_files] in Hrun.
    destruct (send_keys drv file_input p w3) as [[[] | e] w4]; subst run;
      [ | discriminate ].
    intros _. exists file_input, p. split; reflexivity.
  - intros Hnone.
    assert (Hloop : forall sels st0,
               exists w', LinkedInApplicationHandler.find_file_input drv sels st0
                          = (Ok None, mkSt w' (trace st0) (temp_files st0))).
    { induction sels as [| sel rest IH]; intros st0;
        cbn [LinkedInApplicationHandler.find_file_input].
      - exists (world st0). destruct st0; reflexivity.
      - unfold bind at 1. unfold try_except_NoSuchElement, bind at 1. unfold call.
        destruct (Hnone sel (world st0)) as (w1 & ->). cbn [ret].
        apply (IH (mkSt w1 (trace st0) (temp_files st0))). }
    destruct (Hloop LinkedInApplicationHandler.file_input_selectors st) as (w' & Hfind).
    rewrite Hfind in Hrun. subst run. repeat split.
Qed.

Lemma remove_each_run paths (st : St W) :
  exists w',
    LinkedInApplicationHandler.remove_each host paths st
      = (Ok tt, mkSt w' (trace st) (temp_files st)).
Proof.
  revert st. induction paths as [| file_path rest IH]; intros st;
    cbn [LinkedInApplicationHandler.remove_each].
  - exists (world st). destruct st; reflexivity.
  - unfold bind at 1. unfold try_except, bind at 1. unfold call.
    destruct (LinkedInApplicationHandler.path_exists host file_path (world st))
      as [[[] | e] w1]; cbn [ret world trace temp_files].
    + destruct (LinkedInApplicationHandler.os_remove host file_path w1) as [[[] | e] w2];
        apply (IH (mkSt w2 (trace st) (temp_files st))).
    + apply (IH (mkSt w1 (trace st) (temp_files st))).
    + apply (IH (mkSt w1 (trace st) (temp_files st))).
Qed.

Lemma cleanup_temp_files_run (st : St W) :
  exists w',
    LinkedInApplicationHandler.cleanup_temp_files host st = (Ok tt, mkSt w' (trace st) []).
Proof.
  unfold LinkedInApplicationHandler.cleanup_temp_files, try_except.
  unfold bind at 1, LinkedInApplicationHandler.temp_files_read.
  unfold bind at 1.
  destruct (remove_each_run (temp_files st) st) as (w' & ->).
  exists w'. reflexivity.
Qed.

(** X17. [cleanup_temp_files] always ends with [temp_files] empty and
    raises nothing, also when a file cannot be removed: the failure of
    one removal is caught for that file and the list is cleared after
    the loop. *)
Theorem cleanup_temp_files_empties :
  forall st : St W,
    fst (LinkedInApplicationHandler.cleanup_temp_files host st) = Ok tt /\
    temp_files (snd (LinkedInApplicationHandler.cleanup_temp_files host st)) = [] /\
    trace (snd (LinkedInApplicationHandler.cleanup_temp_files host st)) = trace st.
Proof.
  intros st. destruct (cleanup_temp_files_run st) as (w' & ->). repeat split.
Qed.

Lemma handle_external_site_application_false resume_content cover_letter (st : St W) :
  fst (LinkedInApplicationHandler.handle_external_site_application drv host
         resume_content cover_letter st) = Ok false.
Proof.
  unfold LinkedInApplicationHandler.handle_external_site_application, try_except, bind,
    LinkedInApplicationHandler.time_sleep, pause, call, ret.
  cbn [world trace temp_files].
  destruct (current_url drv _) as [[u | e] w1]; cbn [world trace temp_files];
    [ | reflexivity ].
  destruct (LinkedInApplicationHandler.clock host w1) as [[now | e] w2];
    cbn [world trace temp_files]; [ | reflexivity ].
  destruct (LinkedInApplicationHandler.save_screenshot host _ w2) as [[b | e] w3];
    reflexivity.
Qed.

Lemma external_link_loop_not_true sels resume_content cover_letter (st : St W) :
  fst (LinkedInApplicationHandler.external_link_loop drv host sels
         resume_content cover_letter st) <> Ok true.
Proof.
  revert st. induction sels as [| sel rest IH]; intros st;
    cbn [LinkedInApplicationHandler.external_link_loop]; [ discriminate | ].
  unfold bind at 1. unfold try_except_NoSuchElement, bind at 1.
  destruct (call (find_element drv CSS_SELECTOR sel) st) as [[link | []] st1];
    try discriminate; try apply IH.
  unfold bind at 1.
  destruct (call (is_displayed drv link) st1) as [[[] | []] st2];
    try discriminate; try apply IH.
  unfold bind at 1.
  destruct (act (EvClick link) (click drv link) st2) as [[[] | []] st3];
    try discriminate; try apply IH.
  unfold bind at 1, LinkedInApplicationHandler.time_sleep, pause.
  unfold bind at 1.
  pose proof (handle_external_site_application_false resume_content cover_letter
                (mkSt (sleep drv (world st3)) (trace st3) (temp_files st3))) as Hsite.
  destruct (LinkedInApplicationHandler.handle_external_site_application drv host
              resume_content cover_letter _) as [[b | e] st4]; cbn [fst] in Hsite.
  - injection Hsite as ->. discriminate.
  - discriminate Hsite.
Qed.

(** X18. Applications on external sites are never reported as done:
    [handle_external_site_application] and [handle_external_application]
    return [False] from every state, whatever the page shows and
    whichever link was clicked on the way. *)
Theorem external_application_never_succeeds :
  forall (resume_content cover_letter : string) (st : St W),
    fst (LinkedInApplicationHandler.handle_external_site_application drv host
           resume_content cover_letter st) = Ok false /\
    fst (LinkedInApplicationHandler.handle_external_application drv host
           resume_content cover_letter st) = Ok false.
Proof.
  intros resume_content cover_letter st.
  split; [ apply handle_external_site_application_false | ].
  unfold LinkedInApplicationHandler.handle_external_application, try_except.
  unfold bind at 1.
  destruct (call (current_url drv) st) as [[address | e] st1]; [ | reflexivity ].
  destruct (negb (Py.str_in "linkedin.com" address)).
  - pose proof (handle_external_site_application_false resume_content cover_letter st1)
      as Hsite.
    destruct (LinkedInApplicationHandler.handle_external_site_application drv host
                resume_content cover_letter st1) as [[b | e] st2]; cbn [fst] in Hsite |- *;
      [ exact Hsite | discriminate Hsite ].
  - pose proof (external_link_loop_not_true
                  LinkedInApplicationHandler.external_link_selectors
                  resume_content cover_letter st1) as Hloop.
    destruct (LinkedInApplicationHandler.external_link_loop drv host _ _ _ st1)
      as [[[] | e] st2]; cbn [fst] in Hloop |- *;
      [ contradiction Hloop; reflexivity | reflexivity | reflexivity ].
Qed.

End EasyApplyFiles.

Lemma check_application_success_classifies_witness :
  fst (LinkedInApplicationHandler.check_application_success
         (Fixture.driver (Fixture.page_saying (Ok "<p>Validation error</p>")))
         Fixture.st0) = Ok true
  /\ fst (ExternalFormMapper.check_submission_success
            (Fixture.driver (Fixture.page_saying (Ok "<p>Validation error</p>")))
            Fixture.st0) = Ok false.
Proof.
  pose proof (check_application_success_classifies
                (Fixture.driver (Fixture.page_saying (Ok "<p>Validation error</p>")))
                Fixture.st0 "<p>Validation error</p>" tt eq_refl eq_refl) as H.
  cbv zeta in H. destruct H as (_ & _ & _ & H).
  apply H; reflexivity.
Defined.

Lemma easy_apply_upload_sends_registered_file_witness :
  exists file_input resume_file,
    temp_files (snd (LinkedInApplicationHandler.handle_resume_upload
                       (Fixture.driver Fixture.easy_apply_page) Fixture.st0))
      = [] ++ [resume_file]
    /\ trace (snd (LinkedInApplicationHandler.handle_resume_upload
                     (Fixture.driver Fixture.easy_apply_page) Fixture.st0))
       = [ EvSendKeys file_input resume_file ].
Proof.
  destruct (easy_apply_upload_sends_registered_file
              (Fixture.driver Fixture.easy_apply_page) Fixture.st0) as (H & _).
  apply H. vm_compute. reflexivity.
Defined.

(** ** The Easy Apply handler: apply button, submission, the whole flow *)
Section EasyApplyFlow.
Context {W : Type} (drv : Driver W) (host : LinkedInApplicationHandler.Host W).

Lemma apply_selector_loop_run sels (st st' : St W) b :
  LinkedInApplicationHandler.apply_selector_loop drv host sels st = (Ok (Some b), st') ->
  b = true /\ exists button older, trace st' = EvClick button :: older.
Proof.
  revert st. induction sels as [| sel rest IH]; intros st Hrun;
    cbn [LinkedInApplicationHandler.apply_selector_loop] in Hrun; [ discriminate Hrun | ].
  unfold bind at 1 in Hrun.
  unfold LinkedInApplicationHandler.try_except_Timeout_NoSuchElement, bind at 1 in Hrun.
  destruct (call (LinkedInApplicationHandler.wait_clickable host sel) st)
    as [[button | []] st1]; try discriminate Hrun; try (apply (IH _ Hrun)).
  unfold bind at 1, act in Hrun.
  destruct (click drv button (world st1)) as [[[] | []] w2];
    try discriminate Hrun; try (apply (IH _ Hrun)).
  unfold bind, LinkedInApplicationHandler.time_sleep, pause, ret in Hrun.
  cbn [world trace temp_files] in Hrun. injection Hrun as <- <-.
  split; [ reflexivity | ]. exists button, (trace st1). reflexivity.
Qed.

Lemma apply_text_loop_run buttons (st st' : St W) b :
  LinkedInApplicationHandler.apply_text_loop drv buttons st = (Ok (Some b), st') ->
  b = true /\ exists button older, trace st' = EvClick button :: older.
Proof.
  revert st. induction buttons as [| button rest IH]; intros st Hrun;
    cbn [LinkedInApplicationHandler.apply_text_loop] in Hrun; [ discriminate Hrun | ].
  unfold bind at 1 in Hrun.
  destruct (call (text drv button) st) as [[button_text | e] st1];
    [ | discriminate Hrun ].
  destruct (Py.str_in "apply" (Py.lower button_text)); [ | apply (IH _ Hrun) ].
  unfold bind at 1, act in Hrun.
  destruct (click drv button (world st1)) as [[[] | e] w2]; [ | discriminate Hrun ].
  unfold bind, LinkedInApplicationHandler.time_sleep, pause, ret in Hrun.
  cbn [world trace temp_files] in Hrun. injection Hrun as <- <-.
  split; [ reflexivity | ]. exists button, (trace st1). reflexivity.
Qed.

Lemma find_and_click_apply_button_run (st st' : St W) :
  LinkedInApplicationHandler.find_and_click_apply_button drv host st = (Ok true, st') ->
  exists button older, trace st' = EvClick button :: older.
Proof.
  intros Hrun.
  unfold LinkedInApplicationHandler.find_and_click_apply_button, try_except in Hrun.
  unfold bind at 1, LinkedInApplicationHandler.time_sleep, pause in Hrun.
  unfold bind at 1 in Hrun.
  destruct (LinkedInApplicationHandler.apply_selector_loop drv host
              LinkedInApplicationHandler.apply_selectors _) as [[[b |] | e] st1] eqn:Hsel;
    [ | | discriminate Hrun ].
  - cbn [ret] in Hrun. injection Hrun as -> <-.
    apply (apply_selector_loop_run _ _ _ _ Hsel).
  - unfold bind at 1 in Hrun. unfold try_except, bind at 1 in Hrun.
    destruct (call (find_elements drv TAG_NAME "button") st1) as [[buttons | e] st2];
      [ | discriminate Hrun ].
    destruct (LinkedInApplicationHandler.apply_text_loop drv buttons st2)
      as [[[b |] | e] st3] eqn:Htxt; cbn [ret] in Hrun; try discriminate Hrun.
    injection Hrun as -> <-.
    apply (apply_text_loop_run _ _ _ _ Htxt).
Qed.

(** X19. [find_and_click_apply_button] returns [True] only right after a
    click: the last action in the log is then a click.  When the first
    selector already yields a clickable button and the click goes
    through, that one click is all it does. *)
Theorem find_and_click_apply_button_clicks :
  forall st : St W,
    let run := LinkedInApplicationHandler.find_and_click_apply_button drv host st in
    (fst run = Ok true -> exists button older, trace (snd run) = EvClick button :: older) /\
    (forall button w1 w2,
        LinkedInApplicationHandler.wait_clickable host
          "button[data-control-name='jobdetails_topcard_inapply']" (sleep drv (world st))
          = (Ok button, w1) ->
        click drv button w1 = (Ok tt, w2) ->
        run = (Ok true, mkSt (sleep drv w2) (EvClick button :: trace st) (temp_files st))).
Proof.
  intros st. cbv zeta. split.
  - destruct (LinkedInApplicationHandler.find_and_click_apply_button drv host st)
      as [r st'] eqn:Hrun.
    cbn [fst snd]. intros ->. exact (find_and_click_apply_button_run _ _ Hrun).
  - intros button w1 w2 Hwait Hclick.
    unfold LinkedInApplicationHandler.find_and_click_apply_button, try_except,
      LinkedInApplicationHandler.apply_selectors.
    cbn [LinkedInApplicationHandler.apply_selector_loop].
    unfold bind, LinkedInApplicationHandler.try_except_Timeout_NoSuchElement,
      LinkedInApplicationHandler.time_sleep, pause, call, act, ret.
    cbn [world trace temp_files]. rewrite Hwait. cbn [world trace temp_files].
    rewrite Hclick. reflexivity.
Qed.

Lemma check_application_success_run (st : St W) :
  exists b w',
    LinkedInApplicationHandler.check_application_success drv st
      = (Ok b, mkSt w' (trace st) (temp_files st)).
Proof.
  unfold LinkedInApplicationHandler.check_application_success, try_except, bind, call.
  destruct (page_source drv (world st)) as [[src | e] w']; cbn [world trace temp_files].
  - destruct (existsb _ _); [ | destruct (existsb _ _) ]; eexists _, _; reflexivity.
  - eexists _, _; reflexivity.
Qed.

Lemma easy_submit_loop_run sels (st st' : St W) :
  LinkedInApplicationHandler.submit_loop drv sels st = (Ok true, st') ->
  exists button older, trace st' = EvClick button :: older.
Proof.
  revert st. induction sels as [| sel rest IH]; intros st Hrun;
    cbn [LinkedInApplicationHandler.submit_loop] in Hrun; [ discriminate Hrun | ].
  unfold bind at 1 in Hrun. unfold try_except_NoSuchElement, bind at 1 in Hrun.
  destruct (call (find_element drv CSS_SELECTOR sel) st) as [[button | []] st1];
    try discriminate Hrun; try (apply (IH _ Hrun)).
  unfold bind at 1 in Hrun.
  destruct (call (is_enabled drv button) st1) as [[[] | []] st2];
    try discriminate Hrun; try (apply (IH _ Hrun)).
  unfold bind at 1, act in Hrun.
  destruct (click drv button (world st2)) as [[[] | []] w3];
    try discriminate Hrun; try (apply (IH _ Hrun)).
  unfold bind at 1, LinkedInApplicationHandler.time_sleep, pause in Hrun.
  cbn [world trace temp_files] in Hrun.
  unfold bind at 1 in Hrun.
  destruct (check_application_success_run
              (mkSt (sleep drv w3) (EvClick button :: trace st2) (temp_files st2)))
    as (b & w4 & Hck).
  rewrite Hck in Hrun. cbn [ret] in Hrun. injection Hrun as _ <-.
  exists button, (trace st2). reflexivity.
Qed.

(** X20. [handle_linkedin_easy_apply] reports success only when the
    dialog showed, the upload step returned [True], and the last action
    on the page is a click (the submit button). *)
Theorem easy_apply_success_needs_upload_and_click :
  forall (resume_content cover_letter : string) (st : St W),
    let run := LinkedInApplicationHandler.handle_linkedin_easy_apply drv
                 resume_content cover_letter st in
    fst run = Ok true ->
    exists dialog st1,
      call (wait_presence drv ".jobs-easy-apply-content") st = (Ok dialog, st1) /\
      fst (LinkedInApplicationHandler.handle_resume_upload drv st1) = Ok true /\
      exists button older, trace (snd run) = EvClick button :: older.
Proof.
  intros resume_content cover_letter st. cbv zeta.
  remember (LinkedInApplicationHandler.handle_linkedin_easy_apply drv
              resume_content cover_letter st) as run eqn:Hrun.
  unfold LinkedInApplicationHandler.handle_linkedin_easy_apply, try_except, bind in Hrun.
  destruct (call (wait_presence drv ".jobs-easy-apply-content") st)
    as [[dialog | e] st1]; [ | subst run; discriminate ].
  destruct (LinkedInApplicationHandler.handle_resume_upload drv st1)
    as [[up | e] st2] eqn:Hup; [ | subst run; discriminate ].
  destruct (LinkedInApplicationHandler.fill_easy_apply_questions drv st2)
    as [[q | e] st3]; [ | subst run; discriminate ].
  destruct (LinkedInApplicationHandler.add_cover_letter_to_easy_apply drv cover_letter st3)
    as [[cl | e] st4]; [ | subst run; discriminate ].
  destruct up; [ | subst run; discriminate ].
  unfold LinkedInApplicationHandler.submit_easy_apply, try_except in Hrun.
  destruct (LinkedInApplicationHandler.submit_loop drv
              LinkedInApplicationHandler.submit_selectors st4)
    as [[b | e] st5] eqn:Hloop; subst run; cbn [fst snd]; [ | discriminate ].
  intros Hb. injection Hb as ->.
  exists dialog, st1. split; [ reflexivity | split; [ rewrite Hup; reflexivity | ] ].
  exact (easy_submit_loop_run _ _ _ Hloop).
Qed.

Lemma is_linkedin_easy_apply_total : total (LinkedInApplicationHandler.is_linkedin_easy_apply drv).
Proof. apply total_try_except. intros e. apply total_ret. Qed.

Lemma handle_linkedin_easy_apply_total resume_content cover_letter :
  total (LinkedInApplicationHandler.handle_linkedin_easy_apply drv resume_content cover_letter).
Proof. apply total_try_except. intros e. apply total_ret. Qed.

(** X21. [handle_application_form] reports success only through Easy
    Apply: the job record has its title and company, the apply button
    was clicked, the Easy Apply dialog was recognised, and
    [handle_linkedin_easy_apply] returned [True]; the external path
    never turns a failure into a success. *)
Theorem handle_application_form_success_is_easy_apply :
  forall (job_info : gmap string string) (resume_content cover_letter : string) (st : St W),
    fst (LinkedInApplicationHandler.handle_application_form drv host job_info
           resume_content cover_letter st) = Ok true ->
    is_Some (job_info !! "title") /\ is_Some (job_info !! "company") /\
    exists st1 st2,
      LinkedInApplicationHandler.find_and_click_apply_button drv host st = (Ok true, st1) /\
      LinkedInApplicationHandler.is_linkedin_easy_apply drv st1 = (Ok true, st2) /\
      fst (LinkedInApplicationHandler.handle_linkedin_easy_apply drv
             resume_content cover_letter st2) = Ok true.
Proof.
  intros job_info resume_content cover_letter st.
  unfold LinkedInApplicationHandler.handle_application_form, try_except.
  assert (Hfail : forall st0,
             fst ((LinkedInApplicationHandler.cleanup_temp_files host ;;; ret false) st0)
             <> Ok true).
  { intros st0. unfold bind.
    destruct (cleanup_temp_files_run host st0) as (w' & ->). discriminate. }
  unfold bind at 1, LinkedInApplicationHandler.getitem.
  destruct (job_info !! "title") as [title |]; [ | intros H; destruct (Hfail _ H) ].
  unfold bind at 1.
  destruct (job_info !! "company") as [company |];
    [ | intros H; destruct (Hfail _ H) ].
  cbn [ret]. unfold bind at 1.
  destruct (LinkedInApplicationHandler.find_and_click_apply_button drv host st)
    as [[[] | e] st1]; [ | discriminate | intros H; destruct (Hfail _ H) ].
  cbn [negb]. unfold bind at 1.
  destruct (is_linkedin_easy_apply_total st1) as (easy & st2 & Heasy). rewrite Heasy.
  unfold bind at 1.
  destruct easy.
  - destruct (handle_linkedin_easy_apply_total resume_content cover_letter st2)
      as (ok & st3 & Hea). rewrite Hea.
    destruct ok.
    + intros _. split; [ eauto | split; [ eauto | ] ].
      exists st1, st2. rewrite Hea, Heasy. repeat split.
    + cbn [negb]. unfold bind at 1.
      pose proof (external_application_never_succeeds drv host resume_content
                    cover_letter st3) as (_ & Hext).
      destruct (LinkedInApplicationHandler.handle_external_application drv host
                  resume_content cover_letter st3) as [[b | e] st4]; cbn [fst] in Hext;
        [ injection Hext as -> | discriminate Hext ].
      unfold bind. destruct (cleanup_temp_files_run host st4) as (w' & ->). discriminate.
  - cbn [ret negb]. unfold bind at 1.
    pose proof (external_application_never_succeeds drv host resume_content
                  cover_letter st2) as (_ & Hext).
    destruct (LinkedInApplicationHandler.handle_external_application drv host
                resume_content cover_letter st2) as [[b | e] st4]; cbn [fst] in Hext;
      [ injection Hext as -> | discriminate Hext ].
    unfold bind. destruct (cleanup_temp_files_run host st4) as (w' & ->). discriminate.
Qed.

End EasyApplyFlow.

Section ApplicationForm.
Context {W : Type} (drv : Driver W) (host : LinkedInApplicationHandler.Host W).

(** X22. What [handle_application_form] does with the temporary files.
    A job record without title or company ends in the handler: [False],
    no action on the page, [temp_files] emptied.  When no apply button
    is found it returns [False] at once, without the clean-up.  Once the
    apply button was clicked it always returns a value and leaves
    [temp_files] empty. *)
Theorem handle_application_form_cleans_up :
  forall (job_info : gmap string string) (resume_content cover_letter : string) (st : St W),
    let run := LinkedInApplicationHandler.handle_application_form drv host job_info
                 resume_content cover_letter st in
    (job_info !! "title" = None \/ job_info !! "company" = None ->
     exists w', run = (Ok false, mkSt w' (trace st) [])) /\
    (is_Some (job_info !! "title") -> is_Some (job_info !! "company") ->
     forall st1,
       LinkedInApplicationHandler.find_and_click_apply_button drv host st = (Ok false, st1) ->
       run = (Ok false, st1)) /\
    (is_Some (job_info !! "title") -> is_Some (job_info !! "company") ->
     forall st1,
       LinkedInApplicationHandler.find_and_click_apply_button drv host st = (Ok true, st1) ->
       (exists b, fst run = Ok b) /\ temp_files (snd run) = []).
Proof.
  intros job_info resume_content cover_letter st. cbv zeta.
  remember (LinkedInApplicationHandler.handle_application_form drv host job_info
              resume_content cover_letter st) as run eqn:Hrun.
  unfold LinkedInApplicationHandler.handle_application_form, try_except in Hrun.
  unfold bind at 1, LinkedInApplicationHandler.getitem in Hrun.
  repeat apply conj.
  - intros Hmissing.
    destruct (job_info !! "title") as [title |].
    + destruct Hmissing as [Hm | Hm]; [ discriminate Hm | ].
      unfold bind at 1 in Hrun. rewrite Hm in Hrun.
      cbn [ret raise] in Hrun. unfold raise, bind in Hrun.
      destruct (cleanup_temp_files_run host st) as (w' & Hc). rewrite Hc in Hrun.
      exists w'. exact Hrun.
    + unfold raise, bind in Hrun.
      destruct (cleanup_temp_files_run host st) as (w' & Hc). rewrite Hc in Hrun.
      exists w'. exact Hrun.
  - intros [title Ht] [company Hc] st1 Hclick.
    rewrite Ht in Hrun. unfold bind at 1 in Hrun. rewrite Hc in Hrun.
    cbn [ret] in Hrun. unfold bind at 1 in Hrun. rewrite Hclick in Hrun.
    exact Hrun.
  - intros [title Ht] [company Hc] st1 Hclick.
    rewrite Ht in Hrun. unfold bind at 1 in Hrun. rewrite Hc in Hrun.
    cbn [ret] in Hrun. unfold bind at 1 in Hrun. rewrite Hclick in Hrun.
    cbn [negb] in Hrun. unfold bind at 1 in Hrun.
    destruct (is_linkedin_easy_apply_total drv st1) as (easy & st2 & Heasy).
    rewrite Heasy in Hrun. unfold bind at 1 in Hrun.
    assert (Hfirst : exists ok st3,
               (if easy
                then LinkedInApplicationHandler.handle_linkedin_easy_apply drv
                       resume_content cover_letter
                else ret false) st2 = (Ok ok, st3)).
    { destruct easy; [ apply handle_linkedin_easy_apply_total | eexists _, _; reflexivity ]. }
    destruct Hfirst as (ok & st3 & Hfirst). rewrite Hfirst in Hrun.
    unfold bind at 1 in Hrun.
    assert (Hsecond : exists ok' st4,
               (if negb ok
                then LinkedInApplicationHandler.handle_external_application drv host
                       resume_content cover_letter
                else ret ok) st3 = (Ok ok', st4)).
    { destruct ok; cbn [negb]; [ eexists _, _; reflexivity | ].
      apply total_try_except. intros e. apply total_ret. }
    destruct Hsecond as (ok' & st4 & Hsecond). rewrite Hsecond in Hrun.
    unfold bind in Hrun.
    destruct (cleanup_temp_files_run host st4) as (w' & Hcl). rewrite Hcl in Hrun.
    subst run. split; [ exists ok' | ]; reflexivity.
Qed.

End ApplicationForm.

Lemma find_and_click_apply_button_clicks_witness :
  LinkedInApplicationHandler.find_and_click_apply_button
    (Fixture.driver Fixture.top_card_page)
    (Fixture.host Fixture.top_card_page Fixture.removal_ok) Fixture.st0
  = (Ok true, mkSt tt [ EvClick 5 ] [])
  /\ exists button older,
       trace (snd (LinkedInApplicationHandler.find_and_click_apply_button
                     (Fixture.driver Fixture.easy_apply_page)
                     (Fixture.host Fixture.easy_apply_page Fixture.removal_ok)
                     Fixture.st0)) = EvClick button :: older.
Proof.
  split.
  - destruct (find_and_click_apply_button_clicks
                (Fixture.driver Fixture.top_card_page)
                (Fixture.host Fixture.top_card_page Fixture.removal_ok) Fixture.st0)
      as (_ & H).
    apply (H 5 tt tt); reflexivity.
  - destruct (find_and_click_apply_button_clicks
                (Fixture.driver Fixture.easy_apply_page)
                (Fixture.host Fixture.easy_apply_page Fixture.removal_ok) Fixture.st0)
      as (H & _).
    apply H. vm_compute. reflexivity.
Defined.

Lemma easy_apply_success_needs_upload_and_click_witness :
  exists dialog st1,
    call (wait_presence (Fixture.driver Fixture.easy_apply_page) ".jobs-easy-apply-content")
         Fixture.st0 = (Ok dialog, st1)
    /\ fst (LinkedInApplicationHandler.handle_resume_upload
              (Fixture.driver Fixture.easy_apply_page) st1) = Ok true
    /\ exists button older,
         trace (snd (LinkedInApplicationHandler.handle_linkedin_easy_apply
                       (Fixture.driver Fixture.easy_apply_page) "resume" "Dear team"
                       Fixture.st0)) = EvClick button :: older.
Proof.
  apply (easy_apply_success_needs_upload_and_click
           (Fixture.driver Fixture.easy_apply_page) "resume" "Dear team" Fixture.st0).
  vm_compute. reflexivity.
Defined.

Lemma handle_application_form_success_is_easy_apply_witness :
  is_Some (Fixture.job !! "title") /\ is_Some (Fixture.job !! "company") /\
  exists st1 st2,
    LinkedInApplicationHandler.find_and_click_apply_button
      (Fixture.driver Fixture.easy_apply_page)
      (Fixture.host Fixture.easy_apply_page Fixture.removal_ok) Fixture.st0 = (Ok true, st1)
    /\ LinkedInApplicationHandler.is_linkedin_easy_apply
         (Fixture.driver Fixture.easy_apply_page) st1 = (Ok true, st2)
    /\ fst (LinkedInApplicationHandler.handle_linkedin_easy_apply
              (Fixture.driver Fixture.easy_apply_page) "resume" "Dear team" st2) = Ok true.
Proof.
  apply (handle_application_form_success_is_easy_apply
           (Fixture.driver Fixture.easy_apply_page)
           (Fixture.host Fixture.easy_apply_page Fixture.removal_ok)
           Fixture.job "resume" "Dear team" Fixture.st0).
  vm_compute. reflexivity.
Defined.

Lemma handle_application_form_cleans_up_witness :
  (exists w',
      LinkedInApplicationHandler.handle_application_form
        (Fixture.driver Fixture.easy_apply_page)
        (Fixture.host Fixture.easy_apply_page Fixture.removal_denied)
        Fixture.job_without_company "resume" "Dear team"
        (Fixture.st_with_files [ "/tmp/old/resume.pdf" ])
      = (Ok false, mkSt w' [] []))
  /\ temp_files (snd (LinkedInApplicationHandler.handle_application_form
                        (Fixture.driver Fixture.easy_apply_page)
                        (Fixture.host Fixture.easy_apply_page Fixture.removal_denied)
                        Fixture.job "resume" "Dear team" Fixture.st0)) = [].
Proof.
  split.
  - destruct (handle_application_form_cleans_up
                (Fixture.driver Fixture.easy_apply_page)
                (Fixture.host Fixture.easy_apply_page Fixture.removal_denied)
                Fixture.job_without_company "resume" "Dear team"
                (Fixture.st_with_files [ "/tmp/old/resume.pdf" ])) as (H & _).
    apply H. right. vm_compute. reflexivity.
  - destruct (handle_application_form_cleans_up
                (Fixture.driver Fixture.easy_apply_page)
                (Fixture.host Fixture.easy_apply_page Fixture.removal_denied)
                Fixture.job "resume" "Dear team" Fixture.st0) as (_ & _ & H).
    apply (H ltac:(vm_compute; eauto) ltac:(vm_compute; eauto)
             (mkSt tt [ EvClick 5 ] [])).
    vm_compute. reflexivity.
Defined.

Section FirstCandidate.
Context {W : Type} (drv : Driver W).

(** Candidates that are passed over leave the loop where it would be
    without them. *)
Lemma submit_loop_passes_over skipped more (st st_k : St W) :
  Log.passes_over_all drv skipped st st_k ->
  ExternalFormMapper.submit_loop drv (skipped ++ more) st
    = ExternalFormMapper.submit_loop drv more st_k.
Proof.
  revert st. induction skipped as [| s skipped IH]; intros st Hpass.
  - cbn in Hpass. subst st_k. reflexivity.
  - destruct Hpass as (st1 & Hs & Hmore).
    change ((s :: skipped) ++ more) with (s :: (skipped ++ more)).
    cbn [ExternalFormMapper.submit_loop].
    unfold bind at 1. unfold try_except, bind at 1. unfold call.
    destruct Hs as [(w' & Hen & ->) | [(e & w' & Hen & ->) | (w1 & e & w2 & Hen & Hcl & ->)]];
      rewrite Hen; cbn [ret world trace temp_files].
    + apply IH, Hmore.
    + apply IH, Hmore.
    + unfold bind at 1, act. cbn [world trace temp_files]. rewrite Hcl.
      apply IH, Hmore.
Qed.

(** Passing candidates over adds nothing to the log but clicks on them,
    and leaves [temp_files] alone. *)
Lemma passes_over_all_log skipped (st st_k : St W) :
  Log.passes_over_all drv skipped st st_k ->
  temp_files st_k = temp_files st /\
  forall ev, In ev (trace st_k) ->
             In ev (trace st) \/ exists s, In s skipped /\ ev = EvClick s.
Proof.
  revert st. induction skipped as [| s skipped IH]; intros st Hpass.
  - cbn in Hpass. subst st_k. split; [ reflexivity | intros ev H; left; exact H ].
  - destruct Hpass as (st1 & Hs & Hmore).
    destruct (IH st1 Hmore) as (Hfiles & Hlog).
    assert (H1 : temp_files st1 = temp_files st /\
                 forall ev, In ev (trace st1) -> In ev (trace st) \/ ev = EvClick s).
    { destruct Hs as [(w' & _ & ->) | [(e & w' & _ & ->) | (w1 & e & w2 & _ & _ & ->)]];
        cbn [trace temp_files]; (split; [ reflexivity | ]); intros ev H.
      - left; exact H.
      - left; exact H.
      - destruct H as [<- | H]; [ right; reflexivity | left; exact H ]. }
    destruct H1 as (Hf1 & Hl1).
    split; [ congruence | ].
    intros ev Hev. destruct (Hlog ev Hev) as [H | (s' & Hin & ->)].
    + destruct (Hl1 ev H) as [H' | ->]; [ left; exact H' | ].
      right. exists s. split; [ left; reflexivity | reflexivity ].
    + right. exists s'. split; [ right; exact Hin | reflexivity ].
Qed.

(** X23. The first enabled submit candidate whose click goes through
    decides the submission.  The candidates before it are passed over
    (disabled, unreadable, or their click raised); then the result is the
    classification of the page read after the pause, success or failure
    (stated for a page source in ASCII), and no later candidate is looked
    at or clicked: the click on the deciding candidate is the last entry
    of the log, and below it the log gained only the raised clicks on
    the candidates passed over. *)
Theorem submit_form_first_click_decides :
  forall (skipped : list WebElement) (submit_field : WebElement) (rest : list WebElement)
         (st st_k : St W) (page_text : string) (w1 w2 w3 : W),
    Log.passes_over_all drv skipped st st_k ->
    is_enabled drv submit_field (world st_k) = (Ok true, w1) ->
    click drv submit_field w1 = (Ok tt, w2) ->
    page_source drv (sleep drv w2) = (Ok page_text, w3) ->
    Py.is_ascii page_text = true ->
    ExternalFormMapper.submit_form drv (skipped ++ submit_field :: rest) st
      = (Ok (if Py.any_in ExternalFormMapper.success_indicators (Py.lower page_text)
             then true
             else negb (Py.any_in ExternalFormMapper.error_indicators (Py.lower page_text))),
         mkSt w3 (EvClick submit_field :: trace st_k) (temp_files st)) /\
    (forall ev, In ev (trace st_k) ->
                In ev (trace st) \/ exists s, In s skipped /\ ev = EvClick s).
Proof.
  intros skipped submit_field rest st st_k page_text w1 w2 w3 Hpass Hen Hclick Hsrc _.
  destruct (passes_over_all_log skipped st st_k Hpass) as (Hfiles & Hlog).
  split; [ | exact Hlog ].
  unfold ExternalFormMapper.submit_form, try_except.
  assert (Hloop : ExternalFormMapper.submit_loop drv (skipped ++ submit_field :: rest) st
                  = (Ok (if Py.any_in ExternalFormMapper.success_indicators
                              (Py.lower page_text)
                         then true
                         else negb (Py.any_in ExternalFormMapper.error_indicators
                                      (Py.lower page_text))),
                     mkSt w3 (EvClick submit_field :: trace st_k) (temp_files st))).
  { rewrite (submit_loop_passes_over skipped (submit_field :: rest) st st_k Hpass).
    cbn [ExternalFormMapper.submit_loop].
    unfold bind at 1. unfold try_except, bind at 1.
    rewrite (call_eq _ _ _ _ Hen).
    unfold bind at 1, act. cbn [world trace temp_files]. rewrite Hclick.
    unfold bind at 1, ExternalFormMapper.time_sleep, pause. cbn [world trace temp_files].
    unfold bind at 1, ExternalFormMapper.check_submission_success, try_except.
    unfold bind at 1, call. cbn [world trace temp_files]. rewrite Hsrc, Hfiles.
    destruct (Py.any_in ExternalFormMapper.success_indicators (Py.lower page_text));
      [ reflexivity | ].
    destruct (Py.any_in ExternalFormMapper.error_indicators (Py.lower page_text));
      reflexivity. }
  destruct (skipped ++ submit_field :: rest) as [| f0 l0] eqn:Hlist.
  - destruct skipped; discriminate Hlist.
  - rewrite Hloop. reflexivity.
Qed.

End FirstCandidate.

(** The first button cannot be read, the second is disabled, the click
    on the third raises, the fourth decides, the fifth is never touched;
    and a first button that decides with a failure. *)
Lemma submit_form_first_click_decides_witness :
  ExternalFormMapper.submit_form (Fixture.driver Fixture.fourth_button_page)
    [6; 7; 8; 9; 10] Fixture.st0 = (Ok true, mkSt tt [ EvClick 9; EvClick 8 ] [])
  /\ ExternalFormMapper.submit_form (Fixture.driver Fixture.shouting_error_page) [8; 9]
       Fixture.st0 = (Ok false, mkSt tt [ EvClick 8 ] []).
Proof.
  split.
  - apply (submit_form_first_click_decides (Fixture.driver Fixture.fourth_button_page)
             [6; 7; 8] 9 [10] Fixture.st0 (mkSt tt [ EvClick 8 ] [])
             "<p>Thank you for your application</p>" tt tt tt);
      try reflexivity.
    exists Fixture.st0. split.
    { right. left. exists WebDriverException, tt. split; reflexivity. }
    exists Fixture.st0. split.
    { left. exists tt. split; reflexivity. }
    exists (mkSt tt [ EvClick 8 ] []). split.
    { right. right. exists tt, WebDriverException, tt. repeat split. }
    reflexivity.
  - apply (submit_form_first_click_decides (Fixture.driver Fixture.shouting_error_page)
             [] 8 [9] Fixture.st0 Fixture.st0 "<p>ERROR OCCURRED</p>" tt tt tt);
      reflexivity.
Defined.
